(** * Basic-PDF-Reader: the extraction pipeline of [reader.py]

    A shallow embedding of [reader.py] and the properties of its
    specification.

    Modelling conventions.
    - OCR text, store names, file names: lists of Unicode code points
      ([text]), as Python's [str].  The character classes of [re] and
      [str] ([\d], [\s], [\w], the classes of the patterns under
      [re.IGNORECASE], [str.upper], [str.lower], [str.strip]) are those
      of CPython 3.11 with its Unicode 14.0 tables, which the file
      holds; [int] has CPython's limit of 4300 digits.
    - The regular expressions of the script are values of a small
      syntax ([regex]) run by a backtracking matcher that lists the
      ways a pattern matches in the order Python's [re] tries them; the
      head of that list is the match [re] reports.
    - pytesseract, pdf2image, PyPDF2 and the file system are an explicit
      environment: the replies of the OCR engine are given per call, so
      that a call can fail and its retry succeed.
    - Code that can raise runs in a state-and-exception monad; the state
      records the calls made to the engine ([event]s) and the content of
      the output directory.
    - [Pool.imap_unordered] is the documents taken one after the other
      in the order of arrival, which the environment gives.
    - Writing a file that PyPDF2 could read does not fail.  Logging and
      console output are taken to succeed (the console can encode what
      is printed); they and the cleaning of temporary files are not
      modelled.

    The definitions come first, then the test data, then the proofs;
    the theorems of the specification are marked C1 to C10. *)

From Stdlib Require Import Ascii String NArith ZArith Lia DecimalString DecimalNat.
From stdpp Require Import base option list strings gmap sets.

Local Open Scope nat_scope.

(** ** Text *)

Module Text.

(** A character of a Python [str]: a Unicode code point. *)
Abbreviation char := N.

Abbreviation text := (list char).

(** The code point of an ASCII character. *)
Definition code (c : ascii) : char := N_of_ascii c.

Coercion code : ascii >-> N.

(** A Python string literal of ASCII characters. *)
Definition str (s : string) : text := code <$> list_ascii_of_string s.

Definition in_range (lo hi : N) (c : char) : bool :=
  ((lo <=? c) && (c <=? hi))%N.

Definition in_ranges (table : list (N * N)) (c : char) : bool :=
  existsb (fun r => in_range r.1 r.2 c) table.

(** *** The character tables of CPython 3.11 (Unicode 14.0) *)

(** The digit zero of each run of ten decimal digits (category Nd). *)
Definition decimal_zeros : list N :=
  [
   0x30; 0x660; 0x6F0; 0x7C0; 0x966; 0x9E6; 0xA66; 0xAE6; 0xB66; 0xBE6;
   0xC66; 0xCE6; 0xD66; 0xDE6; 0xE50; 0xED0; 0xF20; 0x1040; 0x1090; 0x17E0;
   0x1810; 0x1946; 0x19D0; 0x1A80; 0x1A90; 0x1B50; 0x1BB0; 0x1C40; 0x1C50;
   0xA620; 0xA8D0; 0xA900; 0xA9D0; 0xA9F0; 0xAA50; 0xABF0; 0xFF10; 0x104A0;
   0x10D30; 0x11066; 0x110F0; 0x11136; 0x111D0; 0x112F0; 0x11450; 0x114D0;
   0x11650; 0x116C0; 0x11730; 0x118E0; 0x11950; 0x11C50; 0x11D50; 0x11DA0;
   0x16A60; 0x16AC0; 0x16B50; 0x1D7CE; 0x1D7D8; 0x1D7E2; 0x1D7EC; 0x1D7F6;
   0x1E140; 0x1E2F0; 0x1E950; 0x1FBF0
  ]%N.

(** The whitespace characters ([str.isspace]). *)
Definition space_ranges : list (N * N) :=
  [
   (0x9, 0xD); (0x1C, 0x20); (0x85, 0x85); (0xA0, 0xA0); (0x1680, 0x1680);
   (0x2000, 0x200A); (0x2028, 0x2029); (0x202F, 0x202F); (0x205F, 0x205F);
   (0x3000, 0x3000)
  ]%N.

(** The alphanumeric characters ([str.isalnum]) and the underscore. *)
Definition word_ranges : list (N * N) :=
  [
   (0x30, 0x39); (0x41, 0x5A); (0x5F, 0x5F); (0x61, 0x7A); (0xAA, 0xAA);
   (0xB2, 0xB3); (0xB5, 0xB5); (0xB9, 0xBA); (0xBC, 0xBE); (0xC0, 0xD6);
   (0xD8, 0xF6); (0xF8, 0x2C1); (0x2C6, 0x2D1); (0x2E0, 0x2E4);
   (0x2EC, 0x2EC); (0x2EE, 0x2EE); (0x370, 0x374); (0x376, 0x377);
   (0x37A, 0x37D); (0x37F, 0x37F); (0x386, 0x386); (0x388, 0x38A);
   (0x38C, 0x38C); (0x38E, 0x3A1); (0x3A3, 0x3F5); (0x3F7, 0x481);
   (0x48A, 0x52F); (0x531, 0x556); (0x559, 0x559); (0x560, 0x588);
   (0x5D0, 0x5EA); (0x5EF, 0x5F2); (0x620, 0x64A); (0x660, 0x669);
   (0x66E, 0x66F); (0x671, 0x6D3); (0x6D5, 0x6D5); (0x6E5, 0x6E6);
   (0x6EE, 0x6FC); (0x6FF, 0x6FF); (0x710, 0x710); (0x712, 0x72F);
   (0x74D, 0x7A5); (0x7B1, 0x7B1); (0x7C0, 0x7EA); (0x7F4, 0x7F5);
   (0x7FA, 0x7FA); (0x800, 0x815); (0x81A, 0x81A); (0x824, 0x824);
   (0x828, 0x828); (0x840, 0x858); (0x860, 0x86A); (0x870, 0x887);
   (0x889, 0x88E); (0x8A0, 0x8C9); (0x904, 0x939); (0x93D, 0x93D);
   (0x950, 0x950); (0x958, 0x961); (0x966, 0x96F); (0x971, 0x980);
   (0x985, 0x98C); (0x98F, 0x990); (0x993, 0x9A8); (0x9AA, 0x9B0);
   (0x9B2, 0x9B2); (0x9B6, 0x9B9); (0x9BD, 0x9BD); (0x9CE, 0x9CE);
   (0x9DC, 0x9DD); (0x9DF, 0x9E1); (0x9E6, 0x9F1); (0x9F4, 0x9F9);
   (0x9FC, 0x9FC); (0xA05, 0xA0A); (0xA0F, 0xA10); (0xA13, 0xA28);
   (0xA2A, 0xA30); (0xA32, 0xA33); (0xA35, 0xA36); (0xA38, 0xA39);
   (0xA59, 0xA5C); (0xA5E, 0xA5E); (0xA66, 0xA6F); (0xA72, 0xA74);
   (0xA85, 0xA8D); (0xA8F, 0xA91); (0xA93, 0xAA8); (0xAAA, 0xAB0);
   (0xAB2, 0xAB3); (0xAB5, 0xAB9); (0xABD, 0xABD); (0xAD0, 0xAD0);
   (0xAE0, 0xAE1); (0xAE6, 0xAEF); (0xAF9, 0xAF9); (0xB05, 0xB0C);
   (0xB0F, 0xB10); (0xB13, 0xB28); (0xB2A, 0xB30); (0xB32, 0xB33);
   (0xB35, 0xB39); (0xB3D, 0xB3D); (0xB5C, 0xB5D); (0xB5F, 0xB61);
   (0xB66, 0xB6F); (0xB71, 0xB77); (0xB83, 0xB83); (0xB85, 0xB8A);
   (0xB8E, 0xB90); (0xB92, 0xB95); (0xB99, 0xB9A); (0xB9C, 0xB9C);
   (0xB9E, 0xB9F); (0xBA3, 0xBA4); (0xBA8, 0xBAA); (0xBAE, 0xBB9);
   (0xBD0, 0xBD0); (0xBE6, 0xBF2); (0xC05, 0xC0C); (0xC0E, 0xC10);
   (0xC12, 0xC28); (0xC2A, 0xC39); (0xC3D, 0xC3D); (0xC58, 0xC5A);
   (0xC5D, 0xC5D); (0xC60, 0xC61); (0xC66, 0xC6F); (0xC78, 0xC7E);
   (0xC80, 0xC80); (0xC85, 0xC8C); (0xC8E, 0xC90); (0xC92, 0xCA8);
   (0xCAA, 0xCB3); (0xCB5, 0xCB9); (0xCBD, 0xCBD); (0xCDD, 0xCDE);
   (0xCE0, 0xCE1); (0xCE6, 0xCEF); (0xCF1, 0xCF2); (0xD04, 0xD0C);
   (0xD0E, 0xD10); (0xD12, 0xD3A); (0xD3D, 0xD3D); (0xD4E, 0xD4E);
   (0xD54, 0xD56); (0xD58, 0xD61); (0xD66, 0xD78); (0xD7A, 0xD7F);
   (0xD85, 0xD96); (0xD9A, 0xDB1); (0xDB3, 0xDBB); (0xDBD, 0xDBD);
   (0xDC0, 0xDC6); (0xDE6, 0xDEF); (0xE01, 0xE30); (0xE32, 0xE33);
   (0xE40, 0xE46); (0xE50, 0xE59); (0xE81, 0xE82); (0xE84, 0xE84);
   (0xE86, 0xE8A); (0xE8C, 0xEA3); (0xEA5, 0xEA5); (0xEA7, 0xEB0);
   (0xEB2, 0xEB3); (0xEBD, 0xEBD); (0xEC0, 0xEC4); (0xEC6, 0xEC6);
   (0xED0, 0xED9); (0xEDC, 0xEDF); (0xF00, 0xF00); (0xF20, 0xF33);
   (0xF40, 0xF47); (0xF49, 0xF6C); (0xF88, 0xF8C); (0x1000, 0x102A);
   (0x103F, 0x1049); (0x1050, 0x1055); (0x105A, 0x105D); (0x1061, 0x1061);
   (0x1065, 0x1066); (0x106E, 0x1070); (0x1075, 0x1081); (0x108E, 0x108E);
   (0x1090, 0x1099); (0x10A0, 0x10C5); (0x10C7, 0x10C7); (0x10CD, 0x10CD);
   (0x10D0, 0x10FA); (0x10FC, 0x1248); (0x124A, 0x124D); (0x1250, 0x1256);
   (0x1258, 0x1258); (0x125A, 0x125D); (0x1260, 0x1288); (0x128A, 0x128D);
   (0x1290, 0x12B0); (0x12B2, 0x12B5); (0x12B8, 0x12BE); (0x12C0, 0x12C0);
   (0x12C2, 0x12C5); (0x12C8, 0x12D6); (0x12D8, 0x1310); (0x1312, 0x1315);
   (0x1318, 0x135A); (0x1369, 0x137C); (0x1380, 0x138F); (0x13A0, 0x13F5);
   (0x13F8, 0x13FD); (0x1401, 0x166C); (0x166F, 0x167F); (0x1681, 0x169A);
   (0x16A0, 0x16EA); (0x16EE, 0x16F8); (0x1700, 0x1711); (0x171F, 0x1731);
   (0x1740, 0x1751); (0x1760, 0x176C); (0x176E, 0x1770); (0x1780, 0x17B3);
   (0x17D7, 0x17D7); (0x17DC, 0x17DC); (0x17E0, 0x17E9); (0x17F0, 0x17F9);
   (0x1810, 0x1819); (0x1820, 0x1878); (0x1880, 0x1884); (0x1887, 0x18A8);
   (0x18AA, 0x18AA); (0x18B0, 0x18F5); (0x1900, 0x191E); (0x1946, 0x196D);
   (0x1970, 0x1974); (0x1980, 0x19AB); (0x19B0, 0x19C9); (0x19D0, 0x19DA);
   (0x1A00, 0x1A16); (0x1A20, 0x1A54); (0x1A80, 0x1A89); (0x1A90, 0x1A99);
   (0x1AA7, 0x1AA7); (0x1B05, 0x1B33); (0x1B45, 0x1B4C); (0x1B50, 0x1B59);
   (0x1B83, 0x1BA0); (0x1BAE, 0x1BE5); (0x1C00, 0x1C23); (0x1C40, 0x1C49);
   (0x1C4D, 0x1C7D); (0x1C80, 0x1C88); (0x1C90, 0x1CBA); (0x1CBD, 0x1CBF);
   (0x1CE9, 0x1CEC); (0x1CEE, 0x1CF3); (0x1CF5, 0x1CF6); (0x1CFA, 0x1CFA);
   (0x1D00, 0x1DBF); (0x1E00, 0x1F15); (0x1F18, 0x1F1D); (0x1F20, 0x1F45);
   (0x1F48, 0x1F4D); (0x1F50, 0x1F57); (0x1F59, 0x1F59); (0x1F5B, 0x1F5B);
   (0x1F5D, 0x1F5D); (0x1F5F, 0x1F7D); (0x1F80, 0x1FB4); (0x1FB6, 0x1FBC);
   (0x1FBE, 0x1FBE); (0x1FC2, 0x1FC4); (0x1FC6, 0x1FCC); (0x1FD0, 0x1FD3);
   (0x1FD6, 0x1FDB); (0x1FE0, 0x1FEC); (0x1FF2, 0x1FF4); (0x1FF6, 0x1FFC);
   (0x2070, 0x2071); (0x2074, 0x2079); (0x207F, 0x2089); (0x2090, 0x209C);
   (0x2102, 0x2102); (0x2107, 0x2107); (0x210A, 0x2113); (0x2115, 0x2115);
   (0x2119, 0x211D); (0x2124, 0x2124); (0x2126, 0x2126); (0x2128, 0x2128);
   (0x212A, 0x212D); (0x212F, 0x2139); (0x213C, 0x213F); (0x2145, 0x2149);
   (0x214E, 0x214E); (0x2150, 0x2189); (0x2460, 0x249B); (0x24EA, 0x24FF);
   (0x2776, 0x2793); (0x2C00, 0x2CE4); (0x2CEB, 0x2CEE); (0x2CF2, 0x2CF3);
   (0x2CFD, 0x2CFD); (0x2D00, 0x2D25); (0x2D27, 0x2D27); (0x2D2D, 0x2D2D);
   (0x2D30, 0x2D67); (0x2D6F, 0x2D6F); (0x2D80, 0x2D96); (0x2DA0, 0x2DA6);
   (0x2DA8, 0x2DAE); (0x2DB0, 0x2DB6); (0x2DB8, 0x2DBE); (0x2DC0, 0x2DC6);
   (0x2DC8, 0x2DCE); (0x2DD0, 0x2DD6); (0x2DD8, 0x2DDE); (0x2E2F, 0x2E2F);
   (0x3005, 0x3007); (0x3021, 0x3029); (0x3031, 0x3035); (0x3038, 0x303C);
   (0x3041, 0x3096); (0x309D, 0x309F); (0x30A1, 0x30FA); (0x30FC, 0x30FF);
   (0x3105, 0x312F); (0x3131, 0x318E); (0x3192, 0x3195); (0x31A0, 0x31BF);
   (0x31F0, 0x31FF); (0x3220, 0x3229); (0x3248, 0x324F); (0x3251, 0x325F);
   (0x3280, 0x3289); (0x32B1, 0x32BF); (0x3400, 0x4DBF); (0x4E00, 0xA48C);
   (0xA4D0, 0xA4FD); (0xA500, 0xA60C); (0xA610, 0xA62B); (0xA640, 0xA66E);
   (0xA67F, 0xA69D); (0xA6A0, 0xA6EF); (0xA717, 0xA71F); (0xA722, 0xA788);
   (0xA78B, 0xA7CA); (0xA7D0, 0xA7D1); (0xA7D3, 0xA7D3); (0xA7D5, 0xA7D9);
   (0xA7F2, 0xA801); (0xA803, 0xA805); (0xA807, 0xA80A); (0xA80C, 0xA822);
   (0xA830, 0xA835); (0xA840, 0xA873); (0xA882, 0xA8B3); (0xA8D0, 0xA8D9);
   (0xA8F2, 0xA8F7); (0xA8FB, 0xA8FB); (0xA8FD, 0xA8FE); (0xA900, 0xA925);
   (0xA930, 0xA946); (0xA960, 0xA97C); (0xA984, 0xA9B2); (0xA9CF, 0xA9D9);
   (0xA9E0, 0xA9E4); (0xA9E6, 0xA9FE); (0xAA00, 0xAA28); (0xAA40, 0xAA42);
   (0xAA44, 0xAA4B); (0xAA50, 0xAA59); (0xAA60, 0xAA76); (0xAA7A, 0xAA7A);
   (0xAA7E, 0xAAAF); (0xAAB1, 0xAAB1); (0xAAB5, 0xAAB6); (0xAAB9, 0xAABD);
   (0xAAC0, 0xAAC0); (0xAAC2, 0xAAC2); (0xAADB, 0xAADD); (0xAAE0, 0xAAEA);
   (0xAAF2, 0xAAF4); (0xAB01, 0xAB06); (0xAB09, 0xAB0E); (0xAB11, 0xAB16);
   (0xAB20, 0xAB26); (0xAB28, 0xAB2E); (0xAB30, 0xAB5A); (0xAB5C, 0xAB69);
   (0xAB70, 0xABE2); (0xABF0, 0xABF9); (0xAC00, 0xD7A3); (0xD7B0, 0xD7C6);
   (0xD7CB, 0xD7FB); (0xF900, 0xFA6D); (0xFA70, 0xFAD9); (0xFB00, 0xFB06);
   (0xFB13, 0xFB17); (0xFB1D, 0xFB1D); (0xFB1F, 0xFB28); (0xFB2A, 0xFB36);
   (0xFB38, 0xFB3C); (0xFB3E, 0xFB3E); (0xFB40, 0xFB41); (0xFB43, 0xFB44);
   (0xFB46, 0xFBB1); (0xFBD3, 0xFD3D); (0xFD50, 0xFD8F); (0xFD92, 0xFDC7);
   (0xFDF0, 0xFDFB); (0xFE70, 0xFE74); (0xFE76, 0xFEFC); (0xFF10, 0xFF19);
   (0xFF21, 0xFF3A); (0xFF41, 0xFF5A); (0xFF66, 0xFFBE); (0xFFC2, 0xFFC7);
   (0xFFCA, 0xFFCF); (0xFFD2, 0xFFD7); (0xFFDA, 0xFFDC);
   (0x10000, 0x1000B); (0x1000D, 0x10026); (0x10028, 0x1003A);
   (0x1003C, 0x1003D); (0x1003F, 0x1004D); (0x10050, 0x1005D);
   (0x10080, 0x100FA); (0x10107, 0x10133); (0x10140, 0x10178);
   (0x1018A, 0x1018B); (0x10280, 0x1029C); (0x102A0, 0x102D0);
   (0x102E1, 0x102FB); (0x10300, 0x10323); (0x1032D, 0x1034A);
   (0x10350, 0x10375); (0x10380, 0x1039D); (0x103A0, 0x103C3);
   (0x103C8, 0x103CF); (0x103D1, 0x103D5); (0x10400, 0x1049D);
   (0x104A0, 0x104A9); (0x104B0, 0x104D3); (0x104D8, 0x104FB);
   (0x10500, 0x10527); (0x10530, 0x10563); (0x10570, 0x1057A);
   (0x1057C, 0x1058A); (0x1058C, 0x10592); (0x10594, 0x10595);
   (0x10597, 0x105A1); (0x105A3, 0x105B1); (0x105B3, 0x105B9);
   (0x105BB, 0x105BC); (0x10600, 0x10736); (0x10740, 0x10755);
   (0x10760, 0x10767); (0x10780, 0x10785); (0x10787, 0x107B0);
   (0x107B2, 0x107BA); (0x10800, 0x10805); (0x10808, 0x10808);
   (0x1080A, 0x10835); (0x10837, 0x10838); (0x1083C, 0x1083C);
   (0x1083F, 0x10855); (0x10858, 0x10876); (0x10879, 0x1089E);
   (0x108A7, 0x108AF); (0x108E0, 0x108F2); (0x108F4, 0x108F5);
   (0x108FB, 0x1091B); (0x10920, 0x10939); (0x10980, 0x109B7);
   (0x109BC, 0x109CF); (0x109D2, 0x10A00); (0x10A10, 0x10A13);
   (0x10A15, 0x10A17); (0x10A19, 0x10A35); (0x10A40, 0x10A48);
   (0x10A60, 0x10A7E); (0x10A80, 0x10A9F); (0x10AC0, 0x10AC7);
   (0x10AC9, 0x10AE4); (0x10AEB, 0x10AEF); (0x10B00, 0x10B35);
   (0x10B40, 0x10B55); (0x10B58, 0x10B72); (0x10B78, 0x10B91);
   (0x10BA9, 0x10BAF); (0x10C00, 0x10C48); (0x10C80, 0x10CB2);
   (0x10CC0, 0x10CF2); (0x10CFA, 0x10D23); (0x10D30, 0x10D39);
   (0x10E60, 0x10E7E); (0x10E80, 0x10EA9); (0x10EB0, 0x10EB1);
   (0x10F00, 0x10F27); (0x10F30, 0x10F45); (0x10F51, 0x10F54);
   (0x10F70, 0x10F81); (0x10FB0, 0x10FCB); (0x10FE0, 0x10FF6);
   (0x11003, 0x11037); (0x11052, 0x1106F); (0x11071, 0x11072);
   (0x11075, 0x11075); (0x11083, 0x110AF); (0x110D0, 0x110E8);
   (0x110F0, 0x110F9); (0x11103, 0x11126); (0x11136, 0x1113F);
   (0x11144, 0x11144); (0x11147, 0x11147); (0x11150, 0x11172);
   (0x11176, 0x11176); (0x11183, 0x111B2); (0x111C1, 0x111C4);
   (0x111D0, 0x111DA); (0x111DC, 0x111DC); (0x111E1, 0x111F4);
   (0x11200, 0x11211); (0x11213, 0x1122B); (0x11280, 0x11286);
   (0x11288, 0x11288); (0x1128A, 0x1128D); (0x1128F, 0x1129D);
   (0x1129F, 0x112A8); (0x112B0, 0x112DE); (0x112F0, 0x112F9);
   (0x11305, 0x1130C); (0x1130F, 0x11310); (0x11313, 0x11328);
   (0x1132A, 0x11330); (0x11332, 0x11333); (0x11335, 0x11339);
   (0x1133D, 0x1133D); (0x11350, 0x11350); (0x1135D, 0x11361);
   (0x11400, 0x11434); (0x11447, 0x1144A); (0x11450, 0x11459);
   (0x1145F, 0x11461); (0x11480, 0x114AF); (0x114C4, 0x114C5);
   (0x114C7, 0x114C7); (0x114D0, 0x114D9); (0x11580, 0x115AE);
   (0x115D8, 0x115DB); (0x11600, 0x1162F); (0x11644, 0x11644);
   (0x11650, 0x11659); (0x11680, 0x116AA); (0x116B8, 0x116B8);
   (0x116C0, 0x116C9); (0x11700, 0x1171A); (0x11730, 0x1173B);
   (0x11740, 0x11746); (0x11800, 0x1182B); (0x118A0, 0x118F2);
   (0x118FF, 0x11906); (0x11909, 0x11909); (0x1190C, 0x11913);
   (0x11915, 0x11916); (0x11918, 0x1192F); (0x1193F, 0x1193F);
   (0x11941, 0x11941); (0x11950, 0x11959); (0x119A0, 0x119A7);
   (0x119AA, 0x119D0); (0x119E1, 0x119E1); (0x119E3, 0x119E3);
   (0x11A00, 0x11A00); (0x11A0B, 0x11A32); (0x11A3A, 0x11A3A);
   (0x11A50, 0x11A50); (0x11A5C, 0x11A89); (0x11A9D, 0x11A9D);
   (0x11AB0, 0x11AF8); (0x11C00, 0x11C08); (0x11C0A, 0x11C2E);
   (0x11C40, 0x11C40); (0x11C50, 0x11C6C); (0x11C72, 0x11C8F);
   (0x11D00, 0x11D06); (0x11D08, 0x11D09); (0x11D0B, 0x11D30);
   (0x11D46, 0x11D46); (0x11D50, 0x11D59); (0x11D60, 0x11D65);
   (0x11D67, 0x11D68); (0x11D6A, 0x11D89); (0x11D98, 0x11D98);
   (0x11DA0, 0x11DA9); (0x11EE0, 0x11EF2); (0x11FB0, 0x11FB0);
   (0x11FC0, 0x11FD4); (0x12000, 0x12399); (0x12400, 0x1246E);
   (0x12480, 0x12543); (0x12F90, 0x12FF0); (0x13000, 0x1342E);
   (0x14400, 0x14646); (0x16800, 0x16A38); (0x16A40, 0x16A5E);
   (0x16A60, 0x16A69); (0x16A70, 0x16ABE); (0x16AC0, 0x16AC9);
   (0x16AD0, 0x16AED); (0x16B00, 0x16B2F); (0x16B40, 0x16B43);
   (0x16B50, 0x16B59); (0x16B5B, 0x16B61); (0x16B63, 0x16B77);
   (0x16B7D, 0x16B8F); (0x16E40, 0x16E96); (0x16F00, 0x16F4A);
   (0x16F50, 0x16F50); (0x16F93, 0x16F9F); (0x16FE0, 0x16FE1);
   (0x16FE3, 0x16FE3); (0x17000, 0x187F7); (0x18800, 0x18CD5);
   (0x18D00, 0x18D08); (0x1AFF0, 0x1AFF3); (0x1AFF5, 0x1AFFB);
   (0x1AFFD, 0x1AFFE); (0x1B000, 0x1B122); (0x1B150, 0x1B152);
   (0x1B164, 0x1B167); (0x1B170, 0x1B2FB); (0x1BC00, 0x1BC6A);
   (0x1BC70, 0x1BC7C); (0x1BC80, 0x1BC88); (0x1BC90, 0x1BC99);
   (0x1D2E0, 0x1D2F3); (0x1D360, 0x1D378); (0x1D400, 0x1D454);
   (0x1D456, 0x1D49C); (0x1D49E, 0x1D49F); (0x1D4A2, 0x1D4A2);
   (0x1D4A5, 0x1D4A6); (0x1D4A9, 0x1D4AC); (0x1D4AE, 0x1D4B9);
   (0x1D4BB, 0x1D4BB); (0x1D4BD, 0x1D4C3); (0x1D4C5, 0x1D505);
   (0x1D507, 0x1D50A); (0x1D50D, 0x1D514); (0x1D516, 0x1D51C);
   (0x1D51E, 0x1D539); (0x1D53B, 0x1D53E); (0x1D540, 0x1D544);
   (0x1D546, 0x1D546); (0x1D54A, 0x1D550); (0x1D552, 0x1D6A5);
   (0x1D6A8, 0x1D6C0); (0x1D6C2, 0x1D6DA); (0x1D6DC, 0x1D6FA);
   (0x1D6FC, 0x1D714); (0x1D716, 0x1D734); (0x1D736, 0x1D74E);
   (0x1D750, 0x1D76E); (0x1D770, 0x1D788); (0x1D78A, 0x1D7A8);
   (0x1D7AA, 0x1D7C2); (0x1D7C4, 0x1D7CB); (0x1D7CE, 0x1D7FF);
   (0x1DF00, 0x1DF1E); (0x1E100, 0x1E12C); (0x1E137, 0x1E13D);
   (0x1E140, 0x1E149); (0x1E14E, 0x1E14E); (0x1E290, 0x1E2AD);
   (0x1E2C0, 0x1E2EB); (0x1E2F0, 0x1E2F9); (0x1E7E0, 0x1E7E6);
   (0x1E7E8, 0x1E7EB); (0x1E7ED, 0x1E7EE); (0x1E7F0, 0x1E7FE);
   (0x1E800, 0x1E8C4); (0x1E8C7, 0x1E8CF); (0x1E900, 0x1E943);
   (0x1E94B, 0x1E94B); (0x1E950, 0x1E959); (0x1EC71, 0x1ECAB);
   (0x1ECAD, 0x1ECAF); (0x1ECB1, 0x1ECB4); (0x1ED01, 0x1ED2D);
   (0x1ED2F, 0x1ED3D); (0x1EE00, 0x1EE03); (0x1EE05, 0x1EE1F);
   (0x1EE21, 0x1EE22); (0x1EE24, 0x1EE24); (0x1EE27, 0x1EE27);
   (0x1EE29, 0x1EE32); (0x1EE34, 0x1EE37); (0x1EE39, 0x1EE39);
   (0x1EE3B, 0x1EE3B); (0x1EE42, 0x1EE42); (0x1EE47, 0x1EE47);
   (0x1EE49, 0x1EE49); (0x1EE4B, 0x1EE4B); (0x1EE4D, 0x1EE4F);
   (0x1EE51, 0x1EE52); (0x1EE54, 0x1EE54); (0x1EE57, 0x1EE57);
   (0x1EE59, 0x1EE59); (0x1EE5B, 0x1EE5B); (0x1EE5D, 0x1EE5D);
   (0x1EE5F, 0x1EE5F); (0x1EE61, 0x1EE62); (0x1EE64, 0x1EE64);
   (0x1EE67, 0x1EE6A); (0x1EE6C, 0x1EE72); (0x1EE74, 0x1EE77);
   (0x1EE79, 0x1EE7C); (0x1EE7E, 0x1EE7E); (0x1EE80, 0x1EE89);
   (0x1EE8B, 0x1EE9B); (0x1EEA1, 0x1EEA3); (0x1EEA5, 0x1EEA9);
   (0x1EEAB, 0x1EEBB); (0x1F100, 0x1F10C); (0x1FBF0, 0x1FBF9);
   (0x20000, 0x2A6DF); (0x2A700, 0x2B738); (0x2B740, 0x2B81D);
   (0x2B820, 0x2CEA1); (0x2CEB0, 0x2EBE0); (0x2F800, 0x2FA1D);
   (0x30000, 0x3134A)
  ]%N.

(** Upper case, one character to one: the characters [lo], [lo + step],
    ... up to [hi] go to [to], [to + step], ... *)
Definition upper_runs : list (N * N * N * N) :=
  [
   (0x61, 0x7A, 1, 0x41); (0xB5, 0xB5, 1, 0x39C); (0xE0, 0xF6, 1, 0xC0);
   (0xF8, 0xFE, 1, 0xD8); (0xFF, 0xFF, 1, 0x178); (0x101, 0x12F, 2, 0x100);
   (0x131, 0x131, 1, 0x49); (0x133, 0x137, 2, 0x132);
   (0x13A, 0x148, 2, 0x139); (0x14B, 0x177, 2, 0x14A);
   (0x17A, 0x17E, 2, 0x179); (0x17F, 0x17F, 1, 0x53);
   (0x180, 0x180, 1, 0x243); (0x183, 0x185, 2, 0x182);
   (0x188, 0x188, 1, 0x187); (0x18C, 0x18C, 1, 0x18B);
   (0x192, 0x192, 1, 0x191); (0x195, 0x195, 1, 0x1F6);
   (0x199, 0x199, 1, 0x198); (0x19A, 0x19A, 1, 0x23D);
   (0x19E, 0x19E, 1, 0x220); (0x1A1, 0x1A5, 2, 0x1A0);
   (0x1A8, 0x1A8, 1, 0x1A7); (0x1AD, 0x1AD, 1, 0x1AC);
   (0x1B0, 0x1B0, 1, 0x1AF); (0x1B4, 0x1B6, 2, 0x1B3);
   (0x1B9, 0x1B9, 1, 0x1B8); (0x1BD, 0x1BD, 1, 0x1BC);
   (0x1BF, 0x1BF, 1, 0x1F7); (0x1C5, 0x1C5, 1, 0x1C4);
   (0x1C6, 0x1C6, 1, 0x1C4); (0x1C8, 0x1C8, 1, 0x1C7);
   (0x1C9, 0x1C9, 1, 0x1C7); (0x1CB, 0x1CB, 1, 0x1CA);
   (0x1CC, 0x1CC, 1, 0x1CA); (0x1CE, 0x1DC, 2, 0x1CD);
   (0x1DD, 0x1DD, 1, 0x18E); (0x1DF, 0x1EF, 2, 0x1DE);
   (0x1F2, 0x1F2, 1, 0x1F1); (0x1F3, 0x1F3, 1, 0x1F1);
   (0x1F5, 0x1F5, 1, 0x1F4); (0x1F9, 0x21F, 2, 0x1F8);
   (0x223, 0x233, 2, 0x222); (0x23C, 0x23C, 1, 0x23B);
   (0x23F, 0x240, 1, 0x2C7E); (0x242, 0x242, 1, 0x241);
   (0x247, 0x24F, 2, 0x246); (0x250, 0x250, 1, 0x2C6F);
   (0x251, 0x251, 1, 0x2C6D); (0x252, 0x252, 1, 0x2C70);
   (0x253, 0x253, 1, 0x181); (0x254, 0x254, 1, 0x186);
   (0x256, 0x257, 1, 0x189); (0x259, 0x259, 1, 0x18F);
   (0x25B, 0x25B, 1, 0x190); (0x25C, 0x25C, 1, 0xA7AB);
   (0x260, 0x260, 1, 0x193); (0x261, 0x261, 1, 0xA7AC);
   (0x263, 0x263, 1, 0x194); (0x265, 0x265, 1, 0xA78D);
   (0x266, 0x266, 1, 0xA7AA); (0x268, 0x268, 1, 0x197);
   (0x269, 0x269, 1, 0x196); (0x26A, 0x26A, 1, 0xA7AE);
   (0x26B, 0x26B, 1, 0x2C62); (0x26C, 0x26C, 1, 0xA7AD);
   (0x26F, 0x26F, 1, 0x19C); (0x271, 0x271, 1, 0x2C6E);
   (0x272, 0x272, 1, 0x19D); (0x275, 0x275, 1, 0x19F);
   (0x27D, 0x27D, 1, 0x2C64); (0x280, 0x280, 1, 0x1A6);
   (0x282, 0x282, 1, 0xA7C5); (0x283, 0x283, 1, 0x1A9);
   (0x287, 0x287, 1, 0xA7B1); (0x288, 0x288, 1, 0x1AE);
   (0x289, 0x289, 1, 0x244); (0x28A, 0x28B, 1, 0x1B1);
   (0x28C, 0x28C, 1, 0x245); (0x292, 0x292, 1, 0x1B7);
   (0x29D, 0x29D, 1, 0xA7B2); (0x29E, 0x29E, 1, 0xA7B0);
   (0x345, 0x345, 1, 0x399); (0x371, 0x373, 2, 0x370);
   (0x377, 0x377, 1, 0x376); (0x37B, 0x37D, 1, 0x3FD);
   (0x3AC, 0x3AC, 1, 0x386); (0x3AD, 0x3AF, 1, 0x388);
   (0x3B1, 0x3C1, 1, 0x391); (0x3C2, 0x3C2, 1, 0x3A3);
   (0x3C3, 0x3CB, 1, 0x3A3); (0x3CC, 0x3CC, 1, 0x38C);
   (0x3CD, 0x3CE, 1, 0x38E); (0x3D0, 0x3D0, 1, 0x392);
   (0x3D1, 0x3D1, 1, 0x398); (0x3D5, 0x3D5, 1, 0x3A6);
   (0x3D6, 0x3D6, 1, 0x3A0); (0x3D7, 0x3D7, 1, 0x3CF);
   (0x3D9, 0x3EF, 2, 0x3D8); (0x3F0, 0x3F0, 1, 0x39A);
   (0x3F1, 0x3F1, 1, 0x3A1); (0x3F2, 0x3F2, 1, 0x3F9);
   (0x3F3, 0x3F3, 1, 0x37F); (0x3F5, 0x3F5, 1, 0x395);
   (0x3F8, 0x3F8, 1, 0x3F7); (0x3FB, 0x3FB, 1, 0x3FA);
   (0x430, 0x44F, 1, 0x410); (0x450, 0x45F, 1, 0x400);
   (0x461, 0x481, 2, 0x460); (0x48B, 0x4BF, 2, 0x48A);
   (0x4C2, 0x4CE, 2, 0x4C1); (0x4CF, 0x4CF, 1, 0x4C0);
   (0x4D1, 0x52F, 2, 0x4D0); (0x561, 0x586, 1, 0x531);
   (0x10D0, 0x10FA, 1, 0x1C90); (0x10FD, 0x10FF, 1, 0x1CBD);
   (0x13F8, 0x13FD, 1, 0x13F0); (0x1C80, 0x1C80, 1, 0x412);
   (0x1C81, 0x1C81, 1, 0x414); (0x1C82, 0x1C82, 1, 0x41E);
   (0x1C83, 0x1C84, 1, 0x421); (0x1C85, 0x1C85, 1, 0x422);
   (0x1C86, 0x1C86, 1, 0x42A); (0x1C87, 0x1C87, 1, 0x462);
   (0x1C88, 0x1C88, 1, 0xA64A); (0x1D79, 0x1D79, 1, 0xA77D);
   (0x1D7D, 0x1D7D, 1, 0x2C63); (0x1D8E, 0x1D8E, 1, 0xA7C6);
   (0x1E01, 0x1E95, 2, 0x1E00); (0x1E9B, 0x1E9B, 1, 0x1E60);
   (0x1EA1, 0x1EFF, 2, 0x1EA0); (0x1F00, 0x1F07, 1, 0x1F08);
   (0x1F10, 0x1F15, 1, 0x1F18); (0x1F20, 0x1F27, 1, 0x1F28);
   (0x1F30, 0x1F37, 1, 0x1F38); (0x1F40, 0x1F45, 1, 0x1F48);
   (0x1F51, 0x1F57, 2, 0x1F59); (0x1F60, 0x1F67, 1, 0x1F68);
   (0x1F70, 0x1F71, 1, 0x1FBA); (0x1F72, 0x1F75, 1, 0x1FC8);
   (0x1F76, 0x1F77, 1, 0x1FDA); (0x1F78, 0x1F79, 1, 0x1FF8);
   (0x1F7A, 0x1F7B, 1, 0x1FEA); (0x1F7C, 0x1F7D, 1, 0x1FFA);
   (0x1FB0, 0x1FB1, 1, 0x1FB8); (0x1FBE, 0x1FBE, 1, 0x399);
   (0x1FD0, 0x1FD1, 1, 0x1FD8); (0x1FE0, 0x1FE1, 1, 0x1FE8);
   (0x1FE5, 0x1FE5, 1, 0x1FEC); (0x214E, 0x214E, 1, 0x2132);
   (0x2170, 0x217F, 1, 0x2160); (0x2184, 0x2184, 1, 0x2183);
   (0x24D0, 0x24E9, 1, 0x24B6); (0x2C30, 0x2C5F, 1, 0x2C00);
   (0x2C61, 0x2C61, 1, 0x2C60); (0x2C65, 0x2C65, 1, 0x23A);
   (0x2C66, 0x2C66, 1, 0x23E); (0x2C68, 0x2C6C, 2, 0x2C67);
   (0x2C73, 0x2C73, 1, 0x2C72); (0x2C76, 0x2C76, 1, 0x2C75);
   (0x2C81, 0x2CE3, 2, 0x2C80); (0x2CEC, 0x2CEE, 2, 0x2CEB);
   (0x2CF3, 0x2CF3, 1, 0x2CF2); (0x2D00, 0x2D25, 1, 0x10A0);
   (0x2D27, 0x2D27, 1, 0x10C7); (0x2D2D, 0x2D2D, 1, 0x10CD);
   (0xA641, 0xA66D, 2, 0xA640); (0xA681, 0xA69B, 2, 0xA680);
   (0xA723, 0xA72F, 2, 0xA722); (0xA733, 0xA76F, 2, 0xA732);
   (0xA77A, 0xA77C, 2, 0xA779); (0xA77F, 0xA787, 2, 0xA77E);
   (0xA78C, 0xA78C, 1, 0xA78B); (0xA791, 0xA793, 2, 0xA790);
   (0xA794, 0xA794, 1, 0xA7C4); (0xA797, 0xA7A9, 2, 0xA796);
   (0xA7B5, 0xA7C3, 2, 0xA7B4); (0xA7C8, 0xA7CA, 2, 0xA7C7);
   (0xA7D1, 0xA7D1, 1, 0xA7D0); (0xA7D7, 0xA7D9, 2, 0xA7D6);
   (0xA7F6, 0xA7F6, 1, 0xA7F5); (0xAB53, 0xAB53, 1, 0xA7B3);
   (0xAB70, 0xABBF, 1, 0x13A0); (0xFF41, 0xFF5A, 1, 0xFF21);
   (0x10428, 0x1044F, 1, 0x10400); (0x104D8, 0x104FB, 1, 0x104B0);
   (0x10597, 0x105A1, 1, 0x10570); (0x105A3, 0x105B1, 1, 0x1057C);
   (0x105B3, 0x105B9, 1, 0x1058C); (0x105BB, 0x105BC, 1, 0x10594);
   (0x10CC0, 0x10CF2, 1, 0x10C80); (0x118C0, 0x118DF, 1, 0x118A0);
   (0x16E60, 0x16E7F, 1, 0x16E40); (0x1E922, 0x1E943, 1, 0x1E900)
  ]%N.

(** Upper case, one character to several. *)
Definition upper_special : list (N * list N) :=
  [
   (0xDF, [0x53; 0x53]); (0x149, [0x2BC; 0x4E]); (0x1F0, [0x4A; 0x30C]);
   (0x390, [0x399; 0x308; 0x301]); (0x3B0, [0x3A5; 0x308; 0x301]);
   (0x587, [0x535; 0x552]); (0x1E96, [0x48; 0x331]);
   (0x1E97, [0x54; 0x308]); (0x1E98, [0x57; 0x30A]);
   (0x1E99, [0x59; 0x30A]); (0x1E9A, [0x41; 0x2BE]);
   (0x1F50, [0x3A5; 0x313]); (0x1F52, [0x3A5; 0x313; 0x300]);
   (0x1F54, [0x3A5; 0x313; 0x301]); (0x1F56, [0x3A5; 0x313; 0x342]);
   (0x1F80, [0x1F08; 0x399]); (0x1F81, [0x1F09; 0x399]);
   (0x1F82, [0x1F0A; 0x399]); (0x1F83, [0x1F0B; 0x399]);
   (0x1F84, [0x1F0C; 0x399]); (0x1F85, [0x1F0D; 0x399]);
   (0x1F86, [0x1F0E; 0x399]); (0x1F87, [0x1F0F; 0x399]);
   (0x1F88, [0x1F08; 0x399]); (0x1F89, [0x1F09; 0x399]);
   (0x1F8A, [0x1F0A; 0x399]); (0x1F8B, [0x1F0B; 0x399]);
   (0x1F8C, [0x1F0C; 0x399]); (0x1F8D, [0x1F0D; 0x399]);
   (0x1F8E, [0x1F0E; 0x399]); (0x1F8F, [0x1F0F; 0x399]);
   (0x1F90, [0x1F28; 0x399]); (0x1F91, [0x1F29; 0x399]);
   (0x1F92, [0x1F2A; 0x399]); (0x1F93, [0x1F2B; 0x399]);
   (0x1F94, [0x1F2C; 0x399]); (0x1F95, [0x1F2D; 0x399]);
   (0x1F96, [0x1F2E; 0x399]); (0x1F97, [0x1F2F; 0x399]);
   (0x1F98, [0x1F28; 0x399]); (0x1F99, [0x1F29; 0x399]);
   (0x1F9A, [0x1F2A; 0x399]); (0x1F9B, [0x1F2B; 0x399]);
   (0x1F9C, [0x1F2C; 0x399]); (0x1F9D, [0x1F2D; 0x399]);
   (0x1F9E, [0x1F2E; 0x399]); (0x1F9F, [0x1F2F; 0x399]);
   (0x1FA0, [0x1F68; 0x399]); (0x1FA1, [0x1F69; 0x399]);
   (0x1FA2, [0x1F6A; 0x399]); (0x1FA3, [0x1F6B; 0x399]);
   (0x1FA4, [0x1F6C; 0x399]); (0x1FA5, [0x1F6D; 0x399]);
   (0x1FA6, [0x1F6E; 0x399]); (0x1FA7, [0x1F6F; 0x399]);
   (0x1FA8, [0x1F68; 0x399]); (0x1FA9, [0x1F69; 0x399]);
   (0x1FAA, [0x1F6A; 0x399]); (0x1FAB, [0x1F6B; 0x399]);
   (0x1FAC, [0x1F6C; 0x399]); (0x1FAD, [0x1F6D; 0x399]);
   (0x1FAE, [0x1F6E; 0x399]); (0x1FAF, [0x1F6F; 0x399]);
   (0x1FB2, [0x1FBA; 0x399]); (0x1FB3, [0x391; 0x399]);
   (0x1FB4, [0x386; 0x399]); (0x1FB6, [0x391; 0x342]);
   (0x1FB7, [0x391; 0x342; 0x399]); (0x1FBC, [0x391; 0x399]);
   (0x1FC2, [0x1FCA; 0x399]); (0x1FC3, [0x397; 0x399]);
   (0x1FC4, [0x389; 0x399]); (0x1FC6, [0x397; 0x342]);
   (0x1FC7, [0x397; 0x342; 0x399]); (0x1FCC, [0x397; 0x399]);
   (0x1FD2, [0x399; 0x308; 0x300]); (0x1FD3, [0x399; 0x308; 0x301]);
   (0x1FD6, [0x399; 0x342]); (0x1FD7, [0x399; 0x308; 0x342]);
   (0x1FE2, [0x3A5; 0x308; 0x300]); (0x1FE3, [0x3A5; 0x308; 0x301]);
   (0x1FE4, [0x3A1; 0x313]); (0x1FE6, [0x3A5; 0x342]);
   (0x1FE7, [0x3A5; 0x308; 0x342]); (0x1FF2, [0x1FFA; 0x399]);
   (0x1FF3, [0x3A9; 0x399]); (0x1FF4, [0x38F; 0x399]);
   (0x1FF6, [0x3A9; 0x342]); (0x1FF7, [0x3A9; 0x342; 0x399]);
   (0x1FFC, [0x3A9; 0x399]); (0xFB00, [0x46; 0x46]);
   (0xFB01, [0x46; 0x49]); (0xFB02, [0x46; 0x4C]);
   (0xFB03, [0x46; 0x46; 0x49]); (0xFB04, [0x46; 0x46; 0x4C]);
   (0xFB05, [0x53; 0x54]); (0xFB06, [0x53; 0x54]);
   (0xFB13, [0x544; 0x546]); (0xFB14, [0x544; 0x535]);
   (0xFB15, [0x544; 0x53B]); (0xFB16, [0x54E; 0x546]);
   (0xFB17, [0x544; 0x53D])
  ]%N.

(** Lower case, one character to one (capital sigma: see [str_lower]). *)
Definition lower_runs : list (N * N * N * N) :=
  [
   (0x41, 0x5A, 1, 0x61); (0xC0, 0xD6, 1, 0xE0); (0xD8, 0xDE, 1, 0xF8);
   (0x100, 0x12E, 2, 0x101); (0x132, 0x136, 2, 0x133);
   (0x139, 0x147, 2, 0x13A); (0x14A, 0x176, 2, 0x14B);
   (0x178, 0x178, 1, 0xFF); (0x179, 0x17D, 2, 0x17A);
   (0x181, 0x181, 1, 0x253); (0x182, 0x184, 2, 0x183);
   (0x186, 0x186, 1, 0x254); (0x187, 0x187, 1, 0x188);
   (0x189, 0x18A, 1, 0x256); (0x18B, 0x18B, 1, 0x18C);
   (0x18E, 0x18E, 1, 0x1DD); (0x18F, 0x18F, 1, 0x259);
   (0x190, 0x190, 1, 0x25B); (0x191, 0x191, 1, 0x192);
   (0x193, 0x193, 1, 0x260); (0x194, 0x194, 1, 0x263);
   (0x196, 0x196, 1, 0x269); (0x197, 0x197, 1, 0x268);
   (0x198, 0x198, 1, 0x199); (0x19C, 0x19C, 1, 0x26F);
   (0x19D, 0x19D, 1, 0x272); (0x19F, 0x19F, 1, 0x275);
   (0x1A0, 0x1A4, 2, 0x1A1); (0x1A6, 0x1A6, 1, 0x280);
   (0x1A7, 0x1A7, 1, 0x1A8); (0x1A9, 0x1A9, 1, 0x283);
   (0x1AC, 0x1AC, 1, 0x1AD); (0x1AE, 0x1AE, 1, 0x288);
   (0x1AF, 0x1AF, 1, 0x1B0); (0x1B1, 0x1B2, 1, 0x28A);
   (0x1B3, 0x1B5, 2, 0x1B4); (0x1B7, 0x1B7, 1, 0x292);
   (0x1B8, 0x1B8, 1, 0x1B9); (0x1BC, 0x1BC, 1, 0x1BD);
   (0x1C4, 0x1C4, 1, 0x1C6); (0x1C5, 0x1C5, 1, 0x1C6);
   (0x1C7, 0x1C7, 1, 0x1C9); (0x1C8, 0x1C8, 1, 0x1C9);
   (0x1CA, 0x1CA, 1, 0x1CC); (0x1CB, 0x1DB, 2, 0x1CC);
   (0x1DE, 0x1EE, 2, 0x1DF); (0x1F1, 0x1F1, 1, 0x1F3);
   (0x1F2, 0x1F4, 2, 0x1F3); (0x1F6, 0x1F6, 1, 0x195);
   (0x1F7, 0x1F7, 1, 0x1BF); (0x1F8, 0x21E, 2, 0x1F9);
   (0x220, 0x220, 1, 0x19E); (0x222, 0x232, 2, 0x223);
   (0x23A, 0x23A, 1, 0x2C65); (0x23B, 0x23B, 1, 0x23C);
   (0x23D, 0x23D, 1, 0x19A); (0x23E, 0x23E, 1, 0x2C66);
   (0x241, 0x241, 1, 0x242); (0x243, 0x243, 1, 0x180);
   (0x244, 0x244, 1, 0x289); (0x245, 0x245, 1, 0x28C);
   (0x246, 0x24E, 2, 0x247); (0x370, 0x372, 2, 0x371);
   (0x376, 0x376, 1, 0x377); (0x37F, 0x37F, 1, 0x3F3);
   (0x386, 0x386, 1, 0x3AC); (0x388, 0x38A, 1, 0x3AD);
   (0x38C, 0x38C, 1, 0x3CC); (0x38E, 0x38F, 1, 0x3CD);
   (0x391, 0x3A1, 1, 0x3B1); (0x3A3, 0x3AB, 1, 0x3C3);
   (0x3CF, 0x3CF, 1, 0x3D7); (0x3D8, 0x3EE, 2, 0x3D9);
   (0x3F4, 0x3F4, 1, 0x3B8); (0x3F7, 0x3F7, 1, 0x3F8);
   (0x3F9, 0x3F9, 1, 0x3F2); (0x3FA, 0x3FA, 1, 0x3FB);
   (0x3FD, 0x3FF, 1, 0x37B); (0x400, 0x40F, 1, 0x450);
   (0x410, 0x42F, 1, 0x430); (0x460, 0x480, 2, 0x461);
   (0x48A, 0x4BE, 2, 0x48B); (0x4C0, 0x4C0, 1, 0x4CF);
   (0x4C1, 0x4CD, 2, 0x4C2); (0x4D0, 0x52E, 2, 0x4D1);
   (0x531, 0x556, 1, 0x561); (0x10A0, 0x10C5, 1, 0x2D00);
   (0x10C7, 0x10C7, 1, 0x2D27); (0x10CD, 0x10CD, 1, 0x2D2D);
   (0x13A0, 0x13EF, 1, 0xAB70); (0x13F0, 0x13F5, 1, 0x13F8);
   (0x1C90, 0x1CBA, 1, 0x10D0); (0x1CBD, 0x1CBF, 1, 0x10FD);
   (0x1E00, 0x1E94, 2, 0x1E01); (0x1E9E, 0x1E9E, 1, 0xDF);
   (0x1EA0, 0x1EFE, 2, 0x1EA1); (0x1F08, 0x1F0F, 1, 0x1F00);
   (0x1F18, 0x1F1D, 1, 0x1F10); (0x1F28, 0x1F2F, 1, 0x1F20);
   (0x1F38, 0x1F3F, 1, 0x1F30); (0x1F48, 0x1F4D, 1, 0x1F40);
   (0x1F59, 0x1F5F, 2, 0x1F51); (0x1F68, 0x1F6F, 1, 0x1F60);
   (0x1F88, 0x1F8F, 1, 0x1F80); (0x1F98, 0x1F9F, 1, 0x1F90);
   (0x1FA8, 0x1FAF, 1, 0x1FA0); (0x1FB8, 0x1FB9, 1, 0x1FB0);
   (0x1FBA, 0x1FBB, 1, 0x1F70); (0x1FBC, 0x1FBC, 1, 0x1FB3);
   (0x1FC8, 0x1FCB, 1, 0x1F72); (0x1FCC, 0x1FCC, 1, 0x1FC3);
   (0x1FD8, 0x1FD9, 1, 0x1FD0); (0x1FDA, 0x1FDB, 1, 0x1F76);
   (0x1FE8, 0x1FE9, 1, 0x1FE0); (0x1FEA, 0x1FEB, 1, 0x1F7A);
   (0x1FEC, 0x1FEC, 1, 0x1FE5); (0x1FF8, 0x1FF9, 1, 0x1F78);
   (0x1FFA, 0x1FFB, 1, 0x1F7C); (0x1FFC, 0x1FFC, 1, 0x1FF3);
   (0x2126, 0x2126, 1, 0x3C9); (0x212A, 0x212A, 1, 0x6B);
   (0x212B, 0x212B, 1, 0xE5); (0x2132, 0x2132, 1, 0x214E);
   (0x2160, 0x216F, 1, 0x2170); (0x2183, 0x2183, 1, 0x2184);
   (0x24B6, 0x24CF, 1, 0x24D0); (0x2C00, 0x2C2F, 1, 0x2C30);
   (0x2C60, 0x2C60, 1, 0x2C61); (0x2C62, 0x2C62, 1, 0x26B);
   (0x2C63, 0x2C63, 1, 0x1D7D); (0x2C64, 0x2C64, 1, 0x27D);
   (0x2C67, 0x2C6B, 2, 0x2C68); (0x2C6D, 0x2C6D, 1, 0x251);
   (0x2C6E, 0x2C6E, 1, 0x271); (0x2C6F, 0x2C6F, 1, 0x250);
   (0x2C70, 0x2C70, 1, 0x252); (0x2C72, 0x2C72, 1, 0x2C73);
   (0x2C75, 0x2C75, 1, 0x2C76); (0x2C7E, 0x2C7F, 1, 0x23F);
   (0x2C80, 0x2CE2, 2, 0x2C81); (0x2CEB, 0x2CED, 2, 0x2CEC);
   (0x2CF2, 0x2CF2, 1, 0x2CF3); (0xA640, 0xA66C, 2, 0xA641);
   (0xA680, 0xA69A, 2, 0xA681); (0xA722, 0xA72E, 2, 0xA723);
   (0xA732, 0xA76E, 2, 0xA733); (0xA779, 0xA77B, 2, 0xA77A);
   (0xA77D, 0xA77D, 1, 0x1D79); (0xA77E, 0xA786, 2, 0xA77F);
   (0xA78B, 0xA78B, 1, 0xA78C); (0xA78D, 0xA78D, 1, 0x265);
   (0xA790, 0xA792, 2, 0xA791); (0xA796, 0xA7A8, 2, 0xA797);
   (0xA7AA, 0xA7AA, 1, 0x266); (0xA7AB, 0xA7AB, 1, 0x25C);
   (0xA7AC, 0xA7AC, 1, 0x261); (0xA7AD, 0xA7AD, 1, 0x26C);
   (0xA7AE, 0xA7AE, 1, 0x26A); (0xA7B0, 0xA7B0, 1, 0x29E);
   (0xA7B1, 0xA7B1, 1, 0x287); (0xA7B2, 0xA7B2, 1, 0x29D);
   (0xA7B3, 0xA7B3, 1, 0xAB53); (0xA7B4, 0xA7C2, 2, 0xA7B5);
   (0xA7C4, 0xA7C4, 1, 0xA794); (0xA7C5, 0xA7C5, 1, 0x282);
   (0xA7C6, 0xA7C6, 1, 0x1D8E); (0xA7C7, 0xA7C9, 2, 0xA7C8);
   (0xA7D0, 0xA7D0, 1, 0xA7D1); (0xA7D6, 0xA7D8, 2, 0xA7D7);
   (0xA7F5, 0xA7F5, 1, 0xA7F6); (0xFF21, 0xFF3A, 1, 0xFF41);
   (0x10400, 0x10427, 1, 0x10428); (0x104B0, 0x104D3, 1, 0x104D8);
   (0x10570, 0x1057A, 1, 0x10597); (0x1057C, 0x1058A, 1, 0x105A3);
   (0x1058C, 0x10592, 1, 0x105B3); (0x10594, 0x10595, 1, 0x105BB);
   (0x10C80, 0x10CB2, 1, 0x10CC0); (0x118A0, 0x118BF, 1, 0x118C0);
   (0x16E40, 0x16E5F, 1, 0x16E60); (0x1E900, 0x1E921, 1, 0x1E922)
  ]%N.

(** Lower case, one character to several. *)
Definition lower_special : list (N * list N) :=
  [
   (0x130, [0x69; 0x307])
  ]%N.

(** The cased characters (upper case, lower case or title case). *)
Definition cased_ranges : list (N * N) :=
  [
   (0x41, 0x5A); (0x61, 0x7A); (0xAA, 0xAA); (0xB5, 0xB5); (0xBA, 0xBA);
   (0xC0, 0xD6); (0xD8, 0xF6); (0xF8, 0x1BA); (0x1BC, 0x1BF);
   (0x1C4, 0x293); (0x295, 0x2B8); (0x2C0, 0x2C1); (0x2E0, 0x2E4);
   (0x345, 0x345); (0x370, 0x373); (0x376, 0x377); (0x37A, 0x37D);
   (0x37F, 0x37F); (0x386, 0x386); (0x388, 0x38A); (0x38C, 0x38C);
   (0x38E, 0x3A1); (0x3A3, 0x3F5); (0x3F7, 0x481); (0x48A, 0x52F);
   (0x531, 0x556); (0x560, 0x588); (0x10A0, 0x10C5); (0x10C7, 0x10C7);
   (0x10CD, 0x10CD); (0x10D0, 0x10FA); (0x10FD, 0x10FF); (0x13A0, 0x13F5);
   (0x13F8, 0x13FD); (0x1C80, 0x1C88); (0x1C90, 0x1CBA); (0x1CBD, 0x1CBF);
   (0x1D00, 0x1DBF); (0x1E00, 0x1F15); (0x1F18, 0x1F1D); (0x1F20, 0x1F45);
   (0x1F48, 0x1F4D); (0x1F50, 0x1F57); (0x1F59, 0x1F59); (0x1F5B, 0x1F5B);
   (0x1F5D, 0x1F5D); (0x1F5F, 0x1F7D); (0x1F80, 0x1FB4); (0x1FB6, 0x1FBC);
   (0x1FBE, 0x1FBE); (0x1FC2, 0x1FC4); (0x1FC6, 0x1FCC); (0x1FD0, 0x1FD3);
   (0x1FD6, 0x1FDB); (0x1FE0, 0x1FEC); (0x1FF2, 0x1FF4); (0x1FF6, 0x1FFC);
   (0x2071, 0x2071); (0x207F, 0x207F); (0x2090, 0x209C); (0x2102, 0x2102);
   (0x2107, 0x2107); (0x210A, 0x2113); (0x2115, 0x2115); (0x2119, 0x211D);
   (0x2124, 0x2124); (0x2126, 0x2126); (0x2128, 0x2128); (0x212A, 0x212D);
   (0x212F, 0x2134); (0x2139, 0x2139); (0x213C, 0x213F); (0x2145, 0x2149);
   (0x214E, 0x214E); (0x2160, 0x217F); (0x2183, 0x2184); (0x24B6, 0x24E9);
   (0x2C00, 0x2CE4); (0x2CEB, 0x2CEE); (0x2CF2, 0x2CF3); (0x2D00, 0x2D25);
   (0x2D27, 0x2D27); (0x2D2D, 0x2D2D); (0xA640, 0xA66D); (0xA680, 0xA69D);
   (0xA722, 0xA787); (0xA78B, 0xA78E); (0xA790, 0xA7CA); (0xA7D0, 0xA7D1);
   (0xA7D3, 0xA7D3); (0xA7D5, 0xA7D9); (0xA7F5, 0xA7F6); (0xA7F8, 0xA7FA);
   (0xAB30, 0xAB5A); (0xAB5C, 0xAB68); (0xAB70, 0xABBF); (0xFB00, 0xFB06);
   (0xFB13, 0xFB17); (0xFF21, 0xFF3A); (0xFF41, 0xFF5A);
   (0x10400, 0x1044F); (0x104B0, 0x104D3); (0x104D8, 0x104FB);
   (0x10570, 0x1057A); (0x1057C, 0x1058A); (0x1058C, 0x10592);
   (0x10594, 0x10595); (0x10597, 0x105A1); (0x105A3, 0x105B1);
   (0x105B3, 0x105B9); (0x105BB, 0x105BC); (0x10780, 0x10780);
   (0x10783, 0x10785); (0x10787, 0x107B0); (0x107B2, 0x107BA);
   (0x10C80, 0x10CB2); (0x10CC0, 0x10CF2); (0x118A0, 0x118DF);
   (0x16E40, 0x16E7F); (0x1D400, 0x1D454); (0x1D456, 0x1D49C);
   (0x1D49E, 0x1D49F); (0x1D4A2, 0x1D4A2); (0x1D4A5, 0x1D4A6);
   (0x1D4A9, 0x1D4AC); (0x1D4AE, 0x1D4B9); (0x1D4BB, 0x1D4BB);
   (0x1D4BD, 0x1D4C3); (0x1D4C5, 0x1D505); (0x1D507, 0x1D50A);
   (0x1D50D, 0x1D514); (0x1D516, 0x1D51C); (0x1D51E, 0x1D539);
   (0x1D53B, 0x1D53E); (0x1D540, 0x1D544); (0x1D546, 0x1D546);
   (0x1D54A, 0x1D550); (0x1D552, 0x1D6A5); (0x1D6A8, 0x1D6C0);
   (0x1D6C2, 0x1D6DA); (0x1D6DC, 0x1D6FA); (0x1D6FC, 0x1D714);
   (0x1D716, 0x1D734); (0x1D736, 0x1D74E); (0x1D750, 0x1D76E);
   (0x1D770, 0x1D788); (0x1D78A, 0x1D7A8); (0x1D7AA, 0x1D7C2);
   (0x1D7C4, 0x1D7CB); (0x1DF00, 0x1DF09); (0x1DF0B, 0x1DF1E);
   (0x1E900, 0x1E943); (0x1F130, 0x1F149); (0x1F150, 0x1F169);
   (0x1F170, 0x1F189)
  ]%N.

(** The case-ignorable characters. *)
Definition case_ignorable_ranges : list (N * N) :=
  [
   (0x27, 0x27); (0x2E, 0x2E); (0x3A, 0x3A); (0x5E, 0x5E); (0x60, 0x60);
   (0xA8, 0xA8); (0xAD, 0xAD); (0xAF, 0xAF); (0xB4, 0xB4); (0xB7, 0xB8);
   (0x2B0, 0x36F); (0x374, 0x375); (0x37A, 0x37A); (0x384, 0x385);
   (0x387, 0x387); (0x483, 0x489); (0x559, 0x559); (0x55F, 0x55F);
   (0x591, 0x5BD); (0x5BF, 0x5BF); (0x5C1, 0x5C2); (0x5C4, 0x5C5);
   (0x5C7, 0x5C7); (0x5F4, 0x5F4); (0x600, 0x605); (0x610, 0x61A);
   (0x61C, 0x61C); (0x640, 0x640); (0x64B, 0x65F); (0x670, 0x670);
   (0x6D6, 0x6DD); (0x6DF, 0x6E8); (0x6EA, 0x6ED); (0x70F, 0x70F);
   (0x711, 0x711); (0x730, 0x74A); (0x7A6, 0x7B0); (0x7EB, 0x7F5);
   (0x7FA, 0x7FA); (0x7FD, 0x7FD); (0x816, 0x82D); (0x859, 0x85B);
   (0x888, 0x888); (0x890, 0x891); (0x898, 0x89F); (0x8C9, 0x902);
   (0x93A, 0x93A); (0x93C, 0x93C); (0x941, 0x948); (0x94D, 0x94D);
   (0x951, 0x957); (0x962, 0x963); (0x971, 0x971); (0x981, 0x981);
   (0x9BC, 0x9BC); (0x9C1, 0x9C4); (0x9CD, 0x9CD); (0x9E2, 0x9E3);
   (0x9FE, 0x9FE); (0xA01, 0xA02); (0xA3C, 0xA3C); (0xA41, 0xA42);
   (0xA47, 0xA48); (0xA4B, 0xA4D); (0xA51, 0xA51); (0xA70, 0xA71);
   (0xA75, 0xA75); (0xA81, 0xA82); (0xABC, 0xABC); (0xAC1, 0xAC5);
   (0xAC7, 0xAC8); (0xACD, 0xACD); (0xAE2, 0xAE3); (0xAFA, 0xAFF);
   (0xB01, 0xB01); (0xB3C, 0xB3C); (0xB3F, 0xB3F); (0xB41, 0xB44);
   (0xB4D, 0xB4D); (0xB55, 0xB56); (0xB62, 0xB63); (0xB82, 0xB82);
   (0xBC0, 0xBC0); (0xBCD, 0xBCD); (0xC00, 0xC00); (0xC04, 0xC04);
   (0xC3C, 0xC3C); (0xC3E, 0xC40); (0xC46, 0xC48); (0xC4A, 0xC4D);
   (0xC55, 0xC56); (0xC62, 0xC63); (0xC81, 0xC81); (0xCBC, 0xCBC);
   (0xCBF, 0xCBF); (0xCC6, 0xCC6); (0xCCC, 0xCCD); (0xCE2, 0xCE3);
   (0xD00, 0xD01); (0xD3B, 0xD3C); (0xD41, 0xD44); (0xD4D, 0xD4D);
   (0xD62, 0xD63); (0xD81, 0xD81); (0xDCA, 0xDCA); (0xDD2, 0xDD4);
   (0xDD6, 0xDD6); (0xE31, 0xE31); (0xE34, 0xE3A); (0xE46, 0xE4E);
   (0xEB1, 0xEB1); (0xEB4, 0xEBC); (0xEC6, 0xEC6); (0xEC8, 0xECD);
   (0xF18, 0xF19); (0xF35, 0xF35); (0xF37, 0xF37); (0xF39, 0xF39);
   (0xF71, 0xF7E); (0xF80, 0xF84); (0xF86, 0xF87); (0xF8D, 0xF97);
   (0xF99, 0xFBC); (0xFC6, 0xFC6); (0x102D, 0x1030); (0x1032, 0x1037);
   (0x1039, 0x103A); (0x103D, 0x103E); (0x1058, 0x1059); (0x105E, 0x1060);
   (0x1071, 0x1074); (0x1082, 0x1082); (0x1085, 0x1086); (0x108D, 0x108D);
   (0x109D, 0x109D); (0x10FC, 0x10FC); (0x135D, 0x135F); (0x1712, 0x1714);
   (0x1732, 0x1733); (0x1752, 0x1753); (0x1772, 0x1773); (0x17B4, 0x17B5);
   (0x17B7, 0x17BD); (0x17C6, 0x17C6); (0x17C9, 0x17D3); (0x17D7, 0x17D7);
   (0x17DD, 0x17DD); (0x180B, 0x180F); (0x1843, 0x1843); (0x1885, 0x1886);
   (0x18A9, 0x18A9); (0x1920, 0x1922); (0x1927, 0x1928); (0x1932, 0x1932);
   (0x1939, 0x193B); (0x1A17, 0x1A18); (0x1A1B, 0x1A1B); (0x1A56, 0x1A56);
   (0x1A58, 0x1A5E); (0x1A60, 0x1A60); (0x1A62, 0x1A62); (0x1A65, 0x1A6C);
   (0x1A73, 0x1A7C); (0x1A7F, 0x1A7F); (0x1AA7, 0x1AA7); (0x1AB0, 0x1ACE);
   (0x1B00, 0x1B03); (0x1B34, 0x1B34); (0x1B36, 0x1B3A); (0x1B3C, 0x1B3C);
   (0x1B42, 0x1B42); (0x1B6B, 0x1B73); (0x1B80, 0x1B81); (0x1BA2, 0x1BA5);
   (0x1BA8, 0x1BA9); (0x1BAB, 0x1BAD); (0x1BE6, 0x1BE6); (0x1BE8, 0x1BE9);
   (0x1BED, 0x1BED); (0x1BEF, 0x1BF1); (0x1C2C, 0x1C33); (0x1C36, 0x1C37);
   (0x1C78, 0x1C7D); (0x1CD0, 0x1CD2); (0x1CD4, 0x1CE0); (0x1CE2, 0x1CE8);
   (0x1CED, 0x1CED); (0x1CF4, 0x1CF4); (0x1CF8, 0x1CF9); (0x1D2C, 0x1D6A);
   (0x1D78, 0x1D78); (0x1D9B, 0x1DFF); (0x1FBD, 0x1FBD); (0x1FBF, 0x1FC1);
   (0x1FCD, 0x1FCF); (0x1FDD, 0x1FDF); (0x1FED, 0x1FEF); (0x1FFD, 0x1FFE);
   (0x200B, 0x200F); (0x2018, 0x2019); (0x2024, 0x2024); (0x2027, 0x2027);
   (0x202A, 0x202E); (0x2060, 0x2064); (0x2066, 0x206F); (0x2071, 0x2071);
   (0x207F, 0x207F); (0x2090, 0x209C); (0x20D0, 0x20F0); (0x2C7C, 0x2C7D);
   (0x2CEF, 0x2CF1); (0x2D6F, 0x2D6F); (0x2D7F, 0x2D7F); (0x2DE0, 0x2DFF);
   (0x2E2F, 0x2E2F); (0x3005, 0x3005); (0x302A, 0x302D); (0x3031, 0x3035);
   (0x303B, 0x303B); (0x3099, 0x309E); (0x30FC, 0x30FE); (0xA015, 0xA015);
   (0xA4F8, 0xA4FD); (0xA60C, 0xA60C); (0xA66F, 0xA672); (0xA674, 0xA67D);
   (0xA67F, 0xA67F); (0xA69C, 0xA69F); (0xA6F0, 0xA6F1); (0xA700, 0xA721);
   (0xA770, 0xA770); (0xA788, 0xA78A); (0xA7F2, 0xA7F4); (0xA7F8, 0xA7F9);
   (0xA802, 0xA802); (0xA806, 0xA806); (0xA80B, 0xA80B); (0xA825, 0xA826);
   (0xA82C, 0xA82C); (0xA8C4, 0xA8C5); (0xA8E0, 0xA8F1); (0xA8FF, 0xA8FF);
   (0xA926, 0xA92D); (0xA947, 0xA951); (0xA980, 0xA982); (0xA9B3, 0xA9B3);
   (0xA9B6, 0xA9B9); (0xA9BC, 0xA9BD); (0xA9CF, 0xA9CF); (0xA9E5, 0xA9E6);
   (0xAA29, 0xAA2E); (0xAA31, 0xAA32); (0xAA35, 0xAA36); (0xAA43, 0xAA43);
   (0xAA4C, 0xAA4C); (0xAA70, 0xAA70); (0xAA7C, 0xAA7C); (0xAAB0, 0xAAB0);
   (0xAAB2, 0xAAB4); (0xAAB7, 0xAAB8); (0xAABE, 0xAABF); (0xAAC1, 0xAAC1);
   (0xAADD, 0xAADD); (0xAAEC, 0xAAED); (0xAAF3, 0xAAF4); (0xAAF6, 0xAAF6);
   (0xAB5B, 0xAB5F); (0xAB69, 0xAB6B); (0xABE5, 0xABE5); (0xABE8, 0xABE8);
   (0xABED, 0xABED); (0xFB1E, 0xFB1E); (0xFBB2, 0xFBC2); (0xFE00, 0xFE0F);
   (0xFE13, 0xFE13); (0xFE20, 0xFE2F); (0xFE52, 0xFE52); (0xFE55, 0xFE55);
   (0xFEFF, 0xFEFF); (0xFF07, 0xFF07); (0xFF0E, 0xFF0E); (0xFF1A, 0xFF1A);
   (0xFF3E, 0xFF3E); (0xFF40, 0xFF40); (0xFF70, 0xFF70); (0xFF9E, 0xFF9F);
   (0xFFE3, 0xFFE3); (0xFFF9, 0xFFFB); (0x101FD, 0x101FD);
   (0x102E0, 0x102E0); (0x10376, 0x1037A); (0x10780, 0x10785);
   (0x10787, 0x107B0); (0x107B2, 0x107BA); (0x10A01, 0x10A03);
   (0x10A05, 0x10A06); (0x10A0C, 0x10A0F); (0x10A38, 0x10A3A);
   (0x10A3F, 0x10A3F); (0x10AE5, 0x10AE6); (0x10D24, 0x10D27);
   (0x10EAB, 0x10EAC); (0x10F46, 0x10F50); (0x10F82, 0x10F85);
   (0x11001, 0x11001); (0x11038, 0x11046); (0x11070, 0x11070);
   (0x11073, 0x11074); (0x1107F, 0x11081); (0x110B3, 0x110B6);
   (0x110B9, 0x110BA); (0x110BD, 0x110BD); (0x110C2, 0x110C2);
   (0x110CD, 0x110CD); (0x11100, 0x11102); (0x11127, 0x1112B);
   (0x1112D, 0x11134); (0x11173, 0x11173); (0x11180, 0x11181);
   (0x111B6, 0x111BE); (0x111C9, 0x111CC); (0x111CF, 0x111CF);
   (0x1122F, 0x11231); (0x11234, 0x11234); (0x11236, 0x11237);
   (0x1123E, 0x1123E); (0x112DF, 0x112DF); (0x112E3, 0x112EA);
   (0x11300, 0x11301); (0x1133B, 0x1133C); (0x11340, 0x11340);
   (0x11366, 0x1136C); (0x11370, 0x11374); (0x11438, 0x1143F);
   (0x11442, 0x11444); (0x11446, 0x11446); (0x1145E, 0x1145E);
   (0x114B3, 0x114B8); (0x114BA, 0x114BA); (0x114BF, 0x114C0);
   (0x114C2, 0x114C3); (0x115B2, 0x115B5); (0x115BC, 0x115BD);
   (0x115BF, 0x115C0); (0x115DC, 0x115DD); (0x11633, 0x1163A);
   (0x1163D, 0x1163D); (0x1163F, 0x11640); (0x116AB, 0x116AB);
   (0x116AD, 0x116AD); (0x116B0, 0x116B5); (0x116B7, 0x116B7);
   (0x1171D, 0x1171F); (0x11722, 0x11725); (0x11727, 0x1172B);
   (0x1182F, 0x11837); (0x11839, 0x1183A); (0x1193B, 0x1193C);
   (0x1193E, 0x1193E); (0x11943, 0x11943); (0x119D4, 0x119D7);
   (0x119DA, 0x119DB); (0x119E0, 0x119E0); (0x11A01, 0x11A0A);
   (0x11A33, 0x11A38); (0x11A3B, 0x11A3E); (0x11A47, 0x11A47);
   (0x11A51, 0x11A56); (0x11A59, 0x11A5B); (0x11A8A, 0x11A96);
   (0x11A98, 0x11A99); (0x11C30, 0x11C36); (0x11C38, 0x11C3D);
   (0x11C3F, 0x11C3F); (0x11C92, 0x11CA7); (0x11CAA, 0x11CB0);
   (0x11CB2, 0x11CB3); (0x11CB5, 0x11CB6); (0x11D31, 0x11D36);
   (0x11D3A, 0x11D3A); (0x11D3C, 0x11D3D); (0x11D3F, 0x11D45);
   (0x11D47, 0x11D47); (0x11D90, 0x11D91); (0x11D95, 0x11D95);
   (0x11D97, 0x11D97); (0x11EF3, 0x11EF4); (0x13430, 0x13438);
   (0x16AF0, 0x16AF4); (0x16B30, 0x16B36); (0x16B40, 0x16B43);
   (0x16F4F, 0x16F4F); (0x16F8F, 0x16F9F); (0x16FE0, 0x16FE1);
   (0x16FE3, 0x16FE4); (0x1AFF0, 0x1AFF3); (0x1AFF5, 0x1AFFB);
   (0x1AFFD, 0x1AFFE); (0x1BC9D, 0x1BC9E); (0x1BCA0, 0x1BCA3);
   (0x1CF00, 0x1CF2D); (0x1CF30, 0x1CF46); (0x1D167, 0x1D169);
   (0x1D173, 0x1D182); (0x1D185, 0x1D18B); (0x1D1AA, 0x1D1AD);
   (0x1D242, 0x1D244); (0x1DA00, 0x1DA36); (0x1DA3B, 0x1DA6C);
   (0x1DA75, 0x1DA75); (0x1DA84, 0x1DA84); (0x1DA9B, 0x1DA9F);
   (0x1DAA1, 0x1DAAF); (0x1E000, 0x1E006); (0x1E008, 0x1E018);
   (0x1E01B, 0x1E021); (0x1E023, 0x1E024); (0x1E026, 0x1E02A);
   (0x1E130, 0x1E13D); (0x1E2AE, 0x1E2AE); (0x1E2EC, 0x1E2EF);
   (0x1E8D0, 0x1E8D6); (0x1E944, 0x1E94B); (0x1F3FB, 0x1F3FF);
   (0xE0001, 0xE0001); (0xE0020, 0xE007F); (0xE0100, 0xE01EF)
  ]%N.

(** *** Character classes *)

(** The run of decimal digits a character belongs to, by its zero. *)
Definition decimal_zero (c : char) : option N :=
  find (fun z => in_range z (z + 9) c) decimal_zeros.

(** [\d] on [str], [str.isdecimal]: a decimal digit of any script. *)
Definition is_digit (c : char) : bool :=
  match decimal_zero c with
  | Some _ => true
  | None => false
  end.

(** The value of a decimal digit ([unicodedata.decimal]). *)
Definition digit_value (c : char) : N :=
  match decimal_zero c with
  | Some z => c - z
  | None => 0
  end.

(** [\w] on [str] *)
Definition is_word (c : char) : bool := in_ranges word_ranges c.

(** [\s] on [str], and the characters [str.strip()] removes. *)
Definition is_space (c : char) : bool := in_ranges space_ranges c.

(** What [re.IGNORECASE] compares a character as, when the pattern is
    made of ASCII characters: an ASCII capital as its small letter, and
    so the four characters whose lower case, or whose equivalent in
    the matcher's table, is an ASCII letter (U+0130 and U+0131 as [i],
    U+017F as [s], U+212A as [k]); any other character as itself. *)
Definition fold_case (c : char) : char :=
  if in_range "A"%char "Z"%char c then (c + 32)%N
  else if bool_decide (c = 0x130%N) || bool_decide (c = 0x131%N)
       then "i"%char
  else if bool_decide (c = 0x17F%N) then "s"%char
  else if bool_decide (c = 0x212A%N) then "k"%char
  else c.

(** [[A-Za-z0-9]] under [re.IGNORECASE] *)
Definition is_alnum (c : char) : bool :=
  in_range "a"%char "z"%char (fold_case c) || in_range "0"%char "9"%char c.

(** The image of a character in a case table. *)
Definition in_run (r : N * N * N * N) (c : char) : bool :=
  let '(lo, hi, step, _) := r in
  in_range lo hi c && bool_decide (((c - lo) mod step)%N = 0%N).

Definition case_map (runs : list (N * N * N * N))
    (special : list (N * list N)) (c : char) : list char :=
  match find (fun e => bool_decide (e.1 = c)) special with
  | Some e => e.2
  | None =>
      match find (fun r => in_run r c) runs with
      | Some (lo, _, _, to) => [(to + (c - lo))%N]
      | None => [c]
      end
  end.

Definition upper (c : char) : list char :=
  case_map upper_runs upper_special c.

Definition lower (c : char) : list char :=
  case_map lower_runs lower_special c.

(** [str.upper()] *)
Definition str_upper (s : text) : text := s ≫= upper.

Definition is_cased (c : char) : bool := in_ranges cased_ranges c.

Definition is_case_ignorable (c : char) : bool :=
  in_ranges case_ignorable_ranges c.

Fixpoint skip_case_ignorable (s : text) : text :=
  match s with
  | c :: s' => if is_case_ignorable c then skip_case_ignorable s' else s
  | [] => []
  end.

(** The lower case of a capital sigma: the final form after a cased
    character and not before one, case-ignorable characters apart.
    [before] is the text before the sigma, last character first. *)
Definition lower_sigma (before after : text) : char :=
  let after_cased :=
    match skip_case_ignorable before with
    | c :: _ => is_cased c
    | [] => false
    end in
  let before_cased :=
    match skip_case_ignorable after with
    | c :: _ => is_cased c
    | [] => false
    end in
  if after_cased && negb before_cased then 0x3C2%N else 0x3C3%N.

Fixpoint str_lower_from (before s : text) : text :=
  match s with
  | [] => []
  | c :: s' =>
      (if bool_decide (c = 0x3A3%N) then [lower_sigma before s']
       else lower c)
      ++ str_lower_from (c :: before) s'
  end.

(** [str.lower()] *)
Definition str_lower (s : text) : text := str_lower_from [] s.

Fixpoint lstrip (s : text) : text :=
  match s with
  | c :: s' => if is_space c then lstrip s' else s
  | [] => []
  end.

Definition rstrip (s : text) : text := reverse (lstrip (reverse s)).

(** [str.strip()] *)
Definition strip (s : text) : text := rstrip (lstrip s).

End Text.
Import Text.

(** ** Regular expressions *)

Module Re.

(** The fragment of Python's regular expressions the script uses.
    Repetition is only ever applied to a character class.  A class is
    given by the characters it matches under the flags of its pattern,
    a literal is an ASCII character. *)
Inductive regex : Type :=
| Eps
| Lit (c : char)
| Class (p : char -> bool)
| Seq (r1 r2 : regex)
| Star (p : char -> bool)
| Opt (r : regex)
| Group (r : regex)
| Bound.

(** [[..]+] *)
Definition Plus (p : char -> bool) : regex := Seq (Class p) (Star p).

(** [[..]{n}] *)
Fixpoint Rep (n : nat) (p : char -> bool) : regex :=
  match n with
  | 0 => Eps
  | S k => Seq (Class p) (Rep k p)
  end.

(** A run of literal characters. *)
Fixpoint Word (s : text) : regex :=
  match s with
  | [] => Eps
  | c :: s' => Seq (Lit c) (Word s')
  end.

(** A position of the matcher in the subject string: the character
    before it, what is left to read, and the groups closed so far. *)
Record mstate : Type := MState {
  prev : option char;
  rest : text;
  groups : list text
}.

(** The characters read between two positions of one subject. *)
Definition consumed (st st' : mstate) : text :=
  take (length (rest st) - length (rest st')) (rest st).

Definition close_group (st st' : mstate) : mstate :=
  MState (prev st') (rest st') (groups st' ++ [consumed st st']).

(** A literal of the pattern, an ASCII character, against a character
    of the subject, under [re.IGNORECASE] (when [ic]) or not. *)
Definition lit_eqb (ic : bool) (c c' : char) : bool :=
  if ic then bool_decide (fold_case c = fold_case c')
  else bool_decide (c = c').

Definition word_opt (o : option char) : bool :=
  match o with Some c => is_word c | None => false end.

(** [\b]: exactly one side of the position is a word character. *)
Definition at_boundary (st : mstate) : bool :=
  xorb (word_opt (prev st)) (word_opt (head (rest st))).

(** Greedy [[..]*]: the longest run first, then shorter ones. *)
Fixpoint star (p : char -> bool) (pc : option char) (s : text)
    (g : list text) : list mstate :=
  match s with
  | c :: s' =>
      if p c then star p (Some c) s' g ++ [MState pc s g]
      else [MState pc s g]
  | [] => [MState pc s g]
  end.

(** All the ways [r] matches at [st], in the order a backtracking
    matcher tries them. *)
Fixpoint run (ic : bool) (r : regex) (st : mstate) : list mstate :=
  match r with
  | Eps => [st]
  | Lit c =>
      match rest st with
      | c' :: s' =>
          if lit_eqb ic c c' then [MState (Some c') s' (groups st)] else []
      | [] => []
      end
  | Class p =>
      match rest st with
      | c' :: s' => if p c' then [MState (Some c') s' (groups st)] else []
      | [] => []
      end
  | Seq r1 r2 => run ic r1 st ≫= run ic r2
  | Star p => star p (prev st) (rest st) (groups st)
  | Opt r' => run ic r' st ++ [st]
  | Group r' => close_group st <$> run ic r' st
  | Bound => if at_boundary st then [st] else []
  end.

(** The match [re] reports at a position: the first one. *)
Definition match_at (ic : bool) (r : regex) (pc : option char) (s : text)
    : option mstate :=
  head (run ic r (MState pc s [])).

(** [pattern.findall(s)]: the groups of the successive matches, left
    to right, without overlap.  [skip] counts the characters of the
    last match still to be passed.  The patterns of the script match
    no empty string. *)
Fixpoint findall_from (ic : bool) (r : regex) (skip : nat)
    (pc : option char) (s : text) {struct s} : list (list text) :=
  match skip with
  | S k =>
      match s with
      | [] => []
      | c :: s' => findall_from ic r k (Some c) s'
      end
  | 0 =>
      match match_at ic r pc s with
      | Some st' =>
          groups st' ::
            match s with
            | [] => []
            | c :: s' =>
                findall_from ic r (length s - length (rest st') - 1)
                  (Some c) s'
            end
      | None =>
          match s with
          | [] => []
          | c :: s' => findall_from ic r 0 (Some c) s'
          end
      end
  end.

Definition findall (ic : bool) (r : regex) (s : text) : list (list text) :=
  findall_from ic r 0 None s.

(** [findall] of a pattern with one group: a list of strings. *)
Definition findall1 (ic : bool) (r : regex) (s : text) : list text :=
  (fun g => nth 0 g []) <$> findall ic r s.

(** [findall] of a pattern with two groups: a list of pairs. *)
Definition findall2 (ic : bool) (r : regex) (s : text)
    : list (text * text) :=
  (fun g => (nth 0 g [], nth 1 g [])) <$> findall ic r s.

(** [re.search(r, s)]: the leftmost match, with the text before it. *)
Fixpoint search_from (ic : bool) (r : regex) (pc : option char)
    (before : text) (s : text) : option (text * mstate) :=
  match match_at ic r pc s with
  | Some st' => Some (before, st')
  | None =>
      match s with
      | [] => None
      | c :: s' => search_from ic r (Some c) (before ++ [c]) s'
      end
  end.

Definition search (ic : bool) (r : regex) (s : text)
    : option (text * mstate) :=
  search_from ic r None [] s.

(** [re.split(r, s)[0]]: the text before the leftmost match, the whole
    string when there is none. *)
Definition split_head (ic : bool) (r : regex) (s : text) : text :=
  match search ic r s with
  | Some (before, _) => before
  | None => s
  end.

End Re.
Import Re.

(** ** The patterns of the script *)

(** [re.compile(r'\bRoute[:\s]*:?(\d{8})\b', re.IGNORECASE)] *)
Definition route_id_pattern : regex :=
  Seq Bound
   (Seq (Word (str "Route"))
     (Seq (Star (fun c => bool_decide (c = ":"%char) || is_space c))
       (Seq (Opt (Lit ":"%char))
         (Seq (Group (Rep 8 is_digit)) Bound)))).

(** [[A-Za-z0-9\s\(\)]] under [re.IGNORECASE] *)
Definition to_name_char (c : char) : bool :=
  is_alnum c || is_space c
  || bool_decide (c = "("%char) || bool_decide (c = ")"%char).

(** [re.compile(r'\bTo\s+\d+\s+(\d{4})-([A-Za-z0-9\s\(\)]+)', re.IGNORECASE)] *)
Definition to_pattern : regex :=
  Seq Bound
   (Seq (Word (str "To"))
     (Seq (Plus is_space)
       (Seq (Plus is_digit)
         (Seq (Plus is_space)
           (Seq (Group (Rep 4 is_digit))
             (Seq (Lit "-"%char) (Group (Plus to_name_char)))))))).

(** [[A-Za-z0-9\s]] under [re.IGNORECASE] *)
Definition xdock_name_char (c : char) : bool := is_alnum c || is_space c.

(** [re.compile(r'\bX-Dock WH\s*:\s*(\d{4})-([A-Za-z0-9\s]+)', re.IGNORECASE)] *)
Definition xdock_wh_pattern : regex :=
  Seq Bound
   (Seq (Word (str "X-Dock WH"))
     (Seq (Star is_space)
       (Seq (Lit ":"%char)
         (Seq (Star is_space)
           (Seq (Group (Rep 4 is_digit))
             (Seq (Lit "-"%char) (Group (Plus xdock_name_char)))))))).

(** [r'\sPhone'], compiled without flags *)
Definition phone_pattern : regex :=
  Seq (Class is_space) (Word (str "Phone")).

(** [r'Rotate: (\d+)'], compiled without flags *)
Definition rotate_pattern : regex :=
  Seq (Word (str "Rotate: ")) (Group (Plus is_digit)).

(** [re.split(r'\sPhone', store_name)[0].strip()] (line 162) *)
Definition clean_store_name (store_name : text) : text :=
  strip (split_head false phone_pattern store_name).

(** ** Environment, state and exceptions *)

(** What the script uses of PIL's images. *)
Class Imaging (image : Type) : Type := {
  (** [Image.rotate(angle, expand=True)] *)
  rotate : Z -> image -> image;
  (** [Image.convert('L')] *)
  convert_L : image -> image;
  (** [ImageEnhance.Contrast(image).enhance(factor)] *)
  enhance_contrast : Z -> image -> image;
  (** [Image.filter(ImageFilter.SHARPEN)] *)
  sharpen : image -> image;
  (** [Image.point(lambda x: 0 if x < t else 255, '1')] *)
  threshold : Z -> image -> image
}.

(** A row of [csv.DictReader]: a value is [None] where the line is
    shorter than the header. *)
Abbreviation csv_row := (gmap text (option text)).

(** Everything the run reads from outside.  An engine reply is [None]
    when the call raises. *)
Record world (image : Type) : Type := World {
  (** the [k]-th call of [pytesseract.image_to_osd] *)
  osd_reply : nat -> image -> option text;
  (** the [k]-th call of [pytesseract.image_to_string] *)
  ocr_reply : nat -> image -> option text;
  (** [pdf2image.convert_from_path], [None] when it raises *)
  pdf_pages : text -> option (list image);
  (** whether [PyPDF2] can read that page (counted from 1) of the file *)
  pdf_page_readable : text -> nat -> bool;
  (** whether [DataFrame.to_excel] succeeds *)
  excel_writable : bool;
  (** [os.path.dirname(os.path.abspath(__file__))] *)
  script_dir : text;
  (** [os.sep] *)
  os_sep : text;
  (** [os.path.basename] *)
  os_path_basename : text -> text;
  (** [os.path.exists] on the input directory and on the query file *)
  os_path_exists : text -> bool;
  (** the files below a directory as [os.walk] lists them: the directory
      that holds the file, and its name *)
  os_walk : text -> list (text * text);
  (** the order in which [imap_unordered] yields the documents: a
      permutation of its argument *)
  arrival_order : list text -> list text;
  (** [multiprocessing.cpu_count()] *)
  cpu_count : Z;
  (** the rows [csv.DictReader] yields, [None] when the file cannot be
      opened or decoded *)
  csv_rows : text -> option (list csv_row)
}.

Arguments World {image}.
Arguments osd_reply {image}.
Arguments ocr_reply {image}.
Arguments pdf_pages {image}.
Arguments pdf_page_readable {image}.
Arguments excel_writable {image}.
Arguments script_dir {image}.
Arguments os_sep {image}.
Arguments os_path_basename {image}.
Arguments os_path_exists {image}.
Arguments os_walk {image}.
Arguments arrival_order {image}.
Arguments cpu_count {image}.
Arguments csv_rows {image}.

(** An Extraction Result: a row of the result table. *)
Record result_row : Type := ResultRow {
  RouteID : text;
  LocationNumber : text;
  StoreName : text;
  PDF : text;
  PageNumber : nat
}.

Global Instance result_row_eq_dec : EqDecision result_row.
Proof. solve_decision. Defined.

(** The calls the run makes to the outside, in order. *)
Inductive event (image : Type) : Type :=
| EvOsd (img : image)
| EvSleep (seconds : nat)
| EvOcr (img : image)
| EvConvert (pdf_path : text)
| EvExcel (table : list result_row)
| EvReadCsv (csv_path : text)
| EvWritePdf (new_pdf_path : text).

Arguments EvOsd {image}.
Arguments EvSleep {image}.
Arguments EvOcr {image}.
Arguments EvConvert {image}.
Arguments EvExcel {image}.
Arguments EvReadCsv {image}.
Arguments EvWritePdf {image}.

Record state (image : Type) : Type := State {
  osd_calls : nat;
  ocr_calls : nat;
  trace : list (event image);
  (** the paths that exist in the output directory *)
  files : gset text
}.

Arguments State {image}.
Arguments osd_calls {image}.
Arguments ocr_calls {image}.
Arguments trace {image}.
Arguments files {image}.

Definition initial_state {image : Type} (fs : gset text) : state image :=
  State 0 0 [] fs.

Inductive exn : Type :=
| TesseractError
| PDFPageCountError
| PdfReadError
| AttributeError
| UnboundLocalError
| ValueError
| OSError
| SystemExit (code : Z)
(** not a Python exception: a loop of the model ran out of fuel *)
| OutOfFuel.

(** [SystemExit] derives from [BaseException] only: [except Exception]
    lets it through. *)
Definition is_Exception (e : exn) : bool :=
  match e with
  | SystemExit _ | OutOfFuel => false
  | _ => true
  end.

Inductive outcome (A : Type) : Type :=
| Ok (a : A)
| Raise (e : exn).

Arguments Ok {A}.
Arguments Raise {A}.

Module Run.
Section Monad.
Context {image : Type}.

Definition M (A : Type) : Type := state image -> outcome A * state image.

Definition ret {A} (a : A) : M A := fun s => (Ok a, s).

Definition bind {A B} (m : M A) (f : A -> M B) : M B :=
  fun s =>
    match m s with
    | (Ok a, s') => f a s'
    | (Raise e, s') => (Raise e, s')
    end.

Definition raise {A} (e : exn) : M A := fun s => (Raise e, s).

(** [try: m  except Exception as e: h e] *)
Definition try_except {A} (m : M A) (h : exn -> M A) : M A :=
  fun s =>
    match m s with
    | (Raise e, s') => if is_Exception e then h e s' else (Raise e, s')
    | r => r
    end.

Definition emit (ev : event image) : M unit :=
  fun s =>
    (Ok tt, State (osd_calls s) (ocr_calls s) (trace s ++ [ev]) (files s)).

Definition get_files : M (gset text) := fun s => (Ok (files s), s).

Definition add_file (p : text) : M unit :=
  fun s =>
    (Ok tt, State (osd_calls s) (ocr_calls s) (trace s) ({[p]} ∪ files s)).

End Monad.

Arguments M image A : clear implicits.

End Run.
Import Run.

Global Instance M_ret {image : Type} : MRet (M image) := @ret image.
Global Instance M_bind {image : Type} : MBind (M image) :=
  fun A B f m => bind m f.

(** ** The pipeline *)

Section Pipeline.
Context {image : Type} `{Imaging image}.
Variable w : world image.

(** [pytesseract.image_to_osd(image, config=config)] *)
Definition image_to_osd (img : image) : M image text :=
  fun s =>
    let s' := State (S (osd_calls s)) (ocr_calls s)
                (trace s ++ [EvOsd img]) (files s) in
    match osd_reply w (osd_calls s) img with
    | Some osd => (Ok osd, s')
    | None => (Raise TesseractError, s')
    end.

(** [pytesseract.image_to_string(image, config=ocr_config)] *)
Definition image_to_string (img : image) : M image text :=
  fun s =>
    let s' := State (osd_calls s) (S (ocr_calls s))
                (trace s ++ [EvOcr img]) (files s) in
    match ocr_reply w (ocr_calls s) img with
    | Some t => (Ok t, s')
    | None => (Raise TesseractError, s')
    end.

(** [time.sleep(delay)] *)
Definition sleep (delay : nat) : M image unit := emit (EvSleep delay).

(** [robust_image_to_osd] (lines 69-76).  After the loop [e] is no
    longer bound (Python unbinds the name at the end of the [except]
    clause), so [raise e] raises [UnboundLocalError]. *)
Fixpoint robust_image_to_osd (img : image) (retries delay : nat)
    : M image text :=
  match retries with
  | 0 => raise UnboundLocalError
  | S k =>
      try_except (image_to_osd img)
        (fun _ => sleep delay;; robust_image_to_osd img k delay)
  end.

(** The number a string of decimal digits writes. *)
Definition decimal_value (s : text) : Z :=
  fold_left (fun acc c => (10 * acc + Z.of_N (digit_value c))%Z) s 0%Z.

(** [sys.get_int_max_str_digits()], as CPython 3.11 and later set it. *)
Definition int_max_str_digits : nat := 4300.

(** [int(s)] on a string of decimal digits: CPython 3.11 and later
    raise [ValueError] for a string of more than
    [int_max_str_digits] digits. *)
Definition int_of_digits (s : text) : M image Z :=
  if bool_decide (length s ≤ int_max_str_digits)
  then ret (decimal_value s)
  else raise ValueError.

(** [int(re.search(r'Rotate: (\d+)', osd).group(1))] (line 109);
    [re.search] gives [None] when nothing matches, and [None.group]
    raises. *)
Definition parse_rotation (osd : text) : M image Z :=
  match search false rotate_pattern osd with
  | Some (_, st) => int_of_digits (nth 0 (groups st) [])
  | None => raise AttributeError
  end.

(** Lines 107-121: orientation correction, best effort. *)
Definition correct_orientation (page_image : image) : M image image :=
  try_except
    (osd ← robust_image_to_osd page_image 3 1;
     rotation ← parse_rotation osd;
     ret (if bool_decide (rotation <> 0%Z)
          then rotate (- rotation) page_image
          else page_image))
    (fun _ => ret page_image).

(** Python's truth value of a string. *)
Definition truthy (s : text) : bool := negb (bool_decide (s = [])).

(** Lines 153-158: the location number and store name for a route
    match, [None] when the page has neither header. *)
Definition pick_location (to_matches xdock_wh_matches : list (text * text))
    : option (text * text) :=
  match xdock_wh_matches with
  | m :: _ => Some m
  | [] =>
      match to_matches with
      | m :: _ => Some m
      | [] => None
      end
  end.

(** Lines 147-164: the loop over the route matches. *)
Definition pair_route_matches (route_matches : list text)
    (to_matches xdock_wh_matches : list (text * text))
    : list (text * text * text) :=
  route_id ← route_matches;
  match pick_location to_matches xdock_wh_matches with
  | Some (location_number, store_name) =>
      if truthy location_number && truthy store_name
      then [(route_id, location_number, clean_store_name store_name)]
      else []
  | None => []
  end.

(** Lines 128-130 and 139-141: the three patterns over one text. *)
Definition pattern_pass (t : text)
    : list text * list (text * text) * list (text * text) :=
  (findall1 true route_id_pattern t,
   findall2 true to_pattern t,
   findall2 true xdock_wh_pattern t).

(** Lines 123-182: text recognition and the patterns, on the image as
    corrected, and on the image turned by 180 degrees when the first
    text has no route identifier. *)
Definition ocr_passes (corrected_image : image)
    : M image (list (text * text * text)) :=
  t ← image_to_string corrected_image;
  let '(route_matches, to_matches, xdock_wh_matches) := pattern_pass t in
  found ←
    match route_matches with
    | [] =>
        let rotated_image := rotate 180 corrected_image in
        text_rotated ← image_to_string rotated_image;
        ret (pattern_pass text_rotated)
    | _ :: _ => ret (route_matches, to_matches, xdock_wh_matches)
    end;
  let '(route_matches, to_matches, xdock_wh_matches) := found in
  ret (pair_route_matches route_matches to_matches xdock_wh_matches).

(** [extract_info_from_page] (lines 98-186). *)
Definition extract_info_from_page (page_image : image)
    : M image (list (text * text * text)) :=
  try_except
    (corrected_image ← correct_orientation page_image;
     ocr_passes corrected_image)
    (fun _ => ret []).

(** [preprocess_image] (lines 80-94). *)
Definition preprocess_image (img : image) : image :=
  threshold 128 (sharpen (enhance_contrast 2 (convert_L img))).

(** [os.path.join] of a directory and a relative name. *)
Definition os_path_join (dir name : text) : text :=
  dir ++ os_sep w ++ name.

(** [convert_from_path(pdf_path, dpi=200)] *)
Definition convert_from_path (pdf_path : text) : M image (list image) :=
  emit (EvConvert pdf_path);;
  match pdf_pages w pdf_path with
  | Some pages => ret pages
  | None => raise PDFPageCountError
  end.

(** Lines 233-242: the records of one page. *)
Definition page_results (pdf_path : text) (page_number : nat)
    (matches : list (text * text * text)) : list result_row :=
  (fun '(route_id, location_number, store_name) =>
     ResultRow (str_upper route_id) location_number store_name
       (os_path_basename w pdf_path) page_number) <$> matches.

(** Lines 229-243: [for page_number, page in enumerate(pages, start=1)]. *)
Fixpoint page_loop (pdf_path : text) (page_number : nat)
    (pages : list image) : M image (list result_row) :=
  match pages with
  | [] => ret []
  | page :: pages' =>
      let preprocessed_page := preprocess_image page in
      matches ← extract_info_from_page preprocessed_page;
      results ← page_loop pdf_path (S page_number) pages';
      ret (page_results pdf_path page_number matches ++ results)
  end.

(** [extract_route_and_store_ids] (lines 221-248).  Of the calls in
    its [try], only [convert_from_path] can raise here, before any
    result is appended. *)
Definition extract_route_and_store_ids (pdf_path : text)
    : M image (list result_row) :=
  try_except
    (pages ← convert_from_path pdf_path;
     page_loop pdf_path 1 pages)
    (fun _ => ret []).

(** The columns [drop_duplicates] compares (line 269). *)
Definition dedup_key (r : result_row) : text * text * text * nat :=
  (RouteID r, LocationNumber r, PDF r, PageNumber r).

(** [DataFrame.drop_duplicates(subset=..)], which keeps the first row
    of each key. *)
Fixpoint drop_duplicates_from (seen : gset (text * text * text * nat))
    (rows : list result_row) : list result_row :=
  match rows with
  | [] => []
  | r :: rows' =>
      if bool_decide (dedup_key r ∈ seen)
      then drop_duplicates_from seen rows'
      else r :: drop_duplicates_from ({[dedup_key r]} ∪ seen) rows'
  end.

Definition drop_duplicates (rows : list result_row) : list result_row :=
  drop_duplicates_from ∅ rows.

(** [s.endswith(suffix)] *)
Definition endswith (s suffix : text) : bool :=
  bool_decide (drop (length s - length suffix) s = suffix).

(** Lines 251-253. *)
Definition pdf_files (pdf_directory : text) : list text :=
  '(root, file) ← os_walk w pdf_directory;
  if endswith (str_lower file) (str ".pdf")
  then [os_path_join root file]
  else [].

(** Line 256. *)
Definition pool_size : Z := Z.min (cpu_count w - 1) 4.

(** Lines 264-265: the results of the documents, appended in the order
    the workers deliver them. *)
Fixpoint merge_results (arrived : list text) : M image (list result_row) :=
  match arrived with
  | [] => ret []
  | pdf_path :: arrived' =>
      result ← extract_route_and_store_ids pdf_path;
      all_results ← merge_results arrived';
      ret (result ++ all_results)
  end.

(** [process_pdfs] (lines 250-275).  [Pool(processes=n)] raises
    [ValueError] for [n < 1]. *)
Definition process_pdfs (pdf_directory : text) : M image (list result_row) :=
  let pdf_files := pdf_files pdf_directory in
  (if bool_decide (pool_size < 1)%Z then raise ValueError else ret tt);;
  all_results ← merge_results (arrival_order w pdf_files);
  ret (match all_results with
       | _ :: _ => drop_duplicates all_results
       | [] => []
       end).

(** [save_results] (lines 279-285). *)
Definition save_results (df : list result_row) : M image unit :=
  try_except
    (if excel_writable w then emit (EvExcel df) else raise OSError)
    (fun _ => ret tt).

(** [re.fullmatch(r, s)] as a truth value *)
Definition fullmatch (r : regex) (s : text) : bool :=
  existsb (fun st => bool_decide (rest st = []))
    (run false r (MState None s [])).

(** [row.get(key, '')]: the default only stands in for a missing key,
    a key that is there can hold [None]. *)
Definition row_get (row : csv_row) (key : text) : option text :=
  default (Some []) (row !! key).

(** Lines 318-325: one row of the query file; [None.strip()] raises. *)
Definition parse_row (row : csv_row) : outcome (option (text * text)) :=
  match row_get row (str "RouteID") with
  | None => Raise AttributeError
  | Some v1 =>
      let route_id := strip v1 in
      match row_get row (str "LocationNumber") with
      | None => Raise AttributeError
      | Some v2 =>
          let location_number := strip v2 in
          if truthy route_id && truthy location_number
          then
            if fullmatch (Rep 8 is_digit) route_id
               && fullmatch (Rep 4 is_digit) location_number
            then Ok (Some (route_id, location_number))
            else Ok None
          else Ok None
      end
  end.

(** Lines 317-329: the loop over the rows.  An exception leaves the
    loop for the handler of line 326, and line 329 returns the queries
    appended until then. *)
Fixpoint read_rows (rows : list csv_row) (queries : list (text * text))
    : list (text * text) :=
  match rows with
  | [] => queries
  | row :: rows' =>
      match parse_row row with
      | Ok (Some q) => read_rows rows' (queries ++ [q])
      | Ok None => read_rows rows' queries
      | Raise _ => queries
      end
  end.

(** [read_queries_from_csv] (lines 312-329). *)
Definition read_queries_from_csv (csv_path : text)
    : M image (list (text * text)) :=
  emit (EvReadCsv csv_path);;
  match csv_rows w csv_path with
  | Some rows => ret (read_rows rows [])
  | None => ret []
  end.

(** [str(count)]: the decimal digits of a natural number *)
Definition str_of_nat (n : nat) : text :=
  str (NilEmpty.string_of_uint (Nat.to_uint n)).

Definition matched_pages_dir : text := str "matched_pages".

(** Lines 201 and 207: the file name, without and with a count. *)
Definition new_pdf_name (route_id location_number : text)
    (count : option nat) : text :=
  match count with
  | None => route_id ++ str " - " ++ location_number ++ str ".pdf"
  | Some n =>
      route_id ++ str " - " ++ location_number
        ++ str " (" ++ str_of_nat n ++ str ").pdf"
  end.

(** Lines 206-209: [while os.path.exists(new_pdf_path)]. *)
Fixpoint free_path (fuel : nat) (fs : gset text)
    (route_id location_number new_pdf_path : text) (count : nat)
    : option text :=
  match fuel with
  | 0 => None
  | S fuel' =>
      if bool_decide (new_pdf_path ∈ fs)
      then
        let new_pdf_name :=
          new_pdf_name route_id location_number (Some count) in
        free_path fuel' fs route_id location_number
          (os_path_join matched_pages_dir new_pdf_name) (S count)
      else Some new_pdf_path
  end.

(** [extract_and_save_page] (lines 190-219).  The loop tries at most
    one name more than there are files. *)
Definition extract_and_save_page (pdf_path : text) (page_number : nat)
    (route_id location_number : text) : M image unit :=
  try_except
    ((if pdf_page_readable w pdf_path page_number
      then ret tt else raise PdfReadError);;
     let new_pdf_name := new_pdf_name route_id location_number None in
     let new_pdf_path := os_path_join matched_pages_dir new_pdf_name in
     fs ← get_files;
     match free_path (S (size fs)) fs route_id location_number
             new_pdf_path 1 with
     | Some new_pdf_path =>
         emit (EvWritePdf new_pdf_path);; add_file new_pdf_path
     | None => raise OutOfFuel
     end)
    (fun _ => ret tt).

(** Lines 298-307: the rows that match one query. *)
Fixpoint save_matching (matching_records : list result_row)
    (pdf_directory route_id location_number : text) : M image unit :=
  match matching_records with
  | [] => ret tt
  | row :: rows =>
      let pdf_path := os_path_join pdf_directory (PDF row) in
      extract_and_save_page pdf_path (PageNumber row) route_id location_number;;
      save_matching rows pdf_directory route_id location_number
  end.

(** [search_and_save] (lines 289-310). *)
Fixpoint search_and_save (df : list result_row)
    (queries : list (text * text)) (pdf_directory : text) : M image unit :=
  match queries with
  | [] => ret tt
  | (route_id, location_number) :: queries' =>
      let matching_records :=
        filter (fun r => RouteID r = str_upper route_id
                         ∧ LocationNumber r = location_number) df in
      save_matching matching_records pdf_directory route_id location_number;;
      search_and_save df queries' pdf_directory
  end.

(** [main] (lines 333-385). *)
Definition main : M image unit :=
  let pdf_directory := os_path_join (script_dir w) (str "pdfs") in
  (if os_path_exists w pdf_directory then ret tt else raise (SystemExit 1));;
  let csv_path := os_path_join (script_dir w) (str "queries.csv") in
  (if os_path_exists w csv_path then ret tt else raise (SystemExit 1));;
  route_id_df ← process_pdfs pdf_directory;
  save_results route_id_df;;
  queries ← read_queries_from_csv csv_path;
  (match queries with
   | [] => raise (SystemExit 1)
   | _ :: _ => ret tt
   end);;
  search_and_save route_id_df queries pdf_directory.

(** The exit status of the process: 0 when [main] returns, the code of
    [sys.exit], 1 for an exception nobody caught. *)
Definition exit_status (o : outcome unit) : Z :=
  match o with
  | Ok _ => 0
  | Raise (SystemExit c) => c
  | Raise _ => 1
  end.

End Pipeline.

(** ** What the specification speaks of *)

(** A string of exactly [n] decimal digits. *)
Definition digits (n : nat) (s : text) : Prop :=
  length s = n ∧ Forall (fun c => is_digit c = true) s.

(** The format of an Extraction Result. *)
Definition well_formed (r : result_row) : Prop :=
  digits 8 (RouteID r) ∧ digits 4 (LocationNumber r).

(** What a run of the matcher from [st] to [st'] means, pattern by
    pattern. *)
Fixpoint matches (ic : bool) (r : regex) (st st' : mstate) : Prop :=
  match r with
  | Eps => st' = st
  | Lit c =>
      ∃ c', rest st = c' :: rest st' ∧ lit_eqb ic c c' = true
            ∧ prev st' = Some c' ∧ groups st' = groups st
  | Class p =>
      ∃ c', rest st = c' :: rest st' ∧ p c' = true
            ∧ prev st' = Some c' ∧ groups st' = groups st
  | Seq r1 r2 => ∃ mid, matches ic r1 st mid ∧ matches ic r2 mid st'
  | Star p =>
      ∃ u, rest st = u ++ rest st' ∧ Forall (fun c => p c = true) u
           ∧ groups st' = groups st
  | Opt r' => matches ic r' st st' ∨ st' = st
  | Group r' => ∃ mid, matches ic r' st mid ∧ st' = close_group st mid
  | Bound => st' = st ∧ at_boundary st = true
  end.

(** A whitespace character followed by [Phone], in that very case,
    starts at index [i] of [s]. *)
Definition space_phone_at (s : text) (i : nat) : bool :=
  match drop i s with
  | c :: s' => is_space c && bool_decide (take 5 s' = str "Phone")
  | [] => false
  end.

(** The cleaning step in the words of the specification: cut at the
    first [Phone], whatever its case, and trim. *)
Definition clean_store_name_spec (store_name : text) : text :=
  strip (split_head true (Word (str "Phone")) store_name).


(** Both fields of the row hold a string. *)
Definition row_complete (row : csv_row) : Prop :=
  is_Some (row_get row (str "RouteID"))
  ∧ is_Some (row_get row (str "LocationNumber")).

(** The events of a trace that are extraction work: rasterisation,
    orientation detection, text recognition. *)
Definition is_extraction {image : Type} (ev : event image) : bool :=
  match ev with
  | EvConvert _ | EvOsd _ | EvOcr _ => true
  | _ => false
  end.

(** The trace of [n] failed orientation calls, each followed by its
    delay. *)
Fixpoint failed_attempts {image : Type} (img : image) (delay n : nat)
    : list (event image) :=
  match n with
  | 0 => []
  | S k => EvOsd img :: EvSleep delay :: failed_attempts img delay k
  end.

(** The format of what the field extractor emits for a route match. *)
Definition match_well_formed (m : text * text * text) : Prop :=
  digits 8 m.1.1 ∧ digits 4 m.1.2.

(** The records the patterns give for one text. *)
Definition records_of_text (t : text) : list (text * text * text) :=
  let '(route_matches, to_matches, xdock_wh_matches) := pattern_pass t in
  pair_route_matches route_matches to_matches xdock_wh_matches.

(** [m] returns, and what it returns satisfies [P]. *)
Definition returns {image A : Type} (P : A → Prop) (m : M image A) : Prop :=
  ∀ s, ∃ a s', m s = (Ok a, s') ∧ P a.

(** What [m] returns satisfies [P], and what it raises is caught by
    [except Exception]. *)
Definition ensures {image A : Type} (P : A → Prop) (m : M image A) : Prop :=
  ∀ s, match m s with
       | (Ok a, _) => P a
       | (Raise e, _) => is_Exception e = true
       end.

(** The path of an exported page, without or with a count. *)
Definition export_path {image : Type} (w : world image)
    (route_id location_number : text) (count : option nat) : text :=
  os_path_join w matched_pages_dir
    (new_pdf_name route_id location_number count).

(** A string of exactly [n] of the digits 0 to 9. *)
Definition ascii_digits (n : nat) (s : text) : bool :=
  bool_decide (length s = n) && forallb (in_range "0"%char "9"%char) s.

(** [digits], decided. *)
Definition digits_b (n : nat) (s : text) : bool :=
  bool_decide (length s = n) && forallb is_digit s.

(** The query a row with both fields gives, in the words of the amended
    specification: trim the fields, keep the pair when they are 8 and 4
    digits. *)
Definition query_of_row (row : csv_row) : option (text * text) :=
  f1 ← row_get row (str "RouteID");
  f2 ← row_get row (str "LocationNumber");
  if digits_b 8 (strip f1) && digits_b 4 (strip f2)
  then Some (strip f1, strip f2)
  else None.


(** The queries [main] works with. *)
Definition parsed_queries {image : Type} (w : world image) (csv_path : text)
    : list (text * text) :=
  match csv_rows w csv_path with
  | Some rows => read_rows rows []
  | None => []
  end.

(** ** Test data *)

Module Fixture.

(** A scanned page: which page it is, and by how much it is turned. *)
Definition scan : Type := nat * Z.

Global Instance scan_imaging : Imaging scan := {
  rotate a p := (p.1, ((p.2 + a) mod 360)%Z);
  convert_L p := p;
  enhance_contrast _ p := p;
  sharpen p := p;
  threshold _ p := p
}.

Definition page_one : text :=
  str "Route: 12345678 To 7 4321-Other (x) X-Dock WH: 1234-Acme Store Phone: 555 Route 87654321".

Definition page_two : text :=
  str "route:12345678 To 7 4321-Other (x) Phone".

Definition query_rows : list csv_row :=
  [ {[ str "RouteID" := Some (str " 12345678 ");
       str "LocationNumber" := Some (str "1234") ]};
    {[ str "RouteID" := Some (str "123");
       str "LocationNumber" := Some (str "1234") ]};
    {[ str "RouteID" := Some (str "12345678");
       str "LocationNumber" := Some (str "1234") ]} ].

(** [os.path.basename] for [/]: what follows the last separator. *)
Fixpoint basename_from (acc p : text) : text :=
  match p with
  | [] => acc
  | c :: p' =>
      if bool_decide (c = "/"%char) then basename_from [] p'
      else basename_from (acc ++ [c]) p'
  end.

(** One document of three pages, scanned turned by 90 degrees, the
    second page upside down on top of that; orientation detection
    fails [osd_failures] times before it answers.  A second document
    cannot be rasterised. *)
Definition office (osd_failures : nat) (rows : option (list csv_row))
    : world scan := {|
  osd_reply k p :=
    if k <? osd_failures then None
    else Some (str "Page number: 0" ++ [code "010"] ++ str "Rotate: 90");
  ocr_reply k p :=
    match p with
    | (0, 270%Z) => Some page_one
    | (1, 90%Z) => Some page_two
    | (0, 0%Z) => Some page_two
    | _ => Some (str "~~")
    end;
  pdf_pages p :=
    if bool_decide (p = str "./pdfs/a.pdf")
    then Some [(0, 0%Z); (1, 0%Z); (2, 0%Z)] else None;
  pdf_page_readable p n := bool_decide (p = str "./pdfs/a.pdf");
  excel_writable := true;
  script_dir := str ".";
  os_sep := str "/";
  os_path_basename := basename_from [];
  os_path_exists p := true;
  os_walk d := [(d, str "a.pdf"); (d, str "b.PDF"); (d, str "c.txt")];
  arrival_order l := reverse l;
  cpu_count := 8;
  csv_rows p := rows
|}.

(** Two documents of one page with the same file name, in two folders;
    the pages agree on route and location and differ in the store
    name. *)
Definition two_folders : world scan := {|
  osd_reply k p := Some (str "Rotate: 0");
  ocr_reply k p :=
    match p with
    | (0, _) => Some (str "Route: 12345678 X-Dock WH: 1234-North")
    | _ => Some (str "Route: 12345678 X-Dock WH: 1234-South")
    end;
  pdf_pages p :=
    if bool_decide (p = str "./pdfs/north/a.pdf") then Some [(0, 0%Z)]
    else if bool_decide (p = str "./pdfs/south/a.pdf") then Some [(1, 0%Z)]
    else None;
  pdf_page_readable p n := false;
  excel_writable := true;
  script_dir := str ".";
  os_sep := str "/";
  os_path_basename := basename_from [];
  os_path_exists p := true;
  os_walk d :=
    [(d ++ str "/north", str "a.pdf"); (d ++ str "/south", str "a.pdf")];
  arrival_order l := l;
  cpu_count := 2;
  csv_rows p := None
|}.

End Fixture.

(** ** What the further properties speak of *)

(** From [s] to [s']: at most [k] more orientation calls and [j] more
    recognition calls, the output directory as it was, the trace only
    longer. *)
Definition engine_step {image : Type} (k j : nat) (s s' : state image)
    : Prop :=
  osd_calls s ≤ osd_calls s' ≤ osd_calls s + k
  ∧ ocr_calls s ≤ ocr_calls s' ≤ ocr_calls s + j
  ∧ files s' = files s
  ∧ ∃ evs, trace s' = trace s ++ evs.

(** Whatever the state and the outcome, [m] makes such a step. *)
Definition uses {image A : Type} (k j : nat) (m : M image A) : Prop :=
  ∀ s, engine_step k j s (m s).2.

(** The pages of the documents that can be rasterised. *)
Definition total_pages {image : Type} (w : world image) (paths : list text)
    : nat :=
  sum_list ((fun p => length (default [] (pdf_pages w p))) <$> paths).

(** A store name as the table holds it: trimmed, without a whitespace
    character followed by [Phone], and made of letters, digits,
    whitespace and round brackets only. *)
Definition clean_name (n : text) : Prop :=
  (∀ c, head n = Some c → is_space c = false)
  ∧ (∀ c, last n = Some c → is_space c = false)
  ∧ (∀ i, space_phone_at n i = false)
  ∧ Forall (fun c => to_name_char c = true) n.

(** The row comes from page [n] of the document at [pdf_path], for some
    text the engine read there. *)
Definition row_of_page {image : Type} (w : world image) (pdf_path : text)
    (n : nat) (r : result_row) : Prop :=
  ∃ t, r ∈ page_results w pdf_path n (records_of_text t).

(** The rows of the table a query gets exported: those that match it
    and whose page PyPDF2 can read. *)
Definition exported_rows {image : Type} (w : world image)
    (df : list result_row) (pdf_directory route_id location_number : text)
    : list result_row :=
  filter (fun r => pdf_page_readable w (os_path_join w pdf_directory (PDF r))
                     (PageNumber r) = true)
    (filter (fun r => RouteID r = str_upper route_id
                      ∧ LocationNumber r = location_number) df).

Definition export_count {image : Type} (w : world image)
    (df : list result_row) (queries : list (text * text))
    (pdf_directory : text) : nat :=
  sum_list ((fun q => length (exported_rows w df pdf_directory q.1 q.2))
              <$> queries).

(** From [s] to [s']: [n] files written, each a new one, none removed,
    and the engine not called. *)
Definition export_step {image : Type} (n : nat) (s s' : state image) : Prop :=
  osd_calls s' = osd_calls s
  ∧ ocr_calls s' = ocr_calls s
  ∧ files s ⊆ files s'
  ∧ size (files s') = size (files s) + n
  ∧ ∃ evs, trace s' = trace s ++ evs ∧ length evs = n.

(** ** The test script [test_reader.py] *)

(** What the test script uses of PIL besides. *)
Class TestImaging (image : Type) : Type := {
  (** [Image.filter(ImageFilter.MedianFilter())] *)
  median_filter : image -> image;
  (** [ImageOps.autocontrast(image)] *)
  autocontrast : image -> image
}.

Section TestScript.
Context {image : Type} `{Imaging image} `{TestImaging image}.
Variable w : world image.

(** [preprocess_image] of the test script (lines 18-33). *)
Definition test_preprocess_image (img : image) : image :=
  threshold 140
    (autocontrast (enhance_contrast 2 (median_filter (convert_L img)))).

(** Lines 53-79 of the test script: the loop over the route matches,
    which builds the rows at once. *)
Definition test_collect_matches (route_matches : list text)
    (to_matches xdock_wh_matches : list (text * text))
    (pdf_path : text) (page_number : nat) : list result_row :=
  route_id ← route_matches;
  match pick_location to_matches xdock_wh_matches with
  | Some (location_number, store_name) =>
      if truthy location_number && truthy store_name
      then [ResultRow (str_upper route_id) location_number
              (clean_store_name store_name)
              (os_path_basename w pdf_path) page_number]
      else []
  | None => []
  end.

(** [extract_info_from_page] of the test script (lines 35-85). *)
Definition test_extract_info_from_page (page_image : image)
    (pdf_path : text) (page_number : nat) : M image (list result_row) :=
  try_except
    (t ← image_to_string w page_image;
     let route_matches := findall1 true route_id_pattern t in
     let to_matches := findall2 true to_pattern t in
     let xdock_wh_matches := findall2 true xdock_wh_pattern t in
     mret (test_collect_matches route_matches to_matches xdock_wh_matches
             pdf_path page_number))
    (fun _ => mret []).

(** Lines 98-101 of the test script. *)
Fixpoint test_page_loop (pdf_path : text) (page_number : nat)
    (pages : list image) : M image (list result_row) :=
  match pages with
  | [] => mret []
  | page :: pages' =>
      let preprocessed_page := test_preprocess_image page in
      matches ← test_extract_info_from_page preprocessed_page pdf_path
                  page_number;
      all_matches ← test_page_loop pdf_path (S page_number) pages';
      mret (matches ++ all_matches)
  end.

(** [test_pdf_processing] (lines 87-111); the value is the data the
    script prints, none when it prints an error instead. *)
Definition test_pdf_processing (pdf_path : text)
    : M image (list result_row) :=
  try_except
    (pages ← convert_from_path w pdf_path;
     test_page_loop pdf_path 1 pages)
    (fun _ => mret []).

End TestScript.

(** ** More test data *)

Module Cases.

(** The office, with an orientation engine whose report has no
    [Rotate] line. *)
Definition no_rotate_line : world Fixture.scan :=
  let w := Fixture.office 0 None in
  World (fun k p => Some (str "Page number: 0"))
    (ocr_reply w) (pdf_pages w) (pdf_page_readable w) (excel_writable w)
    (script_dir w) (os_sep w) (os_path_basename w) (os_path_exists w)
    (os_walk w) (arrival_order w) (cpu_count w) (csv_rows w).

(** The office, with a recognition engine that answers its first call
    with a text without route identifier and fails from then on. *)
Definition ocr_breaks : world Fixture.scan :=
  let w := Fixture.office 0 None in
  World (osd_reply w)
    (fun k p => if k =? 0 then Some (str "~~") else None)
    (pdf_pages w) (pdf_page_readable w) (excel_writable w)
    (script_dir w) (os_sep w) (os_path_basename w) (os_path_exists w)
    (os_walk w) (arrival_order w) (cpu_count w) (csv_rows w).

(** A number in full-width digits (U+FF10 to U+FF19). *)
Definition fullwidth (s : text) : text :=
  (fun c => if in_range "0"%char "9"%char c then (c + 0xFEE0)%N else c)
    <$> s.

(** The office, with a recognition engine that reads the route
    identifier in full-width digits. *)
Definition fullwidth_office : world Fixture.scan :=
  let w := Fixture.office 0 None in
  World (osd_reply w)
    (fun k p =>
       Some (str "Route: " ++ fullwidth (str "12345678")
             ++ str " X-Dock WH: 1234-Acme Store"))
    (pdf_pages w) (pdf_page_readable w) (excel_writable w)
    (script_dir w) (os_sep w) (os_path_basename w) (os_path_exists w)
    (os_walk w) (arrival_order w) (cpu_count w) (csv_rows w).

(** A number of 4301 digits. *)
Definition long_number : text := replicate 4301 (code "1").


(** The office on a machine with one CPU. *)
Definition one_cpu : world Fixture.scan :=
  let w := Fixture.office 0 None in
  World (osd_reply w) (ocr_reply w) (pdf_pages w) (pdf_page_readable w)
    (excel_writable w) (script_dir w) (os_sep w) (os_path_basename w)
    (os_path_exists w) (os_walk w) (arrival_order w) 1 (csv_rows w).

(** The office, with an input directory that holds a text file only. *)
Definition no_documents : world Fixture.scan :=
  let w := Fixture.office 0 None in
  World (osd_reply w) (ocr_reply w) (pdf_pages w) (pdf_page_readable w)
    (excel_writable w) (script_dir w) (os_sep w) (os_path_basename w)
    (os_path_exists w) (fun d => [(d, str "c.txt")]) (arrival_order w)
    (cpu_count w) (csv_rows w).

(** A query file whose second line is shorter than the header. *)
Definition short_row : csv_row :=
  {[ str "RouteID" := Some (str "87654321");
     str "LocationNumber" := None ]}.

Definition good_row : csv_row :=
  {[ str "RouteID" := Some (str "12345678");
     str "LocationNumber" := Some (str "1234") ]}.

End Cases.

(** * Proofs *)

Ltac unfold_M :=
  unfold mbind, M_bind, bind, mret, M_ret, ret, raise, try_except, emit in *.

(** ** Facts about the matcher *)

Section Matcher.
Variable ic : bool.

Lemma star_sound p pc s g st' :
  st' ∈ star p pc s g →
  ∃ u, s = u ++ rest st' ∧ Forall (fun c => p c = true) u ∧ groups st' = g.
Proof.
  revert pc. induction s as [|c s IH]; intros pc Hin; simpl in Hin.
  - apply list_elem_of_singleton in Hin as ->. by exists [].
  - destruct (p c) eqn:Hp.
    + apply elem_of_app in Hin as [Hin|Hin].
      * destruct (IH _ Hin) as (u & -> & Hu & Hg).
        exists (c :: u). split_and!; [done | by constructor | done].
      * apply list_elem_of_singleton in Hin as ->. by exists [].
    + apply list_elem_of_singleton in Hin as ->. by exists [].
Qed.

Lemma run_sound r st st' : st' ∈ run ic r st → matches ic r st st'.
Proof.
  revert st st'.
  induction r as [|c|p|r1 IH1 r2 IH2|p|r IH|r IH|]; intros st st' Hin;
    simpl in Hin |- *.
  - by apply list_elem_of_singleton in Hin.
  - destruct (rest st) as [|c' s'] eqn:Hs; [by apply elem_of_nil in Hin|].
    destruct (lit_eqb ic c c') eqn:Hc; [|by apply elem_of_nil in Hin].
    apply list_elem_of_singleton in Hin as ->. by exists c'.
  - destruct (rest st) as [|c' s'] eqn:Hs; [by apply elem_of_nil in Hin|].
    destruct (p c') eqn:Hc; [|by apply elem_of_nil in Hin].
    apply list_elem_of_singleton in Hin as ->. by exists c'.
  - apply list_elem_of_bind in Hin as (mid & H2 & H1). eauto.
  - destruct (star_sound _ _ _ _ _ Hin) as (u & Hu & Hp & Hg). eauto.
  - apply elem_of_app in Hin as [Hin|Hin]; [left; eauto|].
    right. by apply list_elem_of_singleton in Hin.
  - apply list_elem_of_fmap in Hin as (mid & -> & Hin). eauto.
  - destruct (at_boundary st) eqn:Hb; [|by apply elem_of_nil in Hin].
    by apply list_elem_of_singleton in Hin.
Qed.

Lemma matches_Rep n p st st' :
  matches ic (Rep n p) st st' →
  ∃ u, rest st = u ++ rest st' ∧ length u = n
       ∧ Forall (fun c => p c = true) u ∧ groups st' = groups st.
Proof.
  revert st. induction n as [|n IH]; intros st Hm; simpl in Hm.
  - subst st'. by exists [].
  - destruct Hm as (mid & (c & Hs & Hp & _ & Hg) & Hm).
    destruct (IH _ Hm) as (u & Hu & Hlen & HF & Hg').
    exists (c :: u). rewrite Hs, Hu. simpl.
    split_and!; [done | by f_equal | by constructor | congruence].
Qed.

Lemma matches_Word s st st' :
  matches ic (Word s) st st' → groups st' = groups st.
Proof.
  revert st. induction s as [|c s IH]; intros st Hm; simpl in Hm.
  - by subst.
  - destruct Hm as (mid & (c' & _ & _ & _ & Hg) & Hm).
    rewrite (IH _ Hm). done.
Qed.

Lemma matches_Plus p st st' :
  matches ic (Plus p) st st' →
  ∃ c u, rest st = c :: u ++ rest st'
         ∧ Forall (fun c => p c = true) (c :: u) ∧ groups st' = groups st.
Proof.
  intros (mid & (c & Hs & Hp & _ & Hg) & (u & Hu & HF & Hg')).
  exists c, u. rewrite Hs, Hu. split_and!; [done | by constructor | congruence].
Qed.

Lemma consumed_app st st' u : rest st = u ++ rest st' → consumed st st' = u.
Proof.
  intros Hs. unfold consumed. rewrite Hs, length_app.
  replace (length u + length (rest st') - length (rest st')) with (length u) by lia.
  by rewrite take_app_length.
Qed.

Lemma match_at_run r pc s st' :
  match_at ic r pc s = Some st' → st' ∈ run ic r (MState pc s []).
Proof.
  unfold match_at. destruct (run ic r (MState pc s [])); simpl; [done|].
  intros [= ->]. apply list_elem_of_here.
Qed.

Lemma findall_from_elem r skip pc s g :
  g ∈ findall_from ic r skip pc s →
  ∃ pc' s' st', st' ∈ run ic r (MState pc' s' []) ∧ g = groups st'.
Proof.
  revert skip pc. induction s as [|c s IH]; intros skip pc Hin.
  - destruct skip; simpl in Hin; [|by apply elem_of_nil in Hin].
    destruct (match_at ic r pc []) as [m|] eqn:Hm;
      [|by apply elem_of_nil in Hin].
    apply list_elem_of_singleton in Hin as ->.
    exists pc, [], m. split; [by apply match_at_run | done].
  - destruct skip; simpl in Hin; [|eauto].
    destruct (match_at ic r pc (c :: s)) as [m|] eqn:Hm; [|eauto].
    apply elem_of_cons in Hin as [->|Hin]; [|eauto].
    exists pc, (c :: s), m. split; [by apply match_at_run | done].
Qed.

End Matcher.

(** ** What the three patterns capture *)

Lemma route_id_groups pc s st' :
  st' ∈ run true route_id_pattern (MState pc s []) →
  ∃ g, groups st' = [g] ∧ digits 8 g.
Proof.
  intros Hin%run_sound.
  destruct Hin as (s1 & [-> _] & s2 & Hw%matches_Word & s3 & (? & _ & _ & Hg3)
                   & s4 & Hopt & s5 & (mid & Hrep%matches_Rep & ->) & [-> _]).
  destruct Hrep as (u & Hu & Hlen & HF & Hg).
  assert (groups s4 = []) as Hg4.
  { destruct Hopt as [(? & _ & _ & _ & Hg4)| ->]; simpl in *; congruence. }
  exists u. simpl. rewrite (consumed_app _ _ _ Hu), Hg, Hg4. done.
Qed.

Lemma location_groups (name_char : char → bool) st0 st' :
  groups st0 = [] →
  matches true
    (Seq (Group (Rep 4 is_digit)) (Seq (Lit "-"%char) (Group (Plus name_char))))
    st0 st' →
  ∃ l n, groups st' = [l; n] ∧ digits 4 l ∧ n ≠ []
         ∧ Forall (fun c => name_char c = true) n.
Proof.
  intros Hg0 (s1 & (m1 & Hrep%matches_Rep & ->) & s2 & (? & Hs2 & _ & _ & Hg2)
              & (m3 & Hplus%matches_Plus & ->)).
  destruct Hrep as (u & Hu & Hlen & HF & Hg).
  destruct Hplus as (c & v & Hv & HFv & Hg3).
  exists u, (c :: v). simpl in *.
  rewrite (consumed_app _ _ (c :: v) Hv), Hg3, Hg2, (consumed_app _ _ _ Hu), Hg, Hg0.
  done.
Qed.

Lemma to_groups pc s st' :
  st' ∈ run true to_pattern (MState pc s []) →
  ∃ l n, groups st' = [l; n] ∧ digits 4 l ∧ n ≠ []
         ∧ Forall (fun c => to_name_char c = true) n.
Proof.
  intros Hin%run_sound.
  destruct Hin as (s1 & [-> _] & s2 & Hw%matches_Word
                   & s3 & (? & ? & _ & _ & Hg3)%matches_Plus
                   & s4 & (? & ? & _ & _ & Hg4)%matches_Plus
                   & s5 & (? & ? & _ & _ & Hg5)%matches_Plus & Hloc).
  apply location_groups in Hloc; [done|].
  simpl in *. congruence.
Qed.

Lemma xdock_wh_groups pc s st' :
  st' ∈ run true xdock_wh_pattern (MState pc s []) →
  ∃ l n, groups st' = [l; n] ∧ digits 4 l ∧ n ≠ []
         ∧ Forall (fun c => xdock_name_char c = true) n.
Proof.
  intros Hin%run_sound.
  destruct Hin as (s1 & [-> _] & s2 & Hw%matches_Word
                   & s3 & (? & _ & _ & Hg3)
                   & s4 & (? & _ & _ & _ & Hg4)
                   & s5 & (? & _ & _ & Hg5) & Hloc).
  apply location_groups in Hloc; [done|].
  simpl in *. congruence.
Qed.

Lemma findall_route_digits t g :
  g ∈ findall1 true route_id_pattern t → digits 8 g.
Proof.
  intros (gs & -> & Hin)%list_elem_of_fmap.
  apply findall_from_elem in Hin as (pc & s & st' & Hrun & ->).
  apply route_id_groups in Hrun as (g & -> & Hg). done.
Qed.

Lemma findall_to_fields t l n :
  (l, n) ∈ findall2 true to_pattern t →
  digits 4 l ∧ n ≠ [] ∧ Forall (fun c => to_name_char c = true) n.
Proof.
  intros (gs & [= -> ->] & Hin)%list_elem_of_fmap.
  apply findall_from_elem in Hin as (pc & s & st' & Hrun & ->).
  apply to_groups in Hrun as (l & n & -> & Hl & Hn). done.
Qed.

Lemma findall_xdock_wh_fields t l n :
  (l, n) ∈ findall2 true xdock_wh_pattern t →
  digits 4 l ∧ n ≠ [] ∧ Forall (fun c => xdock_name_char c = true) n.
Proof.
  intros (gs & [= -> ->] & Hin)%list_elem_of_fmap.
  apply findall_from_elem in Hin as (pc & s & st' & Hrun & ->).
  apply xdock_wh_groups in Hrun as (l & n & -> & Hl & Hn). done.
Qed.

Lemma digits_nonempty n s : digits (S n) s → s ≠ [].
Proof. intros [Hlen _] ->. done. Qed.

Lemma truthy_nonempty s : s ≠ [] → truthy s = true.
Proof. intros Hs. unfold truthy. by rewrite bool_decide_false. Qed.

Lemma pair_route_matches_some route_matches to_matches xdock_wh_matches l n :
  pick_location to_matches xdock_wh_matches = Some (l, n) →
  l ≠ [] → n ≠ [] →
  pair_route_matches route_matches to_matches xdock_wh_matches
  = (fun route_id => (route_id, l, clean_store_name n)) <$> route_matches.
Proof.
  intros Hpick Hl Hn. unfold pair_route_matches. rewrite Hpick.
  rewrite (truthy_nonempty l), (truthy_nonempty n) by done. simpl.
  induction route_matches as [|r rs IH]; [done|].
  rewrite bind_cons, fmap_cons, IH. done.
Qed.

Lemma pair_route_matches_none route_matches :
  pair_route_matches route_matches [] [] = [].
Proof.
  unfold pair_route_matches. simpl.
  induction route_matches as [|r rs IH]; [done|].
  rewrite bind_cons, IH. done.
Qed.


Section Outcomes.
Context {image : Type}.


Lemma returns_ensures {A} (P : A → Prop) (m : M image A) :
  returns P m → ensures P m.
Proof. intros Hm s. by destruct (Hm s) as (a & s' & -> & Ha). Qed.

Lemma returns_ret {A} (P : A → Prop) a : P a → returns P (mret a : M image A).
Proof. intros Ha s. by exists a, s. Qed.

Lemma ensures_ret {A} (P : A → Prop) a : P a → ensures P (mret a : M image A).
Proof. intros Ha. by apply returns_ensures, returns_ret. Qed.

Lemma ensures_raise {A} (P : A → Prop) e :
  is_Exception e = true → ensures P (raise e : M image A).
Proof. intros He s. done. Qed.

Lemma returns_bind {A B} (Q : A → Prop) (P : B → Prop) (m : M image A) f :
  returns Q m → (∀ a, Q a → returns P (f a)) → returns P (m ≫= f).
Proof.
  intros Hm Hf s. destruct (Hm s) as (a & s' & Hs & Ha).
  unfold mbind, M_bind, bind. rewrite Hs. by apply Hf.
Qed.

Lemma ensures_bind {A B} (Q : A → Prop) (P : B → Prop) (m : M image A) f :
  ensures Q m → (∀ a, Q a → ensures P (f a)) → ensures P (m ≫= f).
Proof.
  intros Hm Hf s. specialize (Hm s).
  unfold mbind, M_bind, bind. destruct (m s) as [[a|e] s']; [|done].
  by apply Hf.
Qed.

Lemma returns_try_except {A} (P : A → Prop) (m : M image A) h :
  ensures P m → (∀ e, returns P (h e)) → returns P (try_except m h).
Proof.
  intros Hm Hh s. specialize (Hm s). unfold try_except.
  destruct (m s) as [[a|e] s']; [by exists a, s'|].
  rewrite Hm. apply Hh.
Qed.

Lemma ensures_try_except {A} (P : A → Prop) (m : M image A) h :
  ensures P m → (∀ e, ensures P (h e)) → ensures P (try_except m h).
Proof.
  intros Hm Hh s. specialize (Hm s). unfold try_except.
  destruct (m s) as [[a|e] s']; [done|].
  rewrite Hm. apply Hh.
Qed.

Lemma returns_emit ev : returns (fun _ => True) (emit ev : M image unit).
Proof. intros s. by eexists _, _. Qed.

Lemma returns_weaken {A} (P Q : A → Prop) (m : M image A) :
  (∀ a, P a → Q a) → returns P m → returns Q m.
Proof.
  intros HPQ Hm s. destruct (Hm s) as (a & s' & -> & Ha). eauto.
Qed.

Lemma ensures_weaken {A} (P Q : A → Prop) (m : M image A) :
  (∀ a, P a → Q a) → ensures P m → ensures Q m.
Proof.
  intros HPQ Hm s. specialize (Hm s). destruct (m s) as [[a|e] s']; eauto.
Qed.

End Outcomes.

Lemma decimal_zero_spec c z :
  decimal_zero c = Some z → z ∈ decimal_zeros ∧ (z ≤ c ≤ z + 9)%N.
Proof.
  unfold decimal_zero. intros Hf.
  apply find_some in Hf as [Hin Hr]. split; [by apply list_elem_of_In|].
  unfold in_range in Hr.
  apply andb_true_iff in Hr as [H1%N.leb_le H2%N.leb_le]. lia.
Qed.

Lemma is_digit_spec c :
  is_digit c = true → ∃ z, z ∈ decimal_zeros ∧ (z ≤ c ≤ z + 9)%N.
Proof.
  unfold is_digit. destruct (decimal_zero c) as [z|] eqn:Hz; [|done].
  intros _. exists z. by apply decimal_zero_spec.
Qed.

(** Checked on the tables: no decimal digit has another upper case. *)
Lemma upper_decimal_zeros :
  forallb (fun z =>
    forallb (fun i => bool_decide (upper (z + i)%N = [(z + i)%N]))
      [0; 1; 2; 3; 4; 5; 6; 7; 8; 9]%N) decimal_zeros = true.
Proof. vm_compute. reflexivity. Qed.

Lemma upper_digit c : is_digit c = true → upper c = [c].
Proof.
  intros (z & Hz & Hc)%is_digit_spec.
  pose proof upper_decimal_zeros as Hall.
  rewrite forallb_forall in Hall.
  specialize (Hall z (proj1 (list_elem_of_In _ _) Hz)).
  rewrite forallb_forall in Hall.
  specialize (Hall (c - z)%N).
  replace (z + (c - z))%N with c in Hall by lia.
  apply bool_decide_eq_true in Hall; [done|].
  simpl. lia.
Qed.

Lemma str_upper_digits n s : digits n s → str_upper s = s.
Proof.
  intros [_ HF]. unfold str_upper.
  induction HF as [|c s Hc _ IH]; [done|].
  rewrite bind_cons, IH, (upper_digit c Hc). done.
Qed.

Lemma pick_location_elem to_matches xdock_wh_matches m :
  pick_location to_matches xdock_wh_matches = Some m →
  m ∈ xdock_wh_matches ∨ m ∈ to_matches.
Proof.
  unfold pick_location.
  destruct xdock_wh_matches as [|x xs]; [destruct to_matches as [|y ys]|].
  - done.
  - intros [= ->]. right. apply list_elem_of_here.
  - intros [= ->]. left. apply list_elem_of_here.
Qed.

Lemma records_of_text_well_formed t :
  Forall match_well_formed (records_of_text t).
Proof.
  unfold records_of_text, pattern_pass, pair_route_matches.
  apply Forall_forall. intros [[r l] n] (r' & Hin & Hr)%list_elem_of_bind.
  destruct (pick_location _ _) as [[l' n']|] eqn:Hpick;
    [|by apply elem_of_nil in Hin].
  destruct (truthy l' && truthy n'); [|by apply elem_of_nil in Hin].
  apply list_elem_of_singleton in Hin as [= -> -> ->].
  split; simpl.
  - by eapply findall_route_digits.
  - apply pick_location_elem in Hpick as [Hx|Ht].
    + by apply findall_xdock_wh_fields in Hx as [? _].
    + by apply findall_to_fields in Ht as [? _].
Qed.

Section PipelineFacts.
Context {image : Type} `{Imaging image}.
Variable w : world image.

Lemma image_to_osd_ensures img :
  ensures (fun _ => True) (image_to_osd w img).
Proof.
  intros s. unfold image_to_osd. by destruct (osd_reply w _ img).
Qed.

Lemma image_to_string_ensures img :
  ensures (fun _ => True) (image_to_string w img).
Proof.
  intros s. unfold image_to_string. by destruct (ocr_reply w _ img).
Qed.

Lemma robust_image_to_osd_ensures img retries delay :
  ensures (fun _ => True) (robust_image_to_osd w img retries delay).
Proof.
  induction retries as [|k IH]; simpl.
  - by apply ensures_raise.
  - apply ensures_try_except; [apply image_to_osd_ensures|].
    intros _. eapply ensures_bind; [apply returns_ensures, returns_emit|].
    intros _ _. apply IH.
Qed.

Lemma parse_rotation_ensures osd :
  ensures (fun _ => True) (parse_rotation osd : M image Z).
Proof.
  unfold parse_rotation.
  destruct (search false rotate_pattern osd) as [[? ?]|].
  - unfold int_of_digits. case_bool_decide.
    + by apply ensures_ret.
    + by apply ensures_raise.
  - by apply ensures_raise.
Qed.

Lemma correct_orientation_returns page_image :
  returns (fun _ => True) (correct_orientation w page_image).
Proof.
  unfold correct_orientation. apply returns_try_except.
  - eapply ensures_bind; [apply robust_image_to_osd_ensures|].
    intros osd _. eapply ensures_bind; [apply parse_rotation_ensures|].
    intros rotation _. by apply ensures_ret.
  - intros _. by apply returns_ret.
Qed.

Lemma ocr_passes_ensures corrected_image :
  ensures (fun records => ∃ t, records = records_of_text t)
    (ocr_passes w corrected_image).
Proof.
  unfold ocr_passes.
  eapply ensures_bind; [apply image_to_string_ensures|].
  intros t _.
  assert (∃ t0, (let '(rm, tm, xm) := pattern_pass t in
                 pair_route_matches rm tm xm) = records_of_text t0) as Ht
    by (by exists t).
  destruct (pattern_pass t) as [[route_matches to_matches] xdock_wh_matches].
  set (Q := fun found : list text * list (text * text) * list (text * text) =>
              ∃ t0, (let '(rm, tm, xm) := found in
                     pair_route_matches rm tm xm) = records_of_text t0).
  destruct route_matches as [|r rs].
  - apply (ensures_bind Q).
    + eapply ensures_bind; [apply image_to_string_ensures|].
      intros t2 _. apply ensures_ret. by exists t2.
    + intros [[rm tm] xm] Hfound. by apply ensures_ret.
  - apply (ensures_bind Q).
    + by apply ensures_ret.
    + intros [[rm tm] xm] Hfound. by apply ensures_ret.
Qed.

Lemma extract_info_from_page_text page_image :
  returns (fun records => records = [] ∨ ∃ t, records = records_of_text t)
    (extract_info_from_page w page_image).
Proof.
  unfold extract_info_from_page. apply returns_try_except.
  - eapply ensures_bind;
      [apply returns_ensures, correct_orientation_returns|].
    intros c _. eapply ensures_weaken; [|apply ocr_passes_ensures]. eauto.
  - intros _. apply returns_ret. by left.
Qed.

Lemma extract_info_from_page_returns page_image :
  returns (Forall match_well_formed) (extract_info_from_page w page_image).
Proof.
  eapply returns_weaken; [|apply extract_info_from_page_text].
  intros records [->|[t ->]]; [constructor|].
  apply records_of_text_well_formed.
Qed.

End PipelineFacts.

Lemma records_of_text_priority t :
  (∀ l n xs,
     findall2 true xdock_wh_pattern t = (l, n) :: xs →
     records_of_text t
     = (fun route_id => (route_id, l, clean_store_name n))
         <$> findall1 true route_id_pattern t)
  ∧ (∀ l n ts,
       findall2 true xdock_wh_pattern t = [] →
       findall2 true to_pattern t = (l, n) :: ts →
       records_of_text t
       = (fun route_id => (route_id, l, clean_store_name n))
           <$> findall1 true route_id_pattern t)
  ∧ (findall2 true xdock_wh_pattern t = [] →
     findall2 true to_pattern t = [] →
     records_of_text t = []).
Proof.
  unfold records_of_text, pattern_pass. split_and!.
  - intros l n xs Hx.
    destruct (findall_xdock_wh_fields t l n) as (Hl & Hn & _).
    { rewrite Hx. apply list_elem_of_here. }
    apply pair_route_matches_some; [by rewrite Hx | | done].
    by eapply digits_nonempty.
  - intros l n ts Hx Ht.
    destruct (findall_to_fields t l n) as (Hl & Hn & _).
    { rewrite Ht. apply list_elem_of_here. }
    apply pair_route_matches_some; [by rewrite Hx, Ht | | done].
    by eapply digits_nonempty.
  - intros -> ->. apply pair_route_matches_none.
Qed.

(** ** Facts about [drop_duplicates] *)

Section DropDuplicates.
Implicit Types (seen : gset (text * text * text * nat)).
Implicit Types (rows : list result_row).

Lemma drop_duplicates_from_sublist seen rows :
  drop_duplicates_from seen rows `sublist_of` rows.
Proof.
  revert seen. induction rows as [|r rows IH]; intros seen; simpl.
  - done.
  - case_bool_decide.
    + by apply sublist_cons.
    + by apply sublist_skip.
Qed.

Lemma drop_duplicates_from_elem seen rows r :
  r ∈ drop_duplicates_from seen rows → r ∈ rows.
Proof.
  revert seen. induction rows as [|r0 rows IH]; intros seen; simpl.
  - done.
  - case_bool_decide.
    + intros Hin%IH. by apply list_elem_of_further.
    + intros [->|Hin%IH]%elem_of_cons;
        [apply list_elem_of_here | by apply list_elem_of_further].
Qed.

Lemma drop_duplicates_Forall (P : result_row → Prop) rows :
  Forall P rows → Forall P (drop_duplicates rows).
Proof.
  rewrite !Forall_forall. intros HP r Hin%drop_duplicates_from_elem. eauto.
Qed.

Lemma drop_duplicates_from_fresh seen rows r :
  r ∈ drop_duplicates_from seen rows → dedup_key r ∉ seen.
Proof.
  revert seen. induction rows as [|r0 rows IH]; intros seen; simpl.
  - by intros ?%elem_of_nil.
  - case_bool_decide as Hseen; [by apply IH|].
    intros [->|Hin]%elem_of_cons; [done|].
    apply IH in Hin. by apply not_elem_of_union in Hin as [_ ?].
Qed.

Lemma drop_duplicates_from_NoDup seen rows :
  NoDup (dedup_key <$> drop_duplicates_from seen rows).
Proof.
  revert seen. induction rows as [|r rows IH]; intros seen; simpl.
  - constructor.
  - case_bool_decide as Hseen; [by apply IH|].
    rewrite fmap_cons. constructor; [|by apply IH].
    intros (r' & Hk & Hin)%list_elem_of_fmap.
    apply drop_duplicates_from_fresh in Hin.
    apply Hin, elem_of_union_l, elem_of_singleton. done.
Qed.

Lemma drop_duplicates_from_covers seen rows r :
  r ∈ rows → dedup_key r ∉ seen →
  ∃ r', r' ∈ drop_duplicates_from seen rows ∧ dedup_key r' = dedup_key r.
Proof.
  revert seen. induction rows as [|r0 rows IH]; intros seen; simpl.
  - by intros ?%elem_of_nil.
  - intros [->|Hin]%elem_of_cons Hfresh.
    + rewrite bool_decide_false by done.
      exists r0. split; [apply list_elem_of_here | done].
    + case_bool_decide as Hseen; [by apply IH|].
      destruct (decide (dedup_key r = dedup_key r0)) as [Heq|Hne].
      * exists r0. split; [apply list_elem_of_here | done].
      * destruct (IH ({[dedup_key r0]} ∪ seen) Hin) as (r' & Hr' & Hk).
        { apply not_elem_of_union. by rewrite elem_of_singleton. }
        exists r'. split; [by apply list_elem_of_further | done].
Qed.

Lemma drop_duplicates_from_first seen pre r1 post :
  dedup_key r1 ∉ seen →
  (∀ r, r ∈ pre → dedup_key r ≠ dedup_key r1) →
  r1 ∈ drop_duplicates_from seen (pre ++ r1 :: post).
Proof.
  revert seen. induction pre as [|r0 pre IH]; intros seen Hfresh Hpre; simpl.
  - rewrite bool_decide_false by done. apply list_elem_of_here.
  - assert (dedup_key r0 ≠ dedup_key r1) as Hne
      by (apply Hpre, list_elem_of_here).
    assert (∀ r, r ∈ pre → dedup_key r ≠ dedup_key r1) as Hpre'
      by (intros r Hr; by apply Hpre, list_elem_of_further).
    case_bool_decide as Hseen; [by apply IH|].
    apply list_elem_of_further, IH; [|done].
    apply not_elem_of_union. rewrite elem_of_singleton. split; [congruence | done].
Qed.

Lemma NoDup_fmap_key_eq rows (r r' : result_row) :
  NoDup (dedup_key <$> rows) → r ∈ rows → r' ∈ rows →
  dedup_key r = dedup_key r' → r = r'.
Proof.
  induction rows as [|r0 rows IH]; [by intros _ ?%elem_of_nil|].
  rewrite fmap_cons. intros [Hnin Hnd]%NoDup_cons.
  intros [->|Hr]%elem_of_cons [->|Hr']%elem_of_cons Hk.
  - done.
  - destruct Hnin. rewrite Hk. by apply list_elem_of_fmap_2.
  - destruct Hnin. rewrite <- Hk. by apply list_elem_of_fmap_2.
  - by apply IH.
Qed.

End DropDuplicates.

Section BatchFacts.
Context {image : Type} `{Imaging image}.
Variable w : world image.

Lemma page_results_well_formed pdf_path page_number ms :
  Forall match_well_formed ms →
  Forall well_formed (page_results w pdf_path page_number ms).
Proof.
  intros Hms. unfold page_results. apply Forall_fmap.
  eapply Forall_impl; [done|].
  intros [[r l] n] [Hr Hl]. split; simpl in *; [|done].
  by rewrite (str_upper_digits 8).
Qed.

Lemma page_loop_returns pdf_path page_number pages :
  returns (Forall well_formed) (page_loop w pdf_path page_number pages).
Proof.
  revert page_number. induction pages as [|page pages IH]; intros n; simpl.
  - by apply returns_ret.
  - eapply returns_bind; [apply extract_info_from_page_returns|].
    intros ms Hms. eapply returns_bind; [apply IH|].
    intros results Hres. apply returns_ret, Forall_app.
    split; [by apply page_results_well_formed | done].
Qed.

Lemma convert_from_path_ensures pdf_path :
  ensures (fun _ => True) (convert_from_path w pdf_path).
Proof.
  unfold convert_from_path.
  eapply ensures_bind; [apply returns_ensures, returns_emit|].
  intros _ _. destruct (pdf_pages w pdf_path).
  - by apply ensures_ret.
  - by apply ensures_raise.
Qed.

Lemma extract_route_and_store_ids_returns pdf_path :
  returns (Forall well_formed) (extract_route_and_store_ids w pdf_path).
Proof.
  unfold extract_route_and_store_ids. apply returns_try_except.
  - eapply ensures_bind; [apply convert_from_path_ensures|].
    intros pages _. apply returns_ensures, page_loop_returns.
  - intros _. by apply returns_ret.
Qed.

Lemma merge_results_returns arrived :
  returns (Forall well_formed) (merge_results w arrived).
Proof.
  induction arrived as [|pdf_path arrived IH]; simpl.
  - by apply returns_ret.
  - eapply returns_bind; [apply extract_route_and_store_ids_returns|].
    intros result Hres. eapply returns_bind; [apply IH|].
    intros all_results Hall. apply returns_ret, Forall_app. done.
Qed.

Lemma process_pdfs_unfold pdf_directory s :
  (1 ≤ pool_size w)%Z →
  ∃ all_results s',
    merge_results w (arrival_order w (pdf_files w pdf_directory)) s
    = (Ok all_results, s')
    ∧ Forall well_formed all_results
    ∧ process_pdfs w pdf_directory s = (Ok (drop_duplicates all_results), s').
Proof.
  intros Hpool.
  destruct (merge_results_returns (arrival_order w (pdf_files w pdf_directory)) s)
    as (all_results & s' & Hm & Hwf).
  exists all_results, s'. split_and!; [done..|].
  unfold process_pdfs. rewrite bool_decide_false by lia.
  unfold mbind, M_bind, bind, mret, M_ret, ret. rewrite Hm.
  by destruct all_results.
Qed.

Lemma process_pdfs_no_pool pdf_directory s :
  (pool_size w < 1)%Z →
  process_pdfs w pdf_directory s = (Raise ValueError, s).
Proof.
  intros Hpool. unfold process_pdfs. by rewrite bool_decide_true by lia.
Qed.

End BatchFacts.

Lemma decimal_zeros_ascii :
  forallb (fun z => (z =? 48)%N || (128 <=? z)%N) decimal_zeros = true.
Proof. vm_compute. reflexivity. Qed.

Lemma is_digit_ascii c :
  is_digit c = true → (c < 128)%N → in_range "0"%char "9"%char c = true.
Proof.
  intros (z & Hz & Hc)%is_digit_spec Hlt.
  pose proof decimal_zeros_ascii as Hall. rewrite forallb_forall in Hall.
  specialize (Hall z (proj1 (list_elem_of_In _ _) Hz)).
  apply orb_true_iff in Hall as [Hz0%N.eqb_eq|Hz0%N.leb_le]; [|lia].
  subst z. unfold in_range. apply andb_true_iff.
  split; apply N.leb_le; unfold code; simpl; lia.
Qed.

Lemma digits_ascii n s :
  digits n s → Forall (fun c => (c < 128)%N) s → ascii_digits n s = true.
Proof.
  intros [Hlen HF] Hascii. unfold ascii_digits.
  rewrite bool_decide_true by done. simpl.
  apply forallb_forall. intros c Hin%list_elem_of_In.
  rewrite Forall_forall in HF, Hascii. apply is_digit_ascii; eauto.
Qed.

(** C9, as amended.  Every record the field extractor returns for a
    page, every Extraction Result of a document and every row of the
    final table has a RouteID of exactly 8 decimal digits and a
    LocationNumber of exactly 4, whatever the engine reads; a decimal
    digit is what [\d] matches on a [str], a digit of any script, and
    such a field made of ASCII characters is made of the digits 0 to
    9. *)
Theorem route_and_location_format {image : Type} `{Imaging image}
    (w : world image) :
  (∀ page_image,
     returns (Forall match_well_formed) (extract_info_from_page w page_image))
  ∧ (∀ pdf_path,
       returns (Forall well_formed) (extract_route_and_store_ids w pdf_path))
  ∧ (∀ pdf_directory,
       ensures (Forall well_formed) (process_pdfs w pdf_directory))
  ∧ (∀ n field,
       digits n field → Forall (fun c => (c < 128)%N) field →
       ascii_digits n field = true).
Proof.
  split_and!.
  - apply extract_info_from_page_returns.
  - apply extract_route_and_store_ids_returns.
  - intros pdf_directory s.
    destruct (decide (1 ≤ pool_size w)%Z) as [Hpool|Hpool].
    + destruct (process_pdfs_unfold w pdf_directory s Hpool)
        as (all_results & s' & _ & Hwf & ->).
      by apply drop_duplicates_Forall.
    + rewrite process_pdfs_no_pool by lia. done.
  - apply digits_ascii.
Qed.

(** C9, as the specification words it, fails when a numeric string is
    one of the digits 0 to 9: a page on which the engine reads the route
    identifier in full-width digits gives records, and rows of the
    final table, whose RouteID is those 8 full-width digits. *)
Lemma route_id_of_fullwidth_digits :
  let w := Cases.fullwidth_office in
  let route_id := Cases.fullwidth (str "12345678") in
  (extract_info_from_page w (0, 0%Z) (initial_state ∅)).1
  = Ok [(route_id, str "1234", str "Acme Store")]
  ∧ (∃ df,
       (process_pdfs w (str "./pdfs") (initial_state ∅)).1 = Ok df
       ∧ RouteID <$> df = [route_id; route_id; route_id])
  ∧ ascii_digits 8 route_id = false
  ∧ digits_b 8 route_id = true.
Proof.
  intros w route_id. split_and!; [by vm_compute | | by vm_compute..].
  eexists. split; vm_compute; reflexivity.
Qed.

(** C6.  The table the batch driver returns is the merged list of all
    worker outputs with duplicates dropped in one pass: it has at most
    one row for each (RouteID, LocationNumber, PDF, PageNumber), every
    merged record has its row, and two rows that agree on the four fields
    are one.  The field extractor does not do it: two mentions of a
    route on a page give two equal records. *)
Theorem result_table_unique {image : Type} `{Imaging image} (w : world image)
    (pdf_directory : text) (s : state image) :
  (1 ≤ pool_size w)%Z →
  ∃ all_results df s',
    merge_results w (arrival_order w (pdf_files w pdf_directory)) s
    = (Ok all_results, s')
    ∧ process_pdfs w pdf_directory s = (Ok df, s')
    ∧ df = drop_duplicates all_results
    ∧ NoDup (dedup_key <$> df)
    ∧ (∀ r, r ∈ all_results → ∃ r', r' ∈ df ∧ dedup_key r' = dedup_key r)
    ∧ (∀ r, r ∈ df → r ∈ all_results)
    ∧ (∀ r r', r ∈ df → r' ∈ df → dedup_key r = dedup_key r' → r = r')
    ∧ ¬ NoDup (records_of_text
                 (str "Route: 12345678 Route: 12345678 X-Dock WH: 1234-Acme")).
Proof.
  intros Hpool.
  destruct (process_pdfs_unfold w pdf_directory s Hpool)
    as (all_results & s' & Hm & _ & Hp).
  exists all_results, (drop_duplicates all_results), s'.
  split_and!; [done.. | | | | |].
  - apply drop_duplicates_from_NoDup.
  - intros r Hr. apply drop_duplicates_from_covers; [done|].
    apply not_elem_of_empty.
  - intros r. apply drop_duplicates_from_elem.
  - intros r r'. apply NoDup_fmap_key_eq, drop_duplicates_from_NoDup.
  - vm_compute. intros Hnd. apply NoDup_cons in Hnd as [Hnin _].
    apply Hnin, list_elem_of_here.
Qed.

(** C10.  Implicit: StoreName is not part of the key.  Of two merged
    records that agree on (RouteID, LocationNumber, PDF, PageNumber) and
    differ in StoreName, the one that arrived first is in the final table
    and the other is not; every row of that key carries the first store
    name. *)
Theorem first_store_name_kept {image : Type} `{Imaging image} (w : world image)
    (pdf_directory : text) (s s' : state image)
    (pre mid post : list result_row) (r1 r2 : result_row) :
  (1 ≤ pool_size w)%Z →
  merge_results w (arrival_order w (pdf_files w pdf_directory)) s
  = (Ok (pre ++ r1 :: mid ++ r2 :: post), s') →
  (∀ r, r ∈ pre → dedup_key r ≠ dedup_key r1) →
  dedup_key r2 = dedup_key r1 →
  StoreName r2 ≠ StoreName r1 →
  ∃ df,
    process_pdfs w pdf_directory s = (Ok df, s')
    ∧ (r1 ∈ df) ∧ (r2 ∉ df)
    ∧ (∀ r, r ∈ df → dedup_key r = dedup_key r1 →
         StoreName r = StoreName r1).
Proof.
  intros Hpool Hm Hpre Hkey Hstore.
  destruct (process_pdfs_unfold w pdf_directory s Hpool)
    as (all_results & s0 & Hm' & _ & Hp).
  rewrite Hm in Hm'. injection Hm' as [= <- <-].
  eexists. split; [done|].
  assert (r1 ∈ drop_duplicates (pre ++ r1 :: mid ++ r2 :: post)) as H1.
  { apply drop_duplicates_from_first; [apply not_elem_of_empty | done]. }
  assert (∀ r, r ∈ drop_duplicates (pre ++ r1 :: mid ++ r2 :: post) →
               dedup_key r = dedup_key r1 → r = r1) as Huniq.
  { intros r Hr Hk.
    eapply NoDup_fmap_key_eq; [apply (drop_duplicates_from_NoDup ∅)|done..]. }
  split_and!; [done | |].
  - intros H2. apply Huniq in H2; [|done]. by subst.
  - intros r Hr Hk. by rewrite (Huniq r Hr Hk).
Qed.


Section PageFacts.
Context {image : Type} `{Imaging image}.
Variable w : world image.

Lemma robust_image_to_osd_success img delay retries n reply s :
  n < retries →
  (∀ m, m < n → osd_reply w (osd_calls s + m) img = None) →
  osd_reply w (osd_calls s + n) img = Some reply →
  robust_image_to_osd w img retries delay s
  = (Ok reply,
     State (osd_calls s + n + 1) (ocr_calls s)
       (trace s ++ failed_attempts img delay n ++ [EvOsd img]) (files s)).
Proof.
  revert n s. induction retries as [|k IH]; intros n s Hn Hfail Hok; [lia|].
  simpl. unfold try_except, image_to_osd at 1.
  destruct n as [|n].
  - rewrite Nat.add_0_r in Hok. rewrite Hok. simpl.
    by replace (osd_calls s + 0 + 1) with (S (osd_calls s)) by lia.
  - rewrite <- (Nat.add_0_r (osd_calls s)) at 1.
    rewrite (Hfail 0) by lia. simpl.
    unfold sleep. unfold_M.
    rewrite (IH n); simpl.
    + replace (osd_calls s + S n + 1) with (S (osd_calls s + n + 1)) by lia.
      by rewrite <- !app_assoc.
    + lia.
    + intros m Hm. rewrite <- (Hfail (S m)) by lia. f_equal. lia.
    + rewrite <- Hok. f_equal. lia.
Qed.

Lemma robust_image_to_osd_failure img delay retries s :
  (∀ m, m < retries → osd_reply w (osd_calls s + m) img = None) →
  robust_image_to_osd w img retries delay s
  = (Raise UnboundLocalError,
     State (osd_calls s + retries) (ocr_calls s)
       (trace s ++ failed_attempts img delay retries) (files s)).
Proof.
  revert s. induction retries as [|k IH]; intros s Hfail; simpl.
  - unfold raise. rewrite Nat.add_0_r, app_nil_r. by destruct s.
  - unfold try_except, image_to_osd at 1.
    assert (osd_reply w (osd_calls s) img = None) as ->
      by (rewrite <- (Hfail 0) by lia; f_equal; lia).
    simpl.
    unfold sleep. unfold_M. rewrite IH; simpl.
    + replace (osd_calls s + S k) with (S (osd_calls s + k)) by lia.
      by rewrite <- !app_assoc.
    + intros m Hm. rewrite <- (Hfail (S m)) by lia. f_equal. lia.
Qed.

Lemma robust_image_to_osd_calls img delay retries s :
  osd_calls (robust_image_to_osd w img retries delay s).2
  ≤ osd_calls s + retries.
Proof.
  revert s. induction retries as [|k IH]; intros s; simpl; [lia|].
  unfold try_except, image_to_osd at 1.
  destruct (osd_reply w (osd_calls s) img); simpl; [lia|].
  unfold sleep. unfold_M.
  match goal with |- context [robust_image_to_osd w img k delay ?s0] =>
    specialize (IH s0) end.
  simpl in IH |- *. lia.
Qed.

Lemma extract_info_from_page_unfold page_image s corrected_image s0 :
  correct_orientation w page_image s = (Ok corrected_image, s0) →
  extract_info_from_page w page_image s
  = try_except (ocr_passes w corrected_image) (fun _ => mret []) s0.
Proof.
  intros Hc. unfold extract_info_from_page.
  unfold try_except at 1. unfold mbind, M_bind, bind. rewrite Hc. done.
Qed.

Lemma ocr_passes_first corrected_image s t1 :
  ocr_reply w (ocr_calls s) corrected_image = Some t1 →
  findall1 true route_id_pattern t1 ≠ [] →
  ocr_passes w corrected_image s
  = (Ok (records_of_text t1),
     State (osd_calls s) (S (ocr_calls s))
       (trace s ++ [EvOcr corrected_image]) (files s)).
Proof.
  intros H1 Hr. unfold ocr_passes, records_of_text.
  unfold_M. unfold image_to_string at 1. rewrite H1.
  unfold pattern_pass in *.
  destruct (findall1 true route_id_pattern t1) as [|r rs]; done.
Qed.

Lemma ocr_passes_second corrected_image s t1 :
  ocr_reply w (ocr_calls s) corrected_image = Some t1 →
  findall1 true route_id_pattern t1 = [] →
  let rotated_image := rotate 180 corrected_image in
  let s2 := State (osd_calls s) (S (S (ocr_calls s)))
              (trace s ++ [EvOcr corrected_image; EvOcr rotated_image])
              (files s) in
  ocr_passes w corrected_image s
  = match ocr_reply w (S (ocr_calls s)) rotated_image with
    | Some t2 => (Ok (records_of_text t2), s2)
    | None => (Raise TesseractError, s2)
    end.
Proof.
  intros H1 Hr. unfold ocr_passes, records_of_text.
  unfold_M. unfold image_to_string. rewrite H1.
  unfold pattern_pass at 1. rewrite Hr. simpl.
  destruct (ocr_reply w (S (ocr_calls s)) (rotate 180 corrected_image))
    as [t2|]; simpl.
  - destruct (pattern_pass t2) as [[? ?] ?]. by rewrite <- app_assoc.
  - by rewrite <- app_assoc.
Qed.

End PageFacts.

(** C1.  Let [t] be the text a page is read from: the text of the first
    recognition call when it has a route identifier, else the text of
    the call on the image turned by 180 degrees.  The field extractor
    returns one record for every route identifier matched in [t], in
    their order, paired by strict priority: when the X-Dock WH pattern
    matches anywhere in [t], with the location number and the (cleaned)
    store name of its first match, wherever the two headers stand;
    otherwise, when the To pattern matches, with those of its first
    match; otherwise it returns no record at all. *)
Theorem pairing_priority {image : Type} `{Imaging image} (w : world image)
    (page_image corrected_image : image) (s s0 : state image) (t : text) :
  correct_orientation w page_image s = (Ok corrected_image, s0) →
  (ocr_reply w (ocr_calls s0) corrected_image = Some t
   ∧ findall1 true route_id_pattern t ≠ [])
  ∨ (∃ t1, ocr_reply w (ocr_calls s0) corrected_image = Some t1
           ∧ findall1 true route_id_pattern t1 = []
           ∧ ocr_reply w (S (ocr_calls s0)) (rotate 180 corrected_image)
             = Some t) →
  ∃ records s',
    extract_info_from_page w page_image s = (Ok records, s')
    ∧ (∀ l n xs,
         findall2 true xdock_wh_pattern t = (l, n) :: xs →
         records
         = (fun route_id => (route_id, l, clean_store_name n))
             <$> findall1 true route_id_pattern t)
    ∧ (∀ l n ts,
         findall2 true xdock_wh_pattern t = [] →
         findall2 true to_pattern t = (l, n) :: ts →
         records
         = (fun route_id => (route_id, l, clean_store_name n))
             <$> findall1 true route_id_pattern t)
    ∧ (findall2 true xdock_wh_pattern t = [] →
       findall2 true to_pattern t = [] →
       records = []).
Proof.
  intros Hc Hread.
  rewrite (extract_info_from_page_unfold w _ _ _ _ Hc). unfold try_except.
  assert (∃ s', ocr_passes w corrected_image s0
                = (Ok (records_of_text t), s')) as [s' Hrun].
  { destruct Hread as [[H1 Hr]|(t1 & H1 & Hr & H2)].
    - rewrite (ocr_passes_first w _ _ t) by done. eauto.
    - rewrite (ocr_passes_second w _ _ t1) by done. rewrite H2. eauto. }
  rewrite Hrun. exists (records_of_text t), s'. split; [done|].
  apply records_of_text_priority.
Qed.

(** C2.  The extractor turns the image by 180 degrees and reads it a
    second time exactly when the first text has no route identifier: with
    a route match in the first text there is one recognition call and
    the records are those of that text; without, there are two calls, the
    second on the turned image, and the records of the page are those of
    the second text alone (none when the second call fails). *)
Theorem rotation_fallback {image : Type} `{Imaging image} (w : world image)
    (page_image corrected_image : image) (s s0 : state image) (t1 : text) :
  correct_orientation w page_image s = (Ok corrected_image, s0) →
  ocr_reply w (ocr_calls s0) corrected_image = Some t1 →
  let rotated_image := rotate 180 corrected_image in
  let s1 := State (osd_calls s0) (S (ocr_calls s0))
              (trace s0 ++ [EvOcr corrected_image]) (files s0) in
  let s2 := State (osd_calls s0) (S (S (ocr_calls s0)))
              (trace s0 ++ [EvOcr corrected_image; EvOcr rotated_image])
              (files s0) in
  (findall1 true route_id_pattern t1 ≠ [] →
     extract_info_from_page w page_image s = (Ok (records_of_text t1), s1))
  ∧ (findall1 true route_id_pattern t1 = [] →
       ∀ t2, ocr_reply w (S (ocr_calls s0)) rotated_image = Some t2 →
         extract_info_from_page w page_image s = (Ok (records_of_text t2), s2))
  ∧ (findall1 true route_id_pattern t1 = [] →
       ocr_reply w (S (ocr_calls s0)) rotated_image = None →
       extract_info_from_page w page_image s = (Ok [], s2)).
Proof.
  intros Hc H1 rotated_image s1 s2.
  rewrite (extract_info_from_page_unfold w _ _ _ _ Hc). unfold try_except.
  split_and!.
  - intros Hr. by rewrite (ocr_passes_first w _ _ t1).
  - intros Hr t2 H2. rewrite (ocr_passes_second w _ _ t1) by done.
    fold rotated_image. by rewrite H2.
  - intros Hr H2. rewrite (ocr_passes_second w _ _ t1) by done.
    fold rotated_image. by rewrite H2.
Qed.

(** C4.  The orientation corrector calls the engine's orientation
    detection at most 3 times, with a 1-second sleep after each failed
    call, and returns the first reply it gets; when all 3 calls fail it
    raises an exception, which the caller catches: the page is then read
    from the uncorrected image. *)
Theorem osd_retry_policy {image : Type} `{Imaging image} (w : world image)
    (page_image : image) (s : state image) :
  osd_calls (robust_image_to_osd w page_image 3 1 s).2 ≤ osd_calls s + 3
  ∧ (∀ n reply,
       n < 3 →
       (∀ m, m < n → osd_reply w (osd_calls s + m) page_image = None) →
       osd_reply w (osd_calls s + n) page_image = Some reply →
       robust_image_to_osd w page_image 3 1 s
       = (Ok reply,
          State (osd_calls s + n + 1) (ocr_calls s)
            (trace s ++ failed_attempts page_image 1 n ++ [EvOsd page_image])
            (files s)))
  ∧ ((∀ m, m < 3 → osd_reply w (osd_calls s + m) page_image = None) →
     let s' := State (osd_calls s + 3) (ocr_calls s)
                 (trace s ++ failed_attempts page_image 1 3) (files s) in
     robust_image_to_osd w page_image 3 1 s = (Raise UnboundLocalError, s')
     ∧ is_Exception UnboundLocalError = true
     ∧ correct_orientation w page_image s = (Ok page_image, s')
     ∧ extract_info_from_page w page_image s
       = try_except (ocr_passes w page_image) (fun _ => mret []) s'
     ∧ (∀ t, ocr_reply w (ocr_calls s) page_image = Some t →
          findall1 true route_id_pattern t ≠ [] →
          extract_info_from_page w page_image s
          = (Ok (records_of_text t),
             State (osd_calls s + 3) (S (ocr_calls s))
               (trace s ++ failed_attempts page_image 1 3
                  ++ [EvOcr page_image]) (files s)))).
Proof.
  split_and!.
  - apply robust_image_to_osd_calls.
  - intros n reply Hn Hfail Hok. by apply robust_image_to_osd_success.
  - intros Hfail s'.
    pose proof (robust_image_to_osd_failure w page_image 1 3 s Hfail) as Hr.
    assert (correct_orientation w page_image s = (Ok page_image, s')) as Hc.
    { unfold correct_orientation, try_except. unfold mbind, M_bind, bind.
      by rewrite Hr. }
    split_and!; [done.. | |].
    + by apply extract_info_from_page_unfold.
    + intros t Ht Hroutes.
      rewrite (extract_info_from_page_unfold w _ _ _ _ Hc). unfold try_except.
      rewrite (ocr_passes_first w _ _ t) by done.
      simpl. by rewrite <- !app_assoc.
Qed.

(** ** Facts about the cleaning of store names *)

Lemma run_Word_nonempty u pc s g :
  run false (Word u) (MState pc s g) ≠ [] ↔ take (length u) s = u.
Proof.
  revert pc s. induction u as [|c u IH]; intros pc s; simpl.
  - by rewrite take_0.
  - destruct s as [|c' s]; simpl; [done|].
    unfold lit_eqb. case_bool_decide as Hc.
    + subst c'. simpl. rewrite app_nil_r, IH.
      split; [by intros -> | by intros [= ->]].
    + split; [done | by intros [= ? ?]].
Qed.

Lemma match_at_space_word u pc s :
  is_Some (match_at false (Seq (Class is_space) (Word u)) pc s)
  ↔ match s with
    | c :: s' => is_space c && bool_decide (take (length u) s' = u)
    | [] => false
    end = true.
Proof.
  unfold match_at.
  destruct s as [|c s]; simpl; [by split; [intros [? [=]]|]|].
  destruct (is_space c); simpl.
  - rewrite app_nil_r, bool_decide_eq_true.
    rewrite <- (run_Word_nonempty u (Some c) s []).
    destruct (run false (Word u) _); simpl.
    + split; [by intros [? [=]] | done].
    + split; [done | eauto].
  - split; [by intros [? [=]] | done].
Qed.

Lemma match_at_phone pc s :
  is_Some (match_at false phone_pattern pc s) ↔ space_phone_at s 0 = true.
Proof.
  unfold space_phone_at. rewrite drop_0.
  apply (match_at_space_word (str "Phone")).
Qed.

Lemma space_phone_at_cons c s i :
  space_phone_at (c :: s) (S i) = space_phone_at s i.
Proof. done. Qed.

Lemma search_from_phone_found pc before s i :
  space_phone_at s i = true →
  (∀ j, j < i → space_phone_at s j = false) →
  ∃ st, search_from false phone_pattern pc before s
        = Some (before ++ take i s, st).
Proof.
  revert pc before i. induction s as [|c s IH]; intros pc before i Hi Hfirst.
  - unfold space_phone_at in Hi. by rewrite drop_nil in Hi.
  - simpl. destruct i as [|i].
    + apply (match_at_phone pc) in Hi as [st ->]. exists st.
      by rewrite take_0, app_nil_r.
    + destruct (match_at false phone_pattern pc (c :: s)) as [st|] eqn:Hm.
      * assert (space_phone_at (c :: s) 0 = true) as H0
          by (apply (proj1 (match_at_phone pc _)); eauto).
        rewrite Hfirst in H0 by lia. done.
      * destruct (IH (Some c) (before ++ [c]) i) as [st ->]; [done| |].
        { intros j Hj. rewrite <- (space_phone_at_cons c). apply Hfirst. lia. }
        exists st. by rewrite <- app_assoc.
Qed.

Lemma search_from_phone_none pc before s :
  (∀ i, space_phone_at s i = false) →
  search_from false phone_pattern pc before s = None.
Proof.
  revert pc before. induction s as [|c s IH]; intros pc before Hnone; simpl.
  - destruct (match_at false phone_pattern pc []) as [st|] eqn:Hm; [|done].
    assert (space_phone_at [] 0 = true) as H0 by (apply (proj1 (match_at_phone pc _)); eauto).
    by rewrite Hnone in H0.
  - destruct (match_at false phone_pattern pc (c :: s)) as [st|] eqn:Hm.
    + assert (space_phone_at (c :: s) 0 = true) as H0
        by (apply (proj1 (match_at_phone pc _)); eauto).
      by rewrite Hnone in H0.
    + apply IH. intros i. rewrite <- (space_phone_at_cons c). apply Hnone.
Qed.

Lemma lstrip_spec s :
  ∃ a, s = a ++ lstrip s
       ∧ Forall (fun c => is_space c = true) a
       ∧ (∀ c, head (lstrip s) = Some c → is_space c = false).
Proof.
  induction s as [|c s (a & Hs & Ha & Hh)]; simpl.
  - by exists [].
  - destruct (is_space c) eqn:Hc.
    + exists (c :: a). split_and!; [simpl; by rewrite <- Hs | by constructor | done].
    + exists []. split_and!; [done | constructor |].
      simpl. by intros c' [= <-].
Qed.

Lemma rstrip_spec s :
  ∃ b, s = rstrip s ++ b
       ∧ Forall (fun c => is_space c = true) b
       ∧ (∀ c, last (rstrip s) = Some c → is_space c = false).
Proof.
  unfold rstrip. destruct (lstrip_spec (reverse s)) as (a & Hs & Ha & Hh).
  exists (reverse a). split_and!.
  - rewrite <- reverse_app, <- Hs. by rewrite reverse_involutive.
  - by apply Forall_reverse.
  - intros c. rewrite last_reverse. apply Hh.
Qed.

Lemma strip_spec s :
  ∃ a b, s = a ++ strip s ++ b
         ∧ Forall (fun c => is_space c = true) a
         ∧ Forall (fun c => is_space c = true) b
         ∧ (∀ c, head (strip s) = Some c → is_space c = false)
         ∧ (∀ c, last (strip s) = Some c → is_space c = false).
Proof.
  unfold strip.
  destruct (lstrip_spec s) as (a & Hs & Ha & Hh).
  destruct (rstrip_spec (lstrip s)) as (b & Hs' & Hb & Hl).
  exists a, b. split_and!; [congruence | done.. | | done].
  intros c Hc. apply Hh. rewrite Hs'.
  destruct (rstrip (lstrip s)); [done|]. done.
Qed.

(** C3, as amended.  The cleaning step cuts the captured store name at
    the first place where a whitespace character is followed by [Phone]
    written in exactly that case, keeps it whole when there is no such
    place, and trims surrounding whitespace; [Acme Store Phone] followed
    by any text cleans to [Acme Store]. *)
Theorem clean_store_name_cut (store_name : text) :
  (∀ i, space_phone_at store_name i = true →
        (∀ j, j < i → space_phone_at store_name j = false) →
        clean_store_name store_name = strip (take i store_name))
  ∧ ((∀ i, space_phone_at store_name i = false) →
     clean_store_name store_name = strip store_name)
  ∧ (∃ a b, split_head false phone_pattern store_name
            = a ++ clean_store_name store_name ++ b
            ∧ Forall (fun c => is_space c = true) a
            ∧ Forall (fun c => is_space c = true) b
            ∧ (∀ c, head (clean_store_name store_name) = Some c →
                    is_space c = false)
            ∧ (∀ c, last (clean_store_name store_name) = Some c →
                    is_space c = false))
  ∧ (∀ following,
       clean_store_name (str "Acme Store Phone" ++ following)
       = str "Acme Store").
Proof.
  unfold clean_store_name, split_head, search. split_and!.
  - intros i Hi Hfirst.
    by destruct (search_from_phone_found None [] store_name i Hi Hfirst)
      as [st ->].
  - intros Hnone. by rewrite search_from_phone_none.
  - apply strip_spec.
  - intros following.
    destruct (search_from_phone_found None []
                (str "Acme Store Phone" ++ following) 10) as [st ->].
    + done.
    + intros j Hj.
      do 10 (destruct j as [|j]; [done|]). lia.
    + done.
Qed.

(** C3, as the specification words it, fails: the store name captured
    from [X-Dock WH: 1234-Acme Store phone 555] keeps its lower-case
    [phone], which a case-insensitive cut would remove. *)
Lemma clean_store_name_keeps_lowercase_phone :
  findall2 true xdock_wh_pattern (str "X-Dock WH: 1234-Acme Store phone 555")
  = [(str "1234", str "Acme Store phone 555")]
  ∧ clean_store_name (str "Acme Store phone 555") = str "Acme Store phone 555"
  ∧ clean_store_name_spec (str "Acme Store phone 555") = str "Acme Store"
  ∧ clean_store_name (str "Acme Store phone 555")
    ≠ clean_store_name_spec (str "Acme Store phone 555").
Proof. by vm_compute. Qed.


(** ** Facts about the names of the exported files *)

Lemma code_inj a b : code a = code b → a = b.
Proof.
  unfold code. intros Heq. apply (f_equal ascii_of_N) in Heq.
  by rewrite !ascii_N_embedding in Heq.
Qed.

Lemma str_inj a b : str a = str b → a = b.
Proof.
  unfold str. intros Heq.
  assert (list_ascii_of_string a = list_ascii_of_string b) as Heq'.
  { revert Heq. generalize (list_ascii_of_string a) (list_ascii_of_string b).
    induction l as [|x l IH]; intros [|y l']; simpl; try done.
    intros [= Hxy Hl]. f_equal; [by apply code_inj | by apply IH]. }
  apply (f_equal string_of_list_ascii) in Heq'.
  by rewrite !string_of_list_ascii_of_string in Heq'.
Qed.

Lemma str_of_nat_inj n m : str_of_nat n = str_of_nat m → n = m.
Proof.
  unfold str_of_nat. intros Heq%str_inj.
  apply (f_equal NilEmpty.uint_of_string) in Heq.
  rewrite !NilEmpty.usu in Heq. injection Heq as Heq.
  apply (f_equal Nat.of_uint) in Heq.
  by rewrite !DecimalNat.Unsigned.of_to in Heq.
Qed.

Section Names.
Context {image : Type} (w : world image).
Variables route_id location_number : text.
Variable fs : gset text.

Local Abbreviation base := (export_path w route_id location_number None).
Local Abbreviation numbered n :=
  (export_path w route_id location_number (Some n)).

Lemma numbered_inj n m : numbered n = numbered m → n = m.
Proof.
  unfold export_path, os_path_join, new_pdf_name.
  intros Heq. repeat apply app_inv_head in Heq.
  apply app_inv_tail in Heq. by apply str_of_nat_inj.
Qed.

Lemma numbered_not_base n : numbered n ≠ base.
Proof.
  unfold export_path, os_path_join, new_pdf_name.
  intros Heq. do 5 apply app_inv_head in Heq. done.
Qed.

Lemma free_path_loop k c fuel :
  k < fuel →
  (∀ m, c ≤ m < c + k → numbered m ∈ fs) →
  numbered (c + k) ∉ fs →
  free_path w fuel fs route_id location_number (numbered c) (S c)
  = Some (numbered (c + k)).
Proof.
  revert c fuel. induction k as [|k IH]; intros c fuel Hfuel Hin Hfree;
    (destruct fuel as [|fuel]; [lia|]); simpl.
  - rewrite Nat.add_0_r in Hfree. rewrite bool_decide_false by done.
    by rewrite Nat.add_0_r.
  - rewrite bool_decide_true by (apply Hin; lia).
    replace (c + S k) with (S c + k) in * by lia.
    apply IH; [lia | | done]. intros m Hm. apply Hin. lia.
Qed.

Lemma least_free n :
  (∃ k, 1 ≤ k ≤ n ∧ (numbered k ∉ fs)
        ∧ ∀ m, 1 ≤ m < k → numbered m ∈ fs)
  ∨ (∀ m, 1 ≤ m ≤ n → numbered m ∈ fs).
Proof.
  induction n as [|n [(k & Hk & Hfree & Hbelow)|Hall]].
  - right. intros m Hm. lia.
  - left. exists k. split_and!; try done; lia.
  - destruct (decide (numbered (S n) ∈ fs)) as [Hin|Hnin].
    + right. intros m Hm. destruct (decide (m = S n)) as [->|]; [done|].
      apply Hall. lia.
    + left. exists (S n). split_and!; try done; try lia.
      intros m Hm. apply Hall. lia.
Qed.

Lemma numbered_all_in n :
  base ∈ fs → (∀ m, 1 ≤ m ≤ n → numbered m ∈ fs) → S n ≤ size fs.
Proof.
  intros Hbase Hall.
  set (l := base :: ((fun m => numbered m) <$> seq 1 n)).
  assert (NoDup l) as Hnd.
  { constructor.
    - intros (m & Hm & _)%list_elem_of_fmap. by eapply numbered_not_base.
    - apply NoDup_fmap_2; [intros ? ?; apply numbered_inj | apply NoDup_seq]. }
  assert (list_to_set l ⊆ fs) as Hsub.
  { intros p [->|(m & -> & Hm%elem_of_seq)%list_elem_of_fmap]%elem_of_list_to_set%elem_of_cons;
      [done | apply Hall; lia]. }
  apply subseteq_size in Hsub. rewrite size_list_to_set in Hsub by done.
  unfold l in Hsub. simpl in Hsub. by rewrite length_fmap, length_seq in Hsub.
Qed.

Lemma free_path_total :
  ∃ p, free_path w (S (size fs)) fs route_id location_number base 1 = Some p
       ∧ (p ∉ fs)
       ∧ (base ∉ fs → p = base)
       ∧ (base ∈ fs →
          ∃ n, 1 ≤ n ∧ p = numbered n ∧ ∀ m, 1 ≤ m < n → numbered m ∈ fs).
Proof.
  cbn [free_path]. destruct (decide (base ∈ fs)) as [Hbase|Hbase].
  - rewrite bool_decide_true by done.
    destruct (least_free (size fs)) as [(k & Hk & Hfree & Hbelow)|Hall].
    + exists (numbered k). split_and!.
      * change (free_path w (size fs) fs route_id location_number
                  (numbered 1) 2 = Some (numbered k)).
        replace k with (1 + (k - 1)) at 1 by lia.
        apply (free_path_loop (k - 1) 1); [lia | |].
        -- intros m Hm. apply Hbelow. lia.
        -- by replace (1 + (k - 1)) with k by lia.
      * done.
      * done.
      * intros _. exists k. split_and!; [lia | done..].
    + pose proof (numbered_all_in _ Hbase Hall). lia.
  - rewrite bool_decide_false by done. exists base. by split_and!.
Qed.

End Names.

Section ExportFacts.
Context {image : Type} `{Imaging image}.
Variable w : world image.

Lemma extract_and_save_page_readable pdf_path page_number
    route_id location_number s :
  pdf_page_readable w pdf_path page_number = true →
  ∃ p, free_path w (S (size (files s))) (files s) route_id location_number
         (export_path w route_id location_number None) 1 = Some p
       ∧ extract_and_save_page w pdf_path page_number
           route_id location_number s
         = (Ok tt,
            State (osd_calls s) (ocr_calls s)
              (trace s ++ [EvWritePdf p]) ({[p]} ∪ files s)).
Proof.
  intros Hread.
  destruct (free_path_total w route_id location_number (files s))
    as (p & Hp & _).
  exists p. split; [done|].
  unfold extract_and_save_page. rewrite Hread.
  unfold try_except, get_files, add_file, emit, mbind, M_bind, bind,
    mret, M_ret, ret.
  fold (export_path w route_id location_number None). by rewrite Hp.
Qed.

Lemma extract_and_save_page_unreadable pdf_path page_number
    route_id location_number s :
  pdf_page_readable w pdf_path page_number = false →
  extract_and_save_page w pdf_path page_number route_id location_number s
  = (Ok tt, s).
Proof.
  intros Hread. unfold extract_and_save_page. by rewrite Hread.
Qed.

Lemma extract_and_save_page_returns pdf_path page_number
    route_id location_number :
  returns (fun _ => True)
    (extract_and_save_page w pdf_path page_number route_id location_number).
Proof.
  intros s. destruct (pdf_page_readable w pdf_path page_number) eqn:Hread.
  - destruct (extract_and_save_page_readable pdf_path page_number
                route_id location_number s Hread) as (p & _ & ->).
    by eexists _, _.
  - rewrite extract_and_save_page_unreadable by done. by eexists _, _.
Qed.

Lemma save_matching_returns matching_records pdf_directory
    route_id location_number :
  returns (fun _ => True)
    (save_matching w matching_records pdf_directory route_id location_number).
Proof.
  induction matching_records as [|row rows IH]; simpl.
  - by apply returns_ret.
  - eapply returns_bind; [apply extract_and_save_page_returns|].
    intros _ _. apply IH.
Qed.

Lemma search_and_save_returns df queries pdf_directory :
  returns (fun _ => True) (search_and_save w df queries pdf_directory).
Proof.
  induction queries as [|[route_id location_number] queries IH]; simpl.
  - by apply returns_ret.
  - eapply returns_bind; [apply save_matching_returns|].
    intros _ _. apply IH.
Qed.

End ExportFacts.

(** C7.  An exported page is written to [{RouteID} - {LocationNumber}.pdf]
    when that name is free, and otherwise to the name with [ (n)] before
    the extension for the least n from 1 on that is free; the file written
    is never one that exists.  The same query twice gives the plain name
    and then the name with [ (1)]. *)
Theorem export_file_name {image : Type} `{Imaging image} (w : world image)
    (route_id location_number : text) (s : state image) :
  let base := export_path w route_id location_number None in
  let numbered n := export_path w route_id location_number (Some n) in
  (∀ pdf_path page_number,
     pdf_page_readable w pdf_path page_number = true →
     ∃ p,
       extract_and_save_page w pdf_path page_number route_id location_number s
       = (Ok tt,
          State (osd_calls s) (ocr_calls s)
            (trace s ++ [EvWritePdf p]) ({[p]} ∪ files s))
       ∧ (p ∉ files s)
       ∧ (base ∉ files s → p = base)
       ∧ (base ∈ files s →
          ∃ n, 1 ≤ n ∧ p = numbered n
               ∧ ∀ m, 1 ≤ m < n → numbered m ∈ files s))
  ∧ (∀ df pdf_directory row,
       filter (fun r => RouteID r = str_upper route_id
                        ∧ LocationNumber r = location_number) df = [row] →
       pdf_page_readable w (os_path_join w pdf_directory (PDF row))
         (PageNumber row) = true →
       base ∉ files s → numbered 1 ∉ files s →
       search_and_save w df
         [(route_id, location_number); (route_id, location_number)]
         pdf_directory s
       = (Ok tt,
          State (osd_calls s) (ocr_calls s)
            (trace s ++ [EvWritePdf base; EvWritePdf (numbered 1)])
            ({[numbered 1]} ∪ ({[base]} ∪ files s)))).
Proof.
  intros base numbered. split.
  - intros pdf_path page_number Hread.
    destruct (extract_and_save_page_readable w pdf_path page_number
                route_id location_number s Hread) as (p & Hp & Hrun).
    destruct (free_path_total w route_id location_number (files s))
      as (p' & Hp' & Hfresh & Hbase & Hnum).
    fold base in Hp, Hp'. rewrite Hp in Hp'. injection Hp' as <-.
    exists p. done.
  - intros df pdf_directory row Hfilter Hread Hbase Hone.
    cbn [search_and_save]. rewrite Hfilter. cbn [save_matching].
    unfold mbind, M_bind, bind, mret, M_ret, ret.
    destruct (extract_and_save_page_readable w _ _ route_id location_number
                s Hread) as (p & Hp & ->).
    destruct (free_path_total w route_id location_number (files s))
      as (p' & Hp' & _ & Hp'base & _).
    fold base in Hp, Hp'. rewrite Hp in Hp'. injection Hp' as <-.
    rewrite (Hp'base Hbase). clear p Hp Hp'base.
    set (s1 := State _ _ _ _).
    destruct (extract_and_save_page_readable w _ _ route_id location_number
                s1 Hread) as (p & Hp & ->).
    destruct (free_path_total w route_id location_number (files s1))
      as (p' & Hp' & _ & _ & Hnum).
    fold base in Hp, Hp'. rewrite Hp in Hp'. injection Hp' as <-.
    subst s1. simpl in *.
    destruct Hnum as (n & Hn & -> & Hbelow).
    { apply elem_of_union_l, elem_of_singleton. done. }
    assert (n = 1) as ->.
    { destruct (decide (n = 1)) as [|Hne]; [done|].
      assert (numbered 1 ∈ ({[base]} ∪ files s : gset text))
        as [Hin|Hin]%elem_of_union by (apply Hbelow; lia).
      - apply elem_of_singleton in Hin. by apply numbered_not_base in Hin.
      - done. }
    by rewrite <- app_assoc.
Qed.


(** ** Facts about the query file *)

Lemma digits_b_spec n s : digits_b n s = true ↔ digits n s.
Proof.
  unfold digits_b, digits.
  rewrite andb_true_iff, bool_decide_eq_true, forallb_forall, Forall_forall.
  by setoid_rewrite list_elem_of_In.
Qed.

Lemma fullmatch_Rep_from n p pc s g :
  existsb (fun st => bool_decide (rest st = []))
    (run false (Rep n p) (MState pc s g))
  = bool_decide (length s = n) && forallb p s.
Proof.
  revert pc s. induction n as [|n IH]; intros pc s; simpl.
  - destruct s; done.
  - destruct s as [|c s]; simpl; [done|].
    destruct (p c); simpl; [|by rewrite andb_false_r].
    rewrite app_nil_r, IH. f_equal.
    apply bool_decide_ext. lia.
Qed.

Lemma fullmatch_digits n s : fullmatch (Rep n is_digit) s = digits_b n s.
Proof. apply fullmatch_Rep_from. Qed.

Lemma digits_b_truthy n s : digits_b (S n) s = true → truthy s = true.
Proof.
  intros Hd%digits_b_spec. by eapply truthy_nonempty, digits_nonempty.
Qed.

Lemma parse_row_complete row :
  row_complete row → parse_row row = Ok (query_of_row row).
Proof.
  intros [[f1 H1] [f2 H2]]. unfold parse_row, query_of_row.
  rewrite H1, H2. cbv beta iota zeta. rewrite !fullmatch_digits.
  cbn [mbind option_bind].
  destruct (digits_b 8 (strip f1)) eqn:Hd1; simpl;
    [|by destruct (truthy (strip f1) && truthy (strip f2))].
  destruct (digits_b 4 (strip f2)) eqn:Hd2; simpl;
    [|by destruct (truthy (strip f1) && truthy (strip f2))].
  by rewrite (digits_b_truthy 7), (digits_b_truthy 3).
Qed.

Lemma read_rows_complete rows queries :
  Forall row_complete rows →
  read_rows rows queries = queries ++ omap query_of_row rows.
Proof.
  intros Hrows. revert queries.
  induction Hrows as [|row rows Hrow _ IH]; intros queries; simpl.
  - by rewrite app_nil_r.
  - rewrite (parse_row_complete row Hrow).
    destruct (query_of_row row) as [q|]; [|done].
    by rewrite IH, <- app_assoc.
Qed.







(** A row shorter than the header ends the reading: the valid row after
    it is lost. *)
Example short_row_ends_reading :
  let short : csv_row :=
    {[ str "RouteID" := Some (str "12345678");
       str "LocationNumber" := None ]} in
  let good : csv_row :=
    {[ str "RouteID" := Some (str "87654321");
       str "LocationNumber" := Some (str "4321") ]} in
  read_rows [short; good] [] = [].
Proof. by vm_compute. Qed.

Section MainFacts.
Context {image : Type} `{Imaging image}.
Variable w : world image.

Lemma save_results_run df s :
  save_results w df s
  = (Ok tt,
     State (osd_calls s) (ocr_calls s)
       (trace s ++ (if excel_writable w then [EvExcel df] else []))
       (files s)).
Proof.
  unfold save_results, try_except, emit, raise, mret, M_ret, ret.
  destruct (excel_writable w); simpl; [done|].
  rewrite app_nil_r. by destruct s.
Qed.

Lemma read_queries_from_csv_run csv_path s :
  read_queries_from_csv w csv_path s
  = (Ok (parsed_queries w csv_path),
     State (osd_calls s) (ocr_calls s)
       (trace s ++ [EvReadCsv csv_path]) (files s)).
Proof.
  unfold read_queries_from_csv, parsed_queries.
  unfold emit, mbind, M_bind, bind, mret, M_ret, ret.
  by destruct (csv_rows w csv_path).
Qed.

End MainFacts.

(** C5, as amended.  When the input directory or the query file is
    missing, the process exits with status 1 before anything is done.
    Otherwise, the worker pool having started, the documents are
    processed and the table is saved first; the process then exits with
    status 1 when no valid query was parsed, before any page is exported,
    and with status 0 when there is one, whatever failed on the pages,
    documents, rows and exports.  (A pool that cannot start ends the
    process with status 1 before any extraction.) *)
Theorem exit_status_rule {image : Type} `{Imaging image} (w : world image)
    (s : state image) :
  let pdf_directory := os_path_join w (script_dir w) (str "pdfs") in
  let csv_path := os_path_join w (script_dir w) (str "queries.csv") in
  let o := (main w s).1 in
  let s' := (main w s).2 in
  (os_path_exists w pdf_directory = false ∨ os_path_exists w csv_path = false →
     exit_status o = 1%Z ∧ s' = s)
  ∧ (os_path_exists w pdf_directory = true →
     os_path_exists w csv_path = true →
     (1 ≤ pool_size w)%Z →
     ∃ df s1,
       process_pdfs w pdf_directory s = (Ok df, s1)
       ∧ (parsed_queries w csv_path = [] →
            exit_status o = 1%Z
            ∧ s' = State (osd_calls s1) (ocr_calls s1)
                     (trace s1
                        ++ (if excel_writable w then [EvExcel df] else [])
                        ++ [EvReadCsv csv_path])
                     (files s1))
       ∧ (parsed_queries w csv_path ≠ [] → exit_status o = 0%Z))
  ∧ (os_path_exists w pdf_directory = true →
     os_path_exists w csv_path = true →
     (pool_size w < 1)%Z →
     exit_status o = 1%Z ∧ s' = s).
Proof.
  intros pdf_directory csv_path o s'. subst o s'. unfold main.
  fold pdf_directory csv_path.
  unfold mbind, M_bind, bind, mret, M_ret, ret, raise.
  split_and!.
  - intros [Hdir|Hcsv].
    + by rewrite Hdir.
    + rewrite Hcsv. by destruct (os_path_exists w pdf_directory).
  - intros Hdir Hcsv Hpool. rewrite Hdir, Hcsv.
    destruct (process_pdfs_unfold w pdf_directory s Hpool)
      as (all_results & s1 & _ & _ & Hp).
    exists (drop_duplicates all_results), s1. split; [done|].
    rewrite Hp, save_results_run, read_queries_from_csv_run.
    split.
    + intros ->. simpl. by rewrite <- app_assoc.
    + intros Hq. destruct (parsed_queries w csv_path) as [|q qs]; [done|].
      match goal with |- context [search_and_save w ?df ?qs ?d ?s0] =>
        destruct (search_and_save_returns w df qs d s0) as (? & ? & -> & _)
      end.
      done.
  - intros Hdir Hcsv Hpool. rewrite Hdir, Hcsv.
    by rewrite process_pdfs_no_pool.
Qed.

(** C5, as the specification words it, fails: with the directory and the
    query file in place and no valid query in the file, the process
    exits with status 1 only after the documents were rasterised and
    read. *)
Lemma exit_without_queries_follows_extraction :
  let w := Fixture.office 0 (Some []) in
  let run := main w (initial_state ∅) in
  os_path_exists w (os_path_join w (script_dir w) (str "pdfs")) = true
  ∧ os_path_exists w (os_path_join w (script_dir w) (str "queries.csv")) = true
  ∧ parsed_queries w (os_path_join w (script_dir w) (str "queries.csv")) = []
  ∧ exit_status run.1 = 1%Z
  ∧ take 4 (trace run.2)
    = [EvConvert (str "./pdfs/b.PDF"); EvConvert (str "./pdfs/a.pdf");
       EvOsd (0, 0%Z); EvOcr (0, 270%Z)]
  ∧ existsb is_extraction (trace run.2) = true.
Proof. by vm_compute. Qed.

(** * The theorems at work on the test data *)

(** C1 on the first page of the office document: the To header comes
    first in the text, and both records carry the X-Dock WH location and
    store. *)
Lemma pairing_priority_witness :
  ∃ s',
    extract_info_from_page (Fixture.office 0 None) (0, 0%Z) (initial_state ∅)
    = (Ok [(str "12345678", str "1234", str "Acme Store");
           (str "87654321", str "1234", str "Acme Store")], s').
Proof.
  destruct (pairing_priority (Fixture.office 0 None) (0, 0%Z) (0, 270%Z)
              (initial_state ∅) (State 1 0 [EvOsd (0, 0%Z)] ∅)
              Fixture.page_one)
    as (records & s' & Hrun & Hx & _).
  - vm_compute. reflexivity.
  - left. split; [reflexivity | vm_compute; discriminate].
  - exists s'. rewrite Hrun.
    rewrite (Hx (str "1234") (str "Acme Store Phone") []).
    + vm_compute. reflexivity.
    + vm_compute. reflexivity.
Defined.

(** C2 on the second page of the office document, which is upside down. *)
Lemma rotation_fallback_witness :
  extract_info_from_page (Fixture.office 0 None) (1, 0%Z) (initial_state ∅)
  = (Ok (records_of_text Fixture.page_two),
     State 1 2 [EvOsd (1, 0%Z); EvOcr (1, 270%Z); EvOcr (1, 90%Z)] ∅).
Proof.
  set (w := Fixture.office 0 None).
  assert (correct_orientation w (1, 0%Z) (initial_state ∅)
          = (Ok (1, 270%Z), State 1 0 [EvOsd (1, 0%Z)] ∅)) as Hc
    by (vm_compute; reflexivity).
  assert (ocr_reply w 0 (1, 270%Z) = Some (str "~~")) as H1 by reflexivity.
  destruct (rotation_fallback w _ _ _ _ _ Hc H1) as (_ & Hsecond & _).
  apply Hsecond; [vm_compute; reflexivity | reflexivity].
Defined.

(** C3 on a name with one [ Phone], at index 10. *)
Lemma clean_store_name_cut_witness :
  clean_store_name (str "Acme Store Phone 555")
  = strip (take 10 (str "Acme Store Phone 555")).
Proof.
  destruct (clean_store_name_cut (str "Acme Store Phone 555")) as (Hcut & _).
  apply Hcut; [reflexivity|].
  intros j Hj. do 10 (destruct j as [|j]; [reflexivity|]). lia.
Defined.

(** C4 when orientation detection fails three times. *)
Lemma osd_retry_policy_witness :
  correct_orientation (Fixture.office 3 None) (0, 0%Z) (initial_state ∅)
  = (Ok (0, 0%Z), State 3 0 (failed_attempts (0, 0%Z) 1 3) ∅).
Proof.
  destruct (osd_retry_policy (Fixture.office 3 None) (0, 0%Z) (initial_state ∅))
    as (_ & _ & Hfail).
  destruct Hfail as (_ & _ & Hc & _); [|exact Hc].
  intros m Hm. destruct m as [|[|[|m]]]; [reflexivity.. | lia].
Defined.

(** C5 on a run with valid queries. *)
Lemma exit_status_rule_witness :
  exit_status
    (main (Fixture.office 0 (Some Fixture.query_rows)) (initial_state ∅)).1
  = 0%Z.
Proof.
  destruct (exit_status_rule (Fixture.office 0 (Some Fixture.query_rows))
              (initial_state ∅)) as (_ & Hrun & _).
  destruct Hrun as (df & s1 & _ & _ & Hok);
    [reflexivity | reflexivity | vm_compute; discriminate |].
  apply Hok. vm_compute. discriminate.
Defined.

(** C6 on the office documents. *)
Lemma result_table_unique_witness :
  ∃ df s',
    process_pdfs (Fixture.office 0 None) (str "./pdfs") (initial_state ∅)
    = (Ok df, s')
    ∧ NoDup (dedup_key <$> df).
Proof.
  destruct (result_table_unique (Fixture.office 0 None) (str "./pdfs")
              (initial_state ∅)) as (all_results & df & s' & _ & Hp & _ & Hnd & _);
    [vm_compute; discriminate|].
  exists df, s'. split; [exact Hp | exact Hnd].
Defined.

(** C7 on an empty output directory. *)
Lemma export_file_name_witness :
  ∃ p,
    extract_and_save_page (Fixture.office 0 None) (str "./pdfs/a.pdf") 1
      (str "12345678") (str "1234") (initial_state ∅)
    = (Ok tt, State 0 0 [EvWritePdf p] ({[p]} ∪ ∅))
    ∧ p = str "matched_pages/12345678 - 1234.pdf".
Proof.
  destruct (export_file_name (Fixture.office 0 None) (str "12345678")
              (str "1234") (initial_state ∅)) as (Hone & _).
  destruct (Hone (str "./pdfs/a.pdf") 1) as (p & Hrun & _ & Hbase & _);
    [reflexivity|].
  exists p. split; [exact Hrun|].
  rewrite Hbase; [reflexivity|]. apply not_elem_of_empty.
Defined.


(** C9 on the first page of the office document, whose text is ASCII. *)
Lemma route_and_location_format_witness :
  ∃ records s',
    extract_info_from_page (Fixture.office 0 None) (0, 0%Z) (initial_state ∅)
    = (Ok records, s')
    ∧ Forall match_well_formed records
    ∧ ascii_digits 8 (str "12345678") = true.
Proof.
  destruct (route_and_location_format (Fixture.office 0 None))
    as (Hpage & _ & _ & Hascii).
  destruct (Hpage (0, 0%Z) (initial_state ∅)) as (records & s' & Hrun & Hwf).
  exists records, s'. split; [exact Hrun|]. split; [exact Hwf|].
  apply Hascii.
  - apply digits_b_spec. vm_compute. reflexivity.
  - apply (bool_decide_unpack _). vm_compute. reflexivity.
Defined.

(** C10 on two documents of the same name that disagree on the store. *)
Lemma first_store_name_kept_witness :
  let north := ResultRow (str "12345678") (str "1234") (str "North")
                 (str "a.pdf") 1 in
  let south := ResultRow (str "12345678") (str "1234") (str "South")
                 (str "a.pdf") 1 in
  ∃ df s',
    process_pdfs Fixture.two_folders (str "./pdfs") (initial_state ∅)
    = (Ok df, s')
    ∧ north ∈ df ∧ south ∉ df.
Proof.
  intros north south. set (w := Fixture.two_folders).
  destruct (merge_results w (arrival_order w (pdf_files w (str "./pdfs")))
              (initial_state ∅)) as [o s'] eqn:Hm.
  assert (o = Ok ([] ++ north :: [] ++ south :: [])) as ->.
  { vm_compute in Hm. injection Hm as <- _. reflexivity. }
  destruct (first_store_name_kept w (str "./pdfs") (initial_state ∅) s'
              [] [] [] north south) as (df & Hp & Hin & Hnin & _).
  - vm_compute. discriminate.
  - exact Hm.
  - intros r Hr. apply elem_of_nil in Hr. destruct Hr.
  - reflexivity.
  - vm_compute. discriminate.
  - exists df, s'. split; [exact Hp | split; [exact Hin | exact Hnin]].
Defined.

(** * Further properties of the code *)

(** ** Numbers in decimal and the rotation pattern *)

(** ** Facts about numbers in decimal *)

Lemma uint_chars_digits d :
  Forall (fun c => is_digit c = true) (str (NilEmpty.string_of_uint d)).
Proof. induction d; simpl; constructor; done. Qed.

Lemma str_of_nat_digits n : Forall (fun c => is_digit c = true) (str_of_nat n).
Proof. apply uint_chars_digits. Qed.

Lemma str_of_nat_nonempty n : str_of_nat n ≠ [].
Proof.
  unfold str_of_nat.
  assert (Nat.to_uint n ≠ Decimal.Nil) as Hn.
  { rewrite <- (DecimalNat.Unsigned.of_to n) at 1.
    rewrite DecimalNat.Unsigned.to_of. unfold Decimal.unorm.
    by destruct (Decimal.nzhead (Nat.to_uint n)). }
  by destruct (Nat.to_uint n).
Qed.

Lemma int_of_uint_chars d acc :
  fold_left (fun a c => (10 * a + Z.of_N (digit_value c))%Z)
    (str (NilEmpty.string_of_uint d)) (Z.of_nat acc)
  = Z.of_nat (Nat.of_uint_acc d acc).
Proof.
  revert acc. induction d; intros acc; simpl; [done|..];
    rewrite Nat.tail_mul_spec, <- IHd; unfold str; f_equal; lia.
Qed.

Lemma decimal_value_str_of_nat n : decimal_value (str_of_nat n) = Z.of_nat n.
Proof.
  unfold decimal_value, str_of_nat.
  change 0%Z with (Z.of_nat 0). rewrite int_of_uint_chars.
  fold (Nat.of_uint (Nat.to_uint n)). by rewrite DecimalNat.Unsigned.of_to.
Qed.

(** ** Facts about the reading of the rotation *)

Lemma run_Word_app u pc s g :
  ∃ pc', run false (Word u) (MState pc (u ++ s) g) = [MState pc' s g].
Proof.
  revert pc. induction u as [|c u IH]; intros pc; simpl.
  - by exists pc.
  - unfold lit_eqb. rewrite bool_decide_true by done. simpl.
    rewrite app_nil_r. apply IH.
Qed.

Lemma star_head p pc u s g :
  Forall (fun c => p c = true) u →
  (∀ c, head s = Some c → p c = false) →
  ∃ pc', head (star p pc (u ++ s) g) = Some (MState pc' s g).
Proof.
  intros Hu Hs. revert pc. induction Hu as [|c u Hc _ IH]; intros pc; simpl.
  - exists pc. destruct s as [|c s]; [done|].
    simpl. by rewrite (Hs c).
  - rewrite Hc. destruct (IH (Some c)) as [pc' Hhead]. exists pc'.
    destruct (star p (Some c) (u ++ s) g); [done|]. done.
Qed.

Lemma match_at_rotate_not_R pc (c : char) s :
  c ≠ "R"%char → match_at false rotate_pattern pc (c :: s) = None.
Proof.
  intros Hc. unfold match_at, rotate_pattern. simpl. unfold lit_eqb.
  by rewrite bool_decide_false.
Qed.

Lemma match_at_rotate pc ds post :
  Forall (fun c => is_digit c = true) ds → ds ≠ [] →
  (∀ c, head post = Some c → is_digit c = false) →
  ∃ st, match_at false rotate_pattern pc (str "Rotate: " ++ ds ++ post)
        = Some st ∧ groups st = [ds].
Proof.
  intros Hds Hne Hpost. unfold match_at, rotate_pattern. cbn [run].
  destruct (run_Word_app (str "Rotate: ") pc (ds ++ post) []) as [pc' ->].
  destruct ds as [|d ds]; [done|]. apply Forall_cons in Hds as [Hd Hds].
  destruct (star_head is_digit (Some d) ds post [] Hds Hpost) as [pc'' Hstar].
  simpl. rewrite Hd. simpl. rewrite !app_nil_r.
  destruct (star is_digit (Some d) (ds ++ post) []) as [|st l]; [done|].
  injection Hstar as ->. simpl. eexists. split; [done|].
  simpl. f_equal. unfold consumed. simpl.
  replace (S (length (ds ++ post)) - length post) with (S (length ds))
    by (rewrite length_app; lia).
  simpl. f_equal. apply take_app_length.
Qed.

Lemma search_from_rotate pre ds post pc before :
  Forall (fun c : char => c ≠ "R"%char) pre →
  Forall (fun c => is_digit c = true) ds → ds ≠ [] →
  (∀ c, head post = Some c → is_digit c = false) →
  ∃ st, search_from false rotate_pattern pc before
          (pre ++ str "Rotate: " ++ ds ++ post)
        = Some (before ++ pre, st) ∧ groups st = [ds].
Proof.
  intros Hpre Hds Hne Hpost. revert pc before.
  induction Hpre as [|c pre Hc _ IH]; intros pc before.
  - destruct (match_at_rotate pc ds post Hds Hne Hpost) as (st & Hm & Hg).
    exists st. split; [|done]. rewrite app_nil_r.
    change ([] ++ str "Rotate: " ++ ds ++ post)
      with (code "R" :: str "otate: " ++ ds ++ post) in *.
    cbn [search_from]. change (code "R" :: str "otate: " ++ ds ++ post)
      with (str "Rotate: " ++ ds ++ post). by rewrite Hm.
  - change ((c :: pre) ++ str "Rotate: " ++ ds ++ post)
      with (c :: (pre ++ str "Rotate: " ++ ds ++ post)).
    cbn [search_from].
    rewrite match_at_rotate_not_R by done.
    destruct (IH (Some c) (before ++ [c])) as (st & -> & Hg).
    exists st. by rewrite <- app_assoc.
Qed.

Lemma search_from_no_R s pc before :
  Forall (fun c : char => c ≠ "R"%char) s →
  search_from false rotate_pattern pc before s = None.
Proof.
  intros Hs. revert pc before. induction Hs as [|c s Hc _ IH]; intros pc before.
  - done.
  - cbn [search_from]. rewrite match_at_rotate_not_R by done.
    apply IH.
Qed.

Section OrientationFacts.
Context {image : Type} `{Imaging image}.
Variable w : world image.

Lemma parse_rotation_value pre ds post (s : state image) :
  Forall (fun c : char => c ≠ "R"%char) pre →
  Forall (fun c => is_digit c = true) ds →
  ds ≠ [] →
  (∀ c, head post = Some c → is_digit c = false) →
  parse_rotation (pre ++ str "Rotate: " ++ ds ++ post) s
  = (if bool_decide (length ds ≤ int_max_str_digits)
     then Ok (decimal_value ds) else Raise ValueError, s).
Proof.
  intros Hpre Hds Hne Hpost. unfold parse_rotation, search.
  destruct (search_from_rotate pre ds post None [] Hpre Hds Hne Hpost)
    as (st & -> & Hg).
  rewrite Hg. simpl. unfold int_of_digits. by case_bool_decide.
Qed.

Lemma parse_rotation_no_R osd (s : state image) :
  Forall (fun c : char => c ≠ "R"%char) osd →
  parse_rotation osd s = (Raise AttributeError, s).
Proof.
  intros Hosd. unfold parse_rotation, search.
  by rewrite search_from_no_R.
Qed.

End OrientationFacts.

(** X1.  [robust_image_to_osd] for any number of retries and any delay:
    it never calls the engine more than [retries] times; the first reply
    is returned at once, after a sleep of [delay] for each failed call
    before it; when all calls fail, also when [retries] is 0 and none is
    made, it raises [UnboundLocalError], having slept after the last
    failure too. *)
Theorem osd_retries_in_general {image : Type} `{Imaging image}
    (w : world image) (img : image) (retries delay : nat) (s : state image) :
  osd_calls (robust_image_to_osd w img retries delay s).2
  ≤ osd_calls s + retries
  ∧ (∀ n reply,
       n < retries →
       (∀ m, m < n → osd_reply w (osd_calls s + m) img = None) →
       osd_reply w (osd_calls s + n) img = Some reply →
       robust_image_to_osd w img retries delay s
       = (Ok reply,
          State (osd_calls s + n + 1) (ocr_calls s)
            (trace s ++ failed_attempts img delay n ++ [EvOsd img])
            (files s)))
  ∧ ((∀ m, m < retries → osd_reply w (osd_calls s + m) img = None) →
     robust_image_to_osd w img retries delay s
     = (Raise UnboundLocalError,
        State (osd_calls s + retries) (ocr_calls s)
          (trace s ++ failed_attempts img delay retries) (files s))).
Proof.
  split_and!.
  - apply robust_image_to_osd_calls.
  - intros n reply Hn Hfail Hok. by apply robust_image_to_osd_success.
  - intros Hfail. by apply robust_image_to_osd_failure.
Qed.

(** X2.  The rotation is read back from the engine's report.  For a
    report that has the line [Rotate: ] followed by the decimal digits
    [ds], with no capital R before it and no digit right after [ds],
    line 109 gives the number [ds] writes when [ds] has at most 4300
    digits, and raises [ValueError] when it has more; the digits
    written for a natural number [n] give back [n]. *)
Theorem rotation_read_back {image : Type} (pre ds post : text)
    (s : state image) :
  Forall (fun c : char => c ≠ "R"%char) pre →
  Forall (fun c => is_digit c = true) ds →
  ds ≠ [] →
  (∀ c, head post = Some c → is_digit c = false) →
  parse_rotation (pre ++ str "Rotate: " ++ ds ++ post) s
  = (if bool_decide (length ds ≤ int_max_str_digits)
     then Ok (decimal_value ds) else Raise ValueError, s)
  ∧ (∀ n, ds = str_of_nat n → decimal_value ds = Z.of_nat n).
Proof.
  intros Hpre Hds Hne Hpost. split.
  - by apply parse_rotation_value.
  - intros n ->. apply decimal_value_str_of_nat.
Qed.


(** X4.  A report without the line (here: without any capital R) makes
    line 109 raise; the exception is caught and the page goes on
    uncorrected, after the one call. *)
Theorem orientation_unreadable {image : Type} `{Imaging image}
    (w : world image) (page_image : image) (s : state image) (osd : text) :
  Forall (fun c : char => c ≠ "R"%char) osd →
  osd_reply w (osd_calls s) page_image = Some osd →
  correct_orientation w page_image s
  = (Ok page_image,
     State (S (osd_calls s)) (ocr_calls s)
       (trace s ++ [EvOsd page_image]) (files s)).
Proof.
  intros Hno Hosd. unfold correct_orientation, try_except.
  unfold mbind, M_bind, bind.
  erewrite (robust_image_to_osd_success w page_image 1 3 0);
    [|lia|intros m Hm; lia|rewrite Nat.add_0_r; exact Hosd].
  rewrite parse_rotation_no_R by done. simpl.
  unfold mret, M_ret, ret.
  by replace (osd_calls s + 0 + 1) with (S (osd_calls s)) by lia.
Qed.

(** ** Facts about the calls a computation makes *)

Section Uses.
Context {image : Type}.

Lemma engine_step_refl (s : state image) : engine_step 0 0 s s.
Proof.
  unfold engine_step. split_and!; try lia; [done|].
  exists []. by rewrite app_nil_r.
Qed.

Lemma engine_step_trans k1 j1 k2 j2 (s1 s2 s3 : state image) :
  engine_step k1 j1 s1 s2 → engine_step k2 j2 s2 s3 →
  engine_step (k1 + k2) (j1 + j2) s1 s3.
Proof.
  intros (Ha & Hb & Hc & evs & Hd) (Ha' & Hb' & Hc' & evs' & Hd').
  unfold engine_step. split_and!; try lia; [congruence|].
  exists (evs ++ evs'). by rewrite Hd', Hd, app_assoc.
Qed.

Lemma engine_step_weaken k j k' j' (s s' : state image) :
  k ≤ k' → j ≤ j' → engine_step k j s s' → engine_step k' j' s s'.
Proof.
  intros Hk Hj (Ha & Hb & Hc & Hd). unfold engine_step.
  split_and!; try lia; done.
Qed.

Lemma uses_weaken {A} k j k' j' (m : M image A) :
  k ≤ k' → j ≤ j' → uses k j m → uses k' j' m.
Proof. intros Hk Hj Hm s. by eapply engine_step_weaken. Qed.

Lemma uses_ret {A} (a : A) : uses 0 0 (mret a : M image A).
Proof. intros s. apply engine_step_refl. Qed.

Lemma uses_raise {A} e : uses 0 0 (raise e : M image A).
Proof. intros s. apply engine_step_refl. Qed.

Lemma uses_emit ev : uses 0 0 (emit ev : M image unit).
Proof.
  intros s. unfold engine_step. simpl. split_and!; try lia; [done|].
  by eexists.
Qed.

Lemma uses_bind {A B} k1 j1 k2 j2 (m : M image A) (f : A → M image B) :
  uses k1 j1 m → (∀ a, uses k2 j2 (f a)) → uses (k1 + k2) (j1 + j2) (m ≫= f).
Proof.
  intros Hm Hf s. specialize (Hm s). unfold mbind, M_bind, bind.
  destruct (m s) as [[a|e] s1]; simpl in *.
  - eapply engine_step_trans; [done | apply Hf].
  - eapply engine_step_weaken; [| |done]; lia.
Qed.

Lemma uses_try_except {A} k1 j1 k2 j2 (m : M image A) h :
  uses k1 j1 m → (∀ e, uses k2 j2 (h e)) →
  uses (k1 + k2) (j1 + j2) (try_except m h).
Proof.
  intros Hm Hh s. specialize (Hm s). unfold try_except.
  destruct (m s) as [[a|e] s1]; simpl in *.
  - eapply engine_step_weaken; [| |done]; lia.
  - destruct (is_Exception e).
    + eapply engine_step_trans; [done | apply Hh].
    + eapply engine_step_weaken; [| |done]; lia.
Qed.

End Uses.

Section PageUses.
Context {image : Type} `{Imaging image}.
Variable w : world image.

Lemma uses_image_to_osd img : uses 1 0 (image_to_osd w img).
Proof.
  intros s. unfold image_to_osd, engine_step.
  destruct (osd_reply w (osd_calls s) img); simpl;
    (split_and!; try lia; [done | by eexists]).
Qed.

Lemma uses_image_to_string img : uses 0 1 (image_to_string w img).
Proof.
  intros s. unfold image_to_string, engine_step.
  destruct (ocr_reply w (ocr_calls s) img); simpl;
    (split_and!; try lia; [done | by eexists]).
Qed.

Lemma uses_robust_image_to_osd img retries delay :
  uses retries 0 (robust_image_to_osd w img retries delay).
Proof.
  induction retries as [|k IH]; simpl.
  - apply uses_raise.
  - apply (uses_try_except 1 0 k 0); [apply uses_image_to_osd|].
    intros _. apply (uses_bind 0 0 k 0); [apply uses_emit | done].
Qed.

Lemma uses_parse_rotation osd : uses 0 0 (parse_rotation osd : M image Z).
Proof.
  unfold parse_rotation. destruct (search false rotate_pattern osd) as [[? ?]|].
  - unfold int_of_digits. case_bool_decide; [apply uses_ret | apply uses_raise].
  - apply uses_raise.
Qed.

Lemma uses_correct_orientation page_image :
  uses 3 0 (correct_orientation w page_image).
Proof.
  unfold correct_orientation.
  apply (uses_try_except 3 0 0 0); [|intros _; apply uses_ret].
  apply (uses_bind 3 0 0 0); [apply uses_robust_image_to_osd|].
  intros osd. apply (uses_bind 0 0 0 0); [apply uses_parse_rotation|].
  intros rotation. apply uses_ret.
Qed.

Lemma uses_ocr_passes corrected_image :
  uses 0 2 (ocr_passes w corrected_image).
Proof.
  unfold ocr_passes.
  apply (uses_bind 0 1 0 1); [apply uses_image_to_string|].
  intros t. destruct (pattern_pass t) as [[route_matches tm] xm].
  apply (uses_bind 0 1 0 0).
  - destruct route_matches.
    + apply (uses_bind 0 1 0 0); [apply uses_image_to_string|].
      intros t2. apply uses_ret.
    + eapply uses_weaken; [| |apply uses_ret]; lia.
  - intros [[rm tm'] xm']. apply uses_ret.
Qed.

Lemma uses_extract_info_from_page page_image :
  uses 3 2 (extract_info_from_page w page_image).
Proof.
  unfold extract_info_from_page.
  apply (uses_try_except 3 2 0 0); [|intros _; apply uses_ret].
  apply (uses_bind 3 0 0 2); [apply uses_correct_orientation|].
  intros c. apply uses_ocr_passes.
Qed.

Lemma uses_page_loop pdf_path page_number pages :
  uses (3 * length pages) (2 * length pages)
    (page_loop w pdf_path page_number pages).
Proof.
  revert page_number. induction pages as [|page pages IH]; intros n; simpl.
  - apply uses_ret.
  - eapply uses_weaken;
      [| |apply (uses_bind 3 2 (3 * length pages) (2 * length pages));
           [apply uses_extract_info_from_page|]]; [lia..|].
    intros ms.
    eapply uses_weaken;
      [| |apply (uses_bind (3 * length pages) (2 * length pages) 0 0);
           [apply IH | intros results; apply uses_ret]]; lia.
Qed.

Lemma uses_extract_route_and_store_ids pdf_path :
  uses (3 * length (default [] (pdf_pages w pdf_path)))
       (2 * length (default [] (pdf_pages w pdf_path)))
    (extract_route_and_store_ids w pdf_path).
Proof.
  intros s. unfold extract_route_and_store_ids, convert_from_path.
  unfold try_except, mbind, M_bind, bind, emit, mret, M_ret, ret, raise.
  destruct (pdf_pages w pdf_path) as [pages|]; simpl.
  - match goal with |- context [page_loop w pdf_path 1 pages ?s0] =>
      pose proof (uses_page_loop pdf_path 1 pages s0) as Hloop;
      destruct (page_loop_returns w pdf_path 1 pages s0) as (rs & s1 & Hs1 & _)
    end.
    rewrite Hs1 in Hloop |- *. simpl in *.
    replace (length pages + (length pages + (length pages + 0)))
      with (0 + 3 * length pages) by lia.
    replace (length pages + (length pages + 0))
      with (0 + 2 * length pages) by lia.
    eapply engine_step_trans; [|exact Hloop].
    unfold engine_step. simpl. split_and!; try lia; [done | by eexists].
  - unfold engine_step. simpl. split_and!; try lia; [done | by eexists].
Qed.

Lemma uses_merge_results arrived :
  uses (3 * total_pages w arrived) (2 * total_pages w arrived)
    (merge_results w arrived).
Proof.
  induction arrived as [|pdf_path arrived IH]; simpl.
  - apply uses_ret.
  - unfold total_pages in *. rewrite fmap_cons. simpl.
    set (n := length (default [] (pdf_pages w pdf_path))).
    set (t := sum_list _) in *.
    eapply uses_weaken;
      [| |apply (uses_bind (3 * n) (2 * n) (3 * t) (2 * t));
           [apply uses_extract_route_and_store_ids|]]; [lia..|].
    intros result.
    eapply uses_weaken;
      [| |apply (uses_bind (3 * t) (2 * t) 0 0);
           [apply IH | intros ?; apply uses_ret]]; lia.
Qed.

Lemma uses_process_pdfs pdf_directory :
  uses (3 * total_pages w (arrival_order w (pdf_files w pdf_directory)))
       (2 * total_pages w (arrival_order w (pdf_files w pdf_directory)))
    (process_pdfs w pdf_directory).
Proof.
  unfold process_pdfs.
  pose proof (uses_merge_results
                (arrival_order w (pdf_files w pdf_directory))) as Hm.
  set (t := total_pages w _) in *. clearbody t.
  apply (uses_weaken (0 + 3 * t) (0 + 2 * t)); [lia | lia |].
  apply uses_bind.
  - case_bool_decide; [apply uses_raise | apply uses_ret].
  - intros _.
    apply (uses_weaken (3 * t + 0) (2 * t + 0)); [lia | lia |].
    apply uses_bind; [apply Hm | intros ?; apply uses_ret].
Qed.

End PageUses.

(** X5.  Whatever the engine does, [extract_info_from_page] returns a
    list (it raises nothing), makes at most 3 orientation calls and at
    most 2 recognition calls, and leaves the output directory alone. *)
Theorem page_is_contained {image : Type} `{Imaging image} (w : world image)
    (page_image : image) (s : state image) :
  ∃ records s',
    extract_info_from_page w page_image s = (Ok records, s')
    ∧ engine_step 3 2 s s'.
Proof.
  destruct (extract_info_from_page_returns w page_image s)
    as (records & s' & Hrun & _).
  pose proof (uses_extract_info_from_page w page_image s) as Hstep.
  rewrite Hrun in Hstep. by exists records, s'.
Qed.

(** X6.  [process_pdfs] makes at most 3 orientation calls and 2
    recognition calls for each page of the documents that could be
    rasterised, and never changes the output directory. *)
Theorem batch_engine_calls {image : Type} `{Imaging image} (w : world image)
    (pdf_directory : text) (s : state image) :
  let pages :=
    total_pages w (arrival_order w (pdf_files w pdf_directory)) in
  engine_step (3 * pages) (2 * pages) s (process_pdfs w pdf_directory s).2.
Proof. apply uses_process_pdfs. Qed.

(** ** More facts about the cleaning of store names *)

Lemma first_space_phone s :
  (∃ i, space_phone_at s i = true ∧ ∀ j, j < i → space_phone_at s j = false)
  ∨ (∀ i, space_phone_at s i = false).
Proof.
  induction s as [|c s IH].
  - right. intros i. unfold space_phone_at. by rewrite drop_nil.
  - destruct (space_phone_at (c :: s) 0) eqn:H0.
    + left. exists 0. split; [done | intros j Hj; lia].
    + destruct IH as [(i & Hi & Hfirst)|Hnone].
      * left. exists (S i). split; [done|].
        intros [|j] Hj; [done|]. rewrite space_phone_at_cons. apply Hfirst. lia.
      * right. intros [|i]; [done|]. by rewrite space_phone_at_cons.
Qed.

Lemma space_phone_at_app a s b j :
  space_phone_at s j = true → space_phone_at (a ++ s ++ b) (length a + j) = true.
Proof.
  unfold space_phone_at. rewrite drop_app_add.
  destruct (drop j s) as [|c s'] eqn:Hd; [done|].
  intros [Hc Hp%bool_decide_eq_true]%andb_true_iff.
  assert (j < length s) as Hlt.
  { destruct (decide (j < length s)); [done|].
    rewrite drop_ge in Hd by lia. done. }
  rewrite drop_app_le by lia. rewrite Hd. simpl.
  rewrite Hc. apply bool_decide_eq_true.
  assert (5 ≤ length s') as Hlen.
  { destruct (decide (5 ≤ length s')); [done|].
    apply (f_equal length) in Hp. rewrite length_take in Hp.
    change (length (str "Phone")) with 5 in Hp. lia. }
  by rewrite take_app_le.
Qed.

Lemma space_phone_at_take s i j :
  space_phone_at (take i s) j = true → space_phone_at s j = true ∧ j < i.
Proof.
  intros Hj.
  pose proof (space_phone_at_app [] (take i s) (drop i s) j Hj) as Happ.
  simpl in Happ. rewrite take_drop in Happ. split; [done|].
  unfold space_phone_at in Hj.
  destruct (decide (j < i)) as [|Hge]; [done|].
  rewrite drop_ge in Hj; [done|]. rewrite length_take. lia.
Qed.

Lemma lstrip_id s :
  (∀ c, head s = Some c → is_space c = false) → lstrip s = s.
Proof.
  destruct s as [|c s]; [done|]. intros Hh. simpl. by rewrite (Hh c).
Qed.

Lemma strip_id s :
  (∀ c, head s = Some c → is_space c = false) →
  (∀ c, last s = Some c → is_space c = false) →
  strip s = s.
Proof.
  intros Hh Hl. unfold strip, rstrip. rewrite (lstrip_id s Hh).
  rewrite lstrip_id; [apply reverse_involutive|].
  intros c. rewrite head_reverse. apply Hl.
Qed.

Lemma split_head_phone_cases s :
  (∃ i, split_head false phone_pattern s = take i s
        ∧ ∀ j, j < i → space_phone_at s j = false)
  ∨ (split_head false phone_pattern s = s ∧ ∀ i, space_phone_at s i = false).
Proof.
  unfold split_head, search.
  destruct (first_space_phone s) as [(i & Hi & Hfirst)|Hnone].
  - left. exists i.
    destruct (search_from_phone_found None [] s i Hi Hfirst) as [st ->]. done.
  - right. by rewrite search_from_phone_none.
Qed.

Lemma split_head_phone_free s i :
  space_phone_at (split_head false phone_pattern s) i = false.
Proof.
  destruct (split_head_phone_cases s) as [(k & -> & Hfirst)|[-> Hnone]]; [|done].
  destruct (space_phone_at (take k s) i) eqn:Hi; [|done].
  apply space_phone_at_take in Hi as [Hi Hlt]. by rewrite Hfirst in Hi.
Qed.

Lemma split_head_phone_prefix s :
  ∃ i, split_head false phone_pattern s = take i s.
Proof.
  destruct (split_head_phone_cases s) as [(k & -> & _)|[-> _]]; [by exists k|].
  exists (length s). by rewrite take_ge.
Qed.

Lemma clean_store_name_clean n :
  Forall (fun c => to_name_char c = true) n → clean_name (clean_store_name n).
Proof.
  intros Hn. unfold clean_store_name.
  set (h := split_head false phone_pattern n).
  destruct (strip_spec h) as (a & b & Hh & Ha & Hb & Hhead & Hlast).
  split_and!; [done | done | |].
  - intros i. destruct (space_phone_at (strip h) i) eqn:Hi; [|done].
    apply (space_phone_at_app a _ b) in Hi. rewrite <- Hh in Hi.
    unfold h in Hi. by rewrite split_head_phone_free in Hi.
  - assert (Forall (fun c => to_name_char c = true) h) as HF.
    { unfold h. destruct (split_head_phone_prefix n) as [i ->].
      by apply Forall_take. }
    rewrite Hh in HF. apply Forall_app in HF as [_ HF].
    by apply Forall_app in HF as [HF _].
Qed.

(** X7.  Cleaning a store name a second time changes nothing. *)
Theorem clean_store_name_idempotent (store_name : text) :
  clean_store_name (clean_store_name store_name)
  = clean_store_name store_name.
Proof.
  unfold clean_store_name at 1.
  set (m := clean_store_name store_name).
  assert (split_head false phone_pattern m = m) as ->.
  { destruct (split_head_phone_cases m) as [(i & _ & Hfirst)|[Hm _]]; [|done].
    unfold split_head, search. rewrite search_from_phone_none; [done|].
    intros j. unfold m, clean_store_name.
    set (h := split_head false phone_pattern store_name).
    destruct (strip_spec h) as (a & b & Hh & _).
    destruct (space_phone_at (strip h) j) eqn:Hj; [|done].
    apply (space_phone_at_app a _ b) in Hj. rewrite <- Hh in Hj.
    unfold h in Hj. by rewrite split_head_phone_free in Hj. }
  unfold m, clean_store_name.
  destruct (strip_spec (split_head false phone_pattern store_name))
    as (a & b & _ & _ & _ & Hhead & Hlast).
  by apply strip_id.
Qed.

(** ** Where the rows of the table come from *)

Lemma xdock_name_char_to_name_char c :
  xdock_name_char c = true → to_name_char c = true.
Proof. unfold to_name_char, xdock_name_char. by intros ->. Qed.

Lemma records_of_text_store_clean t r l n :
  (r, l, n) ∈ records_of_text t → clean_name n.
Proof.
  unfold records_of_text, pattern_pass, pair_route_matches.
  intros (r' & Hin & Hr)%list_elem_of_bind.
  destruct (pick_location _ _) as [[l' n']|] eqn:Hpick;
    [|by apply elem_of_nil in Hin].
  destruct (truthy l' && truthy n'); [|by apply elem_of_nil in Hin].
  apply list_elem_of_singleton in Hin as [= -> -> ->].
  apply clean_store_name_clean.
  apply pick_location_elem in Hpick as [Hx|Ht].
  - apply findall_xdock_wh_fields in Hx as (_ & _ & HF).
    eapply Forall_impl; [done|]. apply xdock_name_char_to_name_char.
  - by apply findall_to_fields in Ht as (_ & _ & HF).
Qed.

Section Provenance.
Context {image : Type} `{Imaging image}.
Variable w : world image.

Lemma row_of_page_fields pdf_path n r :
  row_of_page w pdf_path n r →
  PDF r = os_path_basename w pdf_path ∧ PageNumber r = n
  ∧ clean_name (StoreName r).
Proof.
  intros (t & Hr). unfold page_results in Hr.
  apply list_elem_of_fmap in Hr as ([[route l] store] & -> & Hin).
  simpl. split_and!; [done..|]. by eapply records_of_text_store_clean.
Qed.

Lemma page_loop_provenance pdf_path k pages :
  returns
    (Forall (fun r => ∃ n, k ≤ n < k + length pages
                           ∧ row_of_page w pdf_path n r))
    (page_loop w pdf_path k pages).
Proof.
  revert k. induction pages as [|page pages IH]; intros k; simpl.
  - by apply returns_ret.
  - eapply returns_bind; [apply extract_info_from_page_text|].
    intros records Hrecords. eapply returns_bind; [apply (IH (S k))|].
    intros results Hres. apply returns_ret, Forall_app. split.
    + apply Forall_forall. intros r Hr. exists k. split; [lia|].
      destruct Hrecords as [->|[t ->]]; [|by exists t].
      unfold page_results in Hr. by apply elem_of_nil in Hr.
    + eapply Forall_impl; [done|]. intros r (n & Hn & Hr).
      exists n. split; [lia | done].
Qed.

Lemma extract_route_and_store_ids_provenance pdf_path :
  returns
    (Forall (fun r => ∃ pages n,
               pdf_pages w pdf_path = Some pages
               ∧ 1 ≤ n ≤ length pages ∧ row_of_page w pdf_path n r))
    (extract_route_and_store_ids w pdf_path).
Proof.
  intros s. unfold extract_route_and_store_ids, convert_from_path.
  unfold try_except, mbind, M_bind, bind, emit, mret, M_ret, ret, raise.
  destruct (pdf_pages w pdf_path) as [pages|] eqn:Hpages; simpl.
  - match goal with |- context [page_loop w pdf_path 1 pages ?s0] =>
      destruct (page_loop_provenance pdf_path 1 pages s0)
        as (rows & s1 & -> & Hrows)
    end.
    exists rows, s1. split; [done|].
    eapply Forall_impl; [done|]. intros r (n & Hn & Hr).
    exists pages, n. split_and!; [done | lia | lia | done].
  - by eexists _, _.
Qed.

Lemma merge_results_provenance arrived :
  returns
    (Forall (fun r => ∃ pdf_path pages n,
               pdf_path ∈ arrived
               ∧ pdf_pages w pdf_path = Some pages
               ∧ 1 ≤ n ≤ length pages ∧ row_of_page w pdf_path n r))
    (merge_results w arrived).
Proof.
  induction arrived as [|pdf_path arrived IH]; simpl.
  - by apply returns_ret.
  - eapply returns_bind; [apply extract_route_and_store_ids_provenance|].
    intros result Hres. eapply returns_bind; [apply IH|].
    intros all_results Hall. apply returns_ret, Forall_app. split.
    + eapply Forall_impl; [done|]. intros r (pages & n & Hp & Hn & Hr).
      exists pdf_path, pages, n. split_and!; try done; try lia.
      apply list_elem_of_here.
    + eapply Forall_impl; [done|]. intros r (p & pages & n & Hin & Hp & Hn & Hr).
      exists p, pages, n. split_and!; try done; try lia.
      by apply list_elem_of_further.
Qed.

Lemma process_pdfs_provenance pdf_directory :
  ensures
    (Forall (fun r => ∃ pdf_path pages n,
               pdf_path ∈ arrival_order w (pdf_files w pdf_directory)
               ∧ pdf_pages w pdf_path = Some pages
               ∧ 1 ≤ n ≤ length pages ∧ row_of_page w pdf_path n r))
    (process_pdfs w pdf_directory).
Proof.
  intros s. unfold process_pdfs. case_bool_decide as Hpool; [done|].
  unfold mbind, M_bind, bind, mret, M_ret, ret.
  destruct (merge_results_provenance
              (arrival_order w (pdf_files w pdf_directory)) s)
    as (all_results & s' & -> & Hall).
  destruct all_results as [|r0 rows]; [constructor|].
  by apply drop_duplicates_Forall.
Qed.

Lemma pdf_files_elem pdf_directory pdf_path :
  pdf_path ∈ pdf_files w pdf_directory ↔
  ∃ root file, (root, file) ∈ os_walk w pdf_directory
               ∧ endswith (str_lower file) (str ".pdf") = true
               ∧ pdf_path = os_path_join w root file.
Proof.
  unfold pdf_files. rewrite list_elem_of_bind. split.
  - intros ([root file] & Hin & Hwalk).
    destruct (endswith _ _) eqn:He; [|by apply elem_of_nil in Hin].
    apply list_elem_of_singleton in Hin. by exists root, file.
  - intros (root & file & Hwalk & He & ->). exists (root, file).
    split; [|done]. rewrite He. apply list_elem_of_here.
Qed.

End Provenance.

(** X8.  Every StoreName the pipeline puts into a row, and so every
    StoreName of the final table, is trimmed, holds no whitespace
    character followed by [Phone], and is made of letters, digits,
    whitespace and round brackets only. *)
Theorem store_names_are_clean {image : Type} `{Imaging image}
    (w : world image) :
  (∀ pdf_path,
     returns (Forall (fun r => clean_name (StoreName r)))
       (extract_route_and_store_ids w pdf_path))
  ∧ (∀ pdf_directory,
       ensures (Forall (fun r => clean_name (StoreName r)))
         (process_pdfs w pdf_directory)).
Proof.
  split.
  - intros pdf_path. eapply returns_weaken;
      [|apply extract_route_and_store_ids_provenance].
    intros rows Hrows. eapply Forall_impl; [done|].
    intros r (pages & n & _ & _ & Hr).
    by apply row_of_page_fields in Hr as (_ & _ & ?).
  - intros pdf_directory. eapply ensures_weaken;
      [|apply process_pdfs_provenance].
    intros rows Hrows. eapply Forall_impl; [done|].
    intros r (p & pages & n & _ & _ & _ & Hr).
    by apply row_of_page_fields in Hr as (_ & _ & ?).
Qed.

(** A store name with a no-break space (U+00A0), which [\s] matches, is
    captured whole. *)
Example store_name_with_no_break_space :
  records_of_text
    (str "Route: 12345678 X-Dock WH: 1234-Acme" ++ [0xA0%N] ++ str "Store.")
  = [(str "12345678", str "1234", str "Acme" ++ [0xA0%N] ++ str "Store")].
Proof. by vm_compute. Qed.

(** X9.  The rows of a document name that document and one of its pages:
    PDF is the base name of the path, and PageNumber lies between 1 and
    the number of pages the rasteriser gave. *)
Theorem rows_name_their_page {image : Type} `{Imaging image}
    (w : world image) (pdf_path : text) :
  returns
    (Forall (fun r =>
       PDF r = os_path_basename w pdf_path
       ∧ ∃ pages, pdf_pages w pdf_path = Some pages
                  ∧ 1 ≤ PageNumber r ≤ length pages))
    (extract_route_and_store_ids w pdf_path).
Proof.
  eapply returns_weaken; [|apply extract_route_and_store_ids_provenance].
  intros rows Hrows. eapply Forall_impl; [done|].
  intros r (pages & n & Hp & Hn & Hr).
  apply row_of_page_fields in Hr as (HPDF & <- & _).
  split; [done|]. by exists pages.
Qed.

(** X10.  When the pool delivers only documents it was given, every row
    of the final table comes from a file the walk listed with a name
    that ends in [.pdf], in whatever case, which could be rasterised, and
    from one of its pages. *)
Theorem table_rows_come_from_pdf_files {image : Type} `{Imaging image}
    (w : world image) (pdf_directory : text) :
  (∀ l p, p ∈ arrival_order w l → p ∈ l) →
  ensures
    (Forall (fun r => ∃ root file pages,
       (root, file) ∈ os_walk w pdf_directory
       ∧ endswith (str_lower file) (str ".pdf") = true
       ∧ pdf_pages w (os_path_join w root file) = Some pages
       ∧ PDF r = os_path_basename w (os_path_join w root file)
       ∧ 1 ≤ PageNumber r ≤ length pages))
    (process_pdfs w pdf_directory).
Proof.
  intros Harrival. eapply ensures_weaken; [|apply process_pdfs_provenance].
  intros rows Hrows. eapply Forall_impl; [done|].
  intros r (p & pages & n & Hin & Hp & Hn & Hr).
  apply Harrival, pdf_files_elem in Hin as (root & file & Hwalk & He & ->).
  apply row_of_page_fields in Hr as (HPDF & <- & _).
  exists root, file, pages. done.
Qed.

(** ** More facts about [drop_duplicates] *)

Lemma drop_duplicates_from_distinct seen rows :
  NoDup (dedup_key <$> rows) →
  (∀ r, r ∈ rows → dedup_key r ∉ seen) →
  drop_duplicates_from seen rows = rows.
Proof.
  revert seen. induction rows as [|r rows IH]; intros seen Hnd Hseen; [done|].
  rewrite fmap_cons in Hnd. apply NoDup_cons in Hnd as [Hnin Hnd].
  simpl. rewrite bool_decide_false by (apply Hseen, list_elem_of_here).
  f_equal. apply IH; [done|]. intros r' Hr'.
  apply not_elem_of_union. split.
  - rewrite elem_of_singleton. intros Heq. apply Hnin. rewrite <- Heq.
    by apply list_elem_of_fmap_2.
  - by apply Hseen, list_elem_of_further.
Qed.

(** X11.  [drop_duplicates] keeps the rows it keeps in the order they
    arrived, leaves a list alone whose rows differ in the key, and so
    changes nothing when applied a second time. *)
Theorem drop_duplicates_order (rows : list result_row) :
  drop_duplicates rows `sublist_of` rows
  ∧ (NoDup (dedup_key <$> rows) → drop_duplicates rows = rows)
  ∧ drop_duplicates (drop_duplicates rows) = drop_duplicates rows.
Proof.
  split_and!.
  - apply drop_duplicates_from_sublist.
  - intros Hnd. apply drop_duplicates_from_distinct; [done|].
    intros r _. apply not_elem_of_empty.
  - apply drop_duplicates_from_distinct;
      [apply drop_duplicates_from_NoDup|].
    intros r _. apply not_elem_of_empty.
Qed.

(** X12.  The pool never has more than 4 workers.  On a machine with one
    CPU [process_pdfs] raises [ValueError] before it
    looks at any document; with two or more it returns a table. *)
Theorem pool_needs_two_cpus {image : Type} `{Imaging image} (w : world image)
    (pdf_directory : text) (s : state image) :
  (pool_size w ≤ 4)%Z
  ∧ ((cpu_count w ≤ 1)%Z →
     process_pdfs w pdf_directory s = (Raise ValueError, s))
  ∧ ((2 ≤ cpu_count w)%Z →
     ∃ df s', process_pdfs w pdf_directory s = (Ok df, s')).
Proof.
  split_and!.
  - unfold pool_size. lia.
  - intros Hcpu. apply process_pdfs_no_pool. unfold pool_size. lia.
  - intros Hcpu.
    destruct (process_pdfs_unfold w pdf_directory s)
      as (all_results & s' & _ & _ & Hp).
    { unfold pool_size. lia. }
    by eexists _, _.
Qed.

(** X13.  A directory without a file whose name ends in [.pdf] gives the
    empty table: no document is rasterised and the engine is not
    called. *)
Theorem no_pdf_no_rows {image : Type} `{Imaging image} (w : world image)
    (pdf_directory : text) (s : state image) :
  (2 ≤ cpu_count w)%Z →
  arrival_order w [] = [] →
  (∀ root file, (root, file) ∈ os_walk w pdf_directory →
                endswith (str_lower file) (str ".pdf") = false) →
  process_pdfs w pdf_directory s = (Ok [], s).
Proof.
  intros Hcpu Harrival Hnone.
  assert (pdf_files w pdf_directory = []) as Hfiles.
  { apply elem_of_nil_inv. intros p (root & file & Hwalk & He & _)%pdf_files_elem.
    by rewrite (Hnone root file Hwalk) in He. }
  unfold process_pdfs. rewrite bool_decide_false by (unfold pool_size; lia).
  by rewrite Hfiles, Harrival.
Qed.

(** ** More facts about the query file *)

Section QueryFacts.

Lemma parse_row_valid row q :
  parse_row row = Ok (Some q) → digits 8 q.1 ∧ digits 4 q.2.
Proof.
  unfold parse_row.
  destruct (row_get row (str "RouteID")) as [v1|]; [|done].
  destruct (row_get row (str "LocationNumber")) as [v2|]; [|done].
  cbv beta iota zeta. rewrite !fullmatch_digits.
  destruct (truthy (strip v1) && truthy (strip v2)); [|done].
  destruct (digits_b 8 (strip v1)) eqn:H1; [|done].
  destruct (digits_b 4 (strip v2)) eqn:H2; [|done].
  intros [= <-]. simpl. by rewrite <- !digits_b_spec.
Qed.

Lemma read_rows_valid rows queries :
  Forall (fun q => digits 8 q.1 ∧ digits 4 q.2) queries →
  Forall (fun q => digits 8 q.1 ∧ digits 4 q.2) (read_rows rows queries).
Proof.
  revert queries. induction rows as [|row rows IH]; intros queries Hq; simpl.
  - done.
  - destruct (parse_row row) as [[q|]|e] eqn:Hrow; [| |done].
    + apply IH, Forall_app. split; [done|].
      constructor; [by eapply parse_row_valid | constructor].
    + by apply IH.
Qed.

Lemma parse_row_incomplete row :
  ¬ row_complete row → parse_row row = Raise AttributeError.
Proof.
  unfold row_complete, parse_row. intros Hrow.
  destruct (row_get row (str "RouteID")) as [v1|]; [|done].
  destruct (row_get row (str "LocationNumber")) as [v2|]; [|done].
  destruct Hrow. split; eauto.
Qed.

Lemma read_rows_stops pre row post queries :
  ¬ row_complete row →
  read_rows (pre ++ row :: post) queries = read_rows pre queries.
Proof.
  intros Hrow%parse_row_incomplete. revert queries.
  induction pre as [|r pre IH]; intros queries; simpl.
  - by rewrite Hrow.
  - destruct (parse_row r) as [[q|]|e]; [apply IH | apply IH | done].
Qed.

End QueryFacts.

(** X14.  Whatever the rows of the file are, short and malformed ones
    included, every query [read_queries_from_csv] returns is a pair of
    exactly 8 and exactly 4 decimal digits; a file that cannot be opened
    gives none. *)
Theorem parsed_queries_are_valid {image : Type} `{Imaging image}
    (w : world image) (csv_path : text) :
  returns (Forall (fun q => digits 8 q.1 ∧ digits 4 q.2))
    (read_queries_from_csv w csv_path)
  ∧ (csv_rows w csv_path = None →
     returns (fun queries => queries = []) (read_queries_from_csv w csv_path)).
Proof.
  split.
  - intros s. rewrite read_queries_from_csv_run. eexists _, _. split; [done|].
    unfold parsed_queries. destruct (csv_rows w csv_path); [|constructor].
    apply read_rows_valid. constructor.
  - intros Hnone s. rewrite read_queries_from_csv_run. eexists _, _.
    split; [done|]. unfold parsed_queries. by rewrite Hnone.
Qed.

(** X15.  A row in which one of the two fields is [None] (the line is
    shorter than the header) ends the reading: the queries are those of
    the rows before it, and the rows after it are never looked at. *)
Theorem short_row_stops_reading (pre post : list csv_row) (row : csv_row) :
  row !! str "RouteID" = Some None ∨ row !! str "LocationNumber" = Some None →
  read_rows (pre ++ row :: post) [] = read_rows pre [].
Proof.
  intros Hrow. apply read_rows_stops. unfold row_complete, row_get.
  intros [[v1 H1] [v2 H2]].
  destruct Hrow as [Hr|Hr]; rewrite Hr in *; done.
Qed.

(** ** More facts about the export *)

Section ExportSteps.
Context {image : Type} `{Imaging image}.
Variable w : world image.

Lemma export_step_refl (s : state image) : export_step 0 s s.
Proof.
  unfold export_step. split_and!; [done | done | done | lia |].
  exists []. by rewrite app_nil_r.
Qed.

Lemma export_step_trans n m (s1 s2 s3 : state image) :
  export_step n s1 s2 → export_step m s2 s3 → export_step (n + m) s1 s3.
Proof.
  intros (Ha & Hb & Hc & Hd & evs & He & Hl) (Ha' & Hb' & Hc' & Hd' & evs' & He' & Hl').
  unfold export_step. split_and!; [congruence | congruence | | lia |].
  - by etrans.
  - exists (evs ++ evs'). rewrite He', He, app_assoc, length_app. by split; [|lia].
Qed.

Lemma extract_and_save_page_step pdf_path page_number route_id location_number s :
  ∃ s',
    extract_and_save_page w pdf_path page_number route_id location_number s
    = (Ok tt, s')
    ∧ export_step (if pdf_page_readable w pdf_path page_number then 1 else 0)
        s s'.
Proof.
  destruct (pdf_page_readable w pdf_path page_number) eqn:Hread.
  - destruct (extract_and_save_page_readable w pdf_path page_number
                route_id location_number s Hread) as (p & Hp & ->).
    destruct (free_path_total w route_id location_number (files s))
      as (p' & Hp' & Hfresh & _).
    rewrite Hp in Hp'. injection Hp' as <-.
    eexists. split; [done|]. unfold export_step. simpl.
    split_and!; [done | done | apply union_subseteq_r | |].
    + rewrite size_union by (by apply disjoint_singleton_l).
      rewrite size_singleton. lia.
    + by eexists.
  - rewrite extract_and_save_page_unreadable by done.
    eexists. split; [done | apply export_step_refl].
Qed.

Lemma save_matching_step rows pdf_directory route_id location_number s :
  ∃ s',
    save_matching w rows pdf_directory route_id location_number s = (Ok tt, s')
    ∧ export_step
        (length (filter (fun r => pdf_page_readable w
                           (os_path_join w pdf_directory (PDF r))
                           (PageNumber r) = true) rows))
        s s'.
Proof.
  revert s. induction rows as [|row rows IH]; intros s; simpl.
  - eexists. split; [done | apply export_step_refl].
  - unfold mbind, M_bind, bind.
    destruct (extract_and_save_page_step
                (os_path_join w pdf_directory (PDF row)) (PageNumber row)
                route_id location_number s) as (s1 & -> & Hstep1).
    destruct (IH s1) as (s2 & -> & Hstep2).
    eexists. split; [done|].
    rewrite filter_cons.
    destruct (pdf_page_readable w _ (PageNumber row)) eqn:Hread.
    + rewrite decide_True by done. simpl.
      by apply (export_step_trans 1 _ s s1 s2).
    + rewrite decide_False by done.
      by apply (export_step_trans 0 _ s s1 s2).
Qed.

Lemma search_and_save_step df queries pdf_directory s :
  ∃ s',
    search_and_save w df queries pdf_directory s = (Ok tt, s')
    ∧ export_step (export_count w df queries pdf_directory) s s'.
Proof.
  revert s. induction queries as [|[route_id location_number] queries IH];
    intros s; simpl.
  - eexists. split; [done | apply export_step_refl].
  - unfold mbind, M_bind, bind.
    destruct (save_matching_step
                (filter (fun r => RouteID r = str_upper route_id
                                  ∧ LocationNumber r = location_number) df)
                pdf_directory route_id location_number s)
      as (s1 & -> & Hstep1).
    destruct (IH s1) as (s2 & -> & Hstep2).
    eexists. split; [done|].
    unfold export_count. rewrite fmap_cons. simpl.
    by eapply export_step_trans.
Qed.

End ExportSteps.

(** X16.  [search_and_save] always returns.  It writes one new file for
    each row that matches a query and whose page can be read, counted
    once for every query that names it, and nothing else: no file is
    removed or written over, and the engine is not called. *)
Theorem export_writes_one_file_per_match {image : Type} `{Imaging image}
    (w : world image) (df : list result_row) (queries : list (text * text))
    (pdf_directory : text) (s : state image) :
  ∃ s',
    search_and_save w df queries pdf_directory s = (Ok tt, s')
    ∧ export_step (export_count w df queries pdf_directory) s s'.
Proof. apply search_and_save_step. Qed.


(** X17.  For queries of 8 and 4 digits the name of an exported file
    tells the query and the count: two exports get the same path only
    when route, location and count are the same. *)
Theorem export_path_tells_query {image : Type} (w : world image)
    (r r' l l' : text) (c c' : option nat) :
  digits 8 r → digits 8 r' → digits 4 l → digits 4 l' →
  export_path w r l c = export_path w r' l' c' →
  r = r' ∧ l = l' ∧ c = c'.
Proof.
  intros [Hr _] [Hr' _] [Hl _] [Hl' _] Heq.
  unfold export_path, os_path_join in Heq.
  do 2 apply app_inv_head in Heq.
  assert (∀ x, new_pdf_name r l x = r ++ str " - " ++ l ++
            match x with
            | None => str ".pdf"
            | Some n => str " (" ++ str_of_nat n ++ str ").pdf"
            end) as Hname by (by intros [n|]).
  assert (∀ x, new_pdf_name r' l' x = r' ++ str " - " ++ l' ++
            match x with
            | None => str ".pdf"
            | Some n => str " (" ++ str_of_nat n ++ str ").pdf"
            end) as Hname' by (by intros [n|]).
  rewrite Hname, Hname' in Heq.
  apply app_inj_1 in Heq as [-> Heq]; [|congruence].
  apply app_inv_head in Heq.
  apply app_inj_1 in Heq as [-> Heq]; [|congruence].
  split_and!; [done..|].
  destruct c as [n|], c' as [n'|]; try done.
  apply app_inv_head, app_inv_tail, str_of_nat_inj in Heq. by subst.
Qed.

(** ** Facts about the test script *)

Section TestFacts.
Context {image : Type} `{Imaging image} `{TestImaging image}.
Variable w : world image.

Lemma test_collect_matches_page_results t pdf_path page_number :
  test_collect_matches w (findall1 true route_id_pattern t)
    (findall2 true to_pattern t) (findall2 true xdock_wh_pattern t)
    pdf_path page_number
  = page_results w pdf_path page_number (records_of_text t).
Proof.
  unfold test_collect_matches, page_results, records_of_text, pattern_pass,
    pair_route_matches.
  induction (findall1 true route_id_pattern t) as [|r rs IH]; [done|].
  rewrite !bind_cons, fmap_app, IH. f_equal.
  destruct (pick_location _ _) as [[l n]|]; [|done].
  by destruct (truthy l && truthy n).
Qed.

Lemma test_extract_info_from_page_run page_image pdf_path page_number s :
  test_extract_info_from_page w page_image pdf_path page_number s
  = (Ok match ocr_reply w (ocr_calls s) page_image with
        | Some t => page_results w pdf_path page_number (records_of_text t)
        | None => []
        end,
     State (osd_calls s) (S (ocr_calls s))
       (trace s ++ [EvOcr page_image]) (files s)).
Proof.
  unfold test_extract_info_from_page, try_except, image_to_string.
  unfold mbind, M_bind, bind, mret, M_ret, ret.
  destruct (ocr_reply w (ocr_calls s) page_image) as [t|]; simpl; [|done].
  by rewrite test_collect_matches_page_results.
Qed.

Lemma test_page_loop_calls pdf_path page_number pages s :
  ∃ rows s',
    test_page_loop w pdf_path page_number pages s = (Ok rows, s')
    ∧ osd_calls s' = osd_calls s
    ∧ ocr_calls s' = ocr_calls s + length pages
    ∧ files s' = files s.
Proof.
  revert page_number s. induction pages as [|page pages IH]; intros n s; simpl.
  - eexists _, _. split; [done|]. split_and!; [done | lia | done].
  - unfold mbind, M_bind, bind. rewrite test_extract_info_from_page_run.
    match goal with |- context [test_page_loop w pdf_path (S n) pages ?s0] =>
      destruct (IH (S n) s0) as (rows & s' & -> & Ha & Hb & Hc)
    end.
    eexists _, _. split; [done|]. simpl in *. split_and!; [done | lia | done].
Qed.

End TestFacts.

(** X18.  The page function of the test script reads the page once and
    returns the rows that [reader.py] builds from the records of that
    text; it makes no orientation call and no second pass, and when the
    engine fails it returns no rows. *)
Theorem test_script_page_rows {image : Type} `{Imaging image}
    `{TestImaging image} (w : world image) (page_image : image)
    (pdf_path : text) (page_number : nat) (s : state image) :
  test_extract_info_from_page w page_image pdf_path page_number s
  = (Ok match ocr_reply w (ocr_calls s) page_image with
        | Some t => page_results w pdf_path page_number (records_of_text t)
        | None => []
        end,
     State (osd_calls s) (S (ocr_calls s))
       (trace s ++ [EvOcr page_image]) (files s)).
Proof. apply test_extract_info_from_page_run. Qed.


(** X19.  [test_pdf_processing] makes exactly one recognition call for
    each page of the document and no orientation call; a document that
    cannot be rasterised gives no data and no call. *)
Theorem test_script_calls {image : Type} `{Imaging image}
    `{TestImaging image} (w : world image) (pdf_path : text)
    (s : state image) :
  ∃ rows s',
    test_pdf_processing w pdf_path s = (Ok rows, s')
    ∧ osd_calls s' = osd_calls s
    ∧ ocr_calls s'
      = ocr_calls s + length (default [] (pdf_pages w pdf_path))
    ∧ files s' = files s
    ∧ (pdf_pages w pdf_path = None → rows = []).
Proof.
  unfold test_pdf_processing, convert_from_path, try_except.
  unfold mbind, M_bind, bind, emit, mret, M_ret, ret, raise.
  destruct (pdf_pages w pdf_path) as [pages|]; simpl.
  - match goal with |- context [test_page_loop w pdf_path 1 pages ?s0] =>
      destruct (test_page_loop_calls w pdf_path 1 pages s0)
        as (rows & s' & -> & Ha & Hb & Hc)
    end.
    exists rows, s'. simpl in *. by split_and!.
  - eexists _, _. split; [done|]. simpl. split_and!; [done | lia | done..].
Qed.

(** X20.  A failure of the recognition engine is contained in the page:
    when the first call raises, the page gives no record after that one
    call; when the first text has no route identifier and the call on
    the turned image raises, the page gives no record after the two
    calls. *)
Theorem recognition_failure_gives_no_record {image : Type} `{Imaging image}
    (w : world image) (page_image corrected_image : image)
    (s s0 : state image) :
  correct_orientation w page_image s = (Ok corrected_image, s0) →
  (ocr_reply w (ocr_calls s0) corrected_image = None →
   extract_info_from_page w page_image s
   = (Ok [],
      State (osd_calls s0) (S (ocr_calls s0))
        (trace s0 ++ [EvOcr corrected_image]) (files s0)))
  ∧ (∀ t1,
       ocr_reply w (ocr_calls s0) corrected_image = Some t1 →
       findall1 true route_id_pattern t1 = [] →
       ocr_reply w (S (ocr_calls s0)) (rotate 180 corrected_image) = None →
       extract_info_from_page w page_image s
       = (Ok [],
          State (osd_calls s0) (S (S (ocr_calls s0)))
            (trace s0 ++ [EvOcr corrected_image;
                          EvOcr (rotate 180 corrected_image)])
            (files s0))).
Proof.
  intros Hc. rewrite (extract_info_from_page_unfold w _ _ _ _ Hc). split.
  - intros Hfail. unfold try_except, ocr_passes, image_to_string.
    unfold mbind, M_bind, bind. by rewrite Hfail.
  - intros t1 H1 Hr H2. unfold try_except.
    rewrite (ocr_passes_second w _ _ t1) by done. by rewrite H2.
Qed.

(** X21.  A whole run of [main]: the process ends with status 0 or 1; no
    file of the output directory is removed; the engines are called at
    most 3 times (orientation) and 2 times (recognition) for each page
    of the documents found. *)
Theorem main_run_is_bounded {image : Type} `{Imaging image} (w : world image)
    (s : state image) :
  let pdf_directory := os_path_join w (script_dir w) (str "pdfs") in
  let pages :=
    total_pages w (arrival_order w (pdf_files w pdf_directory)) in
  let o := (main w s).1 in
  let s' := (main w s).2 in
  (exit_status o = 0 ∨ exit_status o = 1)%Z
  ∧ files s ⊆ files s'
  ∧ osd_calls s ≤ osd_calls s' ≤ osd_calls s + 3 * pages
  ∧ ocr_calls s ≤ ocr_calls s' ≤ ocr_calls s + 2 * pages.
Proof.
  intros pdf_directory pages o s'. subst o s'. unfold main.
  fold pdf_directory.
  unfold mbind, M_bind, bind, mret, M_ret, ret, raise.
  destruct (os_path_exists w pdf_directory); simpl;
    [|split_and!; [by right | done | lia..]].
  destruct (os_path_exists w _); simpl;
    [|split_and!; [by right | done | lia..]].
  destruct (decide (1 ≤ pool_size w)%Z) as [Hpool|Hpool].
  - pose proof (uses_process_pdfs w pdf_directory s) as Hstep.
    destruct (process_pdfs_unfold w pdf_directory s Hpool)
      as (all_results & s1 & _ & _ & Hp).
    rewrite Hp in Hstep |- *. simpl in Hstep.
    destruct Hstep as (Hosd & Hocr & Hfiles & _). fold pages in Hosd, Hocr.
    rewrite save_results_run, read_queries_from_csv_run.
    destruct (parsed_queries w _) as [|q qs].
    + simpl. rewrite Hfiles. split_and!; [by right | done | lia..].
    + cbv beta iota zeta.
      match goal with |- context [search_and_save w ?df ?qs ?d ?s0] =>
        destruct (search_and_save_step w df qs d s0)
          as (s2 & -> & Ha & Hb & Hc & _)
      end.
      simpl in *. rewrite Hfiles in Hc.
      split_and!; [by left | done | lia..].
  - rewrite process_pdfs_no_pool by lia. simpl.
    split_and!; [by right | done | lia..].
Qed.

(** * The further theorems at work on the test data *)

(** X1 with two failures before the answer, and with no attempt
    allowed. *)
Lemma osd_retries_in_general_witness :
  robust_image_to_osd (Fixture.office 2 None) (0, 0%Z) 3 1 (initial_state ∅)
  = (Ok (str "Page number: 0" ++ [code "010"] ++ str "Rotate: 90"),
     State 3 0 (failed_attempts (0, 0%Z) 1 2 ++ [EvOsd (0, 0%Z)]) ∅)
  ∧ robust_image_to_osd (Fixture.office 2 None) (0, 0%Z) 0 1 (initial_state ∅)
    = (Raise UnboundLocalError, State 0 0 [] ∅).
Proof.
  split.
  - destruct (osd_retries_in_general (Fixture.office 2 None) (0, 0%Z) 3 1
                (initial_state ∅)) as (_ & Hok & _).
    apply (Hok 2); [lia | | reflexivity].
    intros m Hm. destruct m as [|[|m]]; [reflexivity.. | lia].
  - destruct (osd_retries_in_general (Fixture.office 2 None) (0, 0%Z) 0 1
                (initial_state ∅)) as (_ & _ & Hfail).
    apply Hfail. intros m Hm. lia.
Defined.

(** X2 on the report of the office engine, and on a report of 4301
    digits. *)
Lemma rotation_read_back_witness :
  parse_rotation
    (str "Page number: 0" ++ [code "010"] ++ str "Rotate: 90")
    (initial_state (image := Fixture.scan) ∅)
  = (Ok 90%Z, initial_state ∅)
  ∧ parse_rotation (str "Rotate: " ++ Cases.long_number)
      (initial_state (image := Fixture.scan) ∅)
    = (Raise ValueError, initial_state ∅).
Proof.
  split.
  - destruct (rotation_read_back (image := Fixture.scan)
                (str "Page number: 0" ++ [code "010"]) (str "90") []
                (initial_state ∅)) as [Hrun _].
    + apply (bool_decide_unpack _). vm_compute. reflexivity.
    + apply (bool_decide_unpack _). vm_compute. reflexivity.
    + discriminate.
    + intros c Hc. discriminate Hc.
    + rewrite bool_decide_true in Hrun
        by (apply Nat.leb_le; vm_compute; reflexivity).
      exact Hrun.
  - destruct (rotation_read_back (image := Fixture.scan)
                [] Cases.long_number [] (initial_state ∅)) as [Hrun _].
    + constructor.
    + apply Forall_replicate. reflexivity.
    + discriminate.
    + intros c Hc. discriminate Hc.
    + rewrite bool_decide_false in Hrun; [exact Hrun|].
      unfold Cases.long_number. rewrite length_replicate.
      intros Hle. apply Nat.leb_le in Hle. vm_compute in Hle.
      discriminate Hle.
Defined.


(** X4 on a report without the line. *)
Lemma orientation_unreadable_witness :
  correct_orientation Cases.no_rotate_line (0, 0%Z) (initial_state ∅)
  = (Ok (0, 0%Z), State 1 0 [EvOsd (0, 0%Z)] ∅).
Proof.
  apply (orientation_unreadable Cases.no_rotate_line (0, 0%Z)
           (initial_state ∅) (str "Page number: 0")).
  - apply (bool_decide_unpack _). vm_compute. reflexivity.
  - reflexivity.
Defined.

(** X10 on the two folders, whose documents arrive in the order given. *)
Lemma table_rows_come_from_pdf_files_witness :
  ensures
    (Forall (fun r => ∃ root file pages,
       (root, file) ∈ os_walk Fixture.two_folders (str "./pdfs")
       ∧ endswith (str_lower file) (str ".pdf") = true
       ∧ pdf_pages Fixture.two_folders
           (os_path_join Fixture.two_folders root file) = Some pages
       ∧ PDF r = os_path_basename Fixture.two_folders
                   (os_path_join Fixture.two_folders root file)
       ∧ 1 ≤ PageNumber r ≤ length pages))
    (process_pdfs Fixture.two_folders (str "./pdfs")).
Proof.
  apply (table_rows_come_from_pdf_files Fixture.two_folders (str "./pdfs")).
  intros l p Hp. simpl. exact Hp.
Defined.

(** X11 on two rows of different pages. *)
Lemma drop_duplicates_order_witness :
  let rows :=
    [ResultRow (str "12345678") (str "1234") (str "North") (str "a.pdf") 1;
     ResultRow (str "12345678") (str "1234") (str "North") (str "a.pdf") 2] in
  drop_duplicates rows = rows.
Proof.
  intros rows.
  destruct (drop_duplicates_order rows) as (_ & Hid & _).
  apply Hid. apply (bool_decide_unpack _). vm_compute. reflexivity.
Defined.

(** X12 on the office machine, with 8 CPUs and with one. *)
Lemma pool_needs_two_cpus_witness :
  (∃ df s',
     process_pdfs (Fixture.office 0 None) (str "./pdfs") (initial_state ∅)
     = (Ok df, s'))
  ∧ process_pdfs Cases.one_cpu (str "./pdfs") (initial_state ∅)
    = (Raise ValueError, initial_state ∅).
Proof.
  split.
  - destruct (pool_needs_two_cpus (Fixture.office 0 None) (str "./pdfs")
                (initial_state ∅)) as (_ & _ & Hok).
    apply Hok. vm_compute. discriminate.
  - destruct (pool_needs_two_cpus Cases.one_cpu (str "./pdfs")
                (initial_state ∅)) as (_ & Hfail & _).
    apply Hfail. vm_compute. discriminate.
Defined.

(** X13 on a directory with a text file only. *)
Lemma no_pdf_no_rows_witness :
  process_pdfs Cases.no_documents (str "./pdfs") (initial_state ∅)
  = (Ok [], initial_state ∅).
Proof.
  apply (no_pdf_no_rows Cases.no_documents (str "./pdfs") (initial_state ∅)).
  - vm_compute. discriminate.
  - reflexivity.
  - intros root file Hin. simpl in Hin.
    apply list_elem_of_singleton in Hin. injection Hin as _ ->.
    vm_compute. reflexivity.
Defined.

(** X14 on the test file, which has a malformed row, and on a query
    file that cannot be opened. *)
Lemma parsed_queries_are_valid_witness :
  (∃ queries s',
     read_queries_from_csv (Fixture.office 0 (Some Fixture.query_rows))
       (str "./queries.csv") (initial_state ∅)
     = (Ok queries, s')
     ∧ length queries = 2
     ∧ Forall (fun q => digits 8 q.1 ∧ digits 4 q.2) queries)
  ∧ returns (fun queries => queries = [])
      (read_queries_from_csv (Fixture.office 0 None) (str "./queries.csv")).
Proof.
  split.
  - destruct (parsed_queries_are_valid
                (Fixture.office 0 (Some Fixture.query_rows))
                (str "./queries.csv")) as (Hvalid & _).
    destruct (Hvalid (initial_state ∅)) as (queries & s' & Hrun & HF).
    exists queries, s'. split; [exact Hrun|]. split; [|exact HF].
    vm_compute in Hrun. injection Hrun as <- _. reflexivity.
  - destruct (parsed_queries_are_valid (Fixture.office 0 None)
                (str "./queries.csv")) as (_ & Hnone).
    apply Hnone. reflexivity.
Defined.

(** X15 on a file of three lines, the second one short. *)
Lemma short_row_stops_reading_witness :
  read_rows ([Cases.good_row] ++ Cases.short_row :: [Cases.good_row]) []
  = read_rows [Cases.good_row] [].
Proof.
  apply (short_row_stops_reading [Cases.good_row] [Cases.good_row]
           Cases.short_row).
  right. vm_compute. reflexivity.
Defined.

(** X17 on one query and the count 1. *)
Lemma export_path_tells_query_witness :
  digits 8 (str "12345678") ∧ digits 4 (str "1234")
  ∧ (str "12345678" = str "12345678" ∧ str "1234" = str "1234"
     ∧ Some 1 = Some 1).
Proof.
  assert (digits 8 (str "12345678")) as Hr
    by (apply digits_b_spec; vm_compute; reflexivity).
  assert (digits 4 (str "1234")) as Hl
    by (apply digits_b_spec; vm_compute; reflexivity).
  split; [exact Hr | split; [exact Hl|]].
  apply (export_path_tells_query (Fixture.office 0 None)
           (str "12345678") (str "12345678") (str "1234") (str "1234")
           (Some 1) (Some 1) Hr Hr Hl Hl).
  reflexivity.
Defined.

(** X20 with an engine that fails on the first call, and one that fails
    on the turned image. *)
Lemma recognition_failure_gives_no_record_witness :
  extract_info_from_page Cases.ocr_breaks (0, 0%Z) (State 0 1 [] ∅)
  = (Ok [], State 1 2 [EvOsd (0, 0%Z); EvOcr (0, 270%Z)] ∅)
  ∧ extract_info_from_page Cases.ocr_breaks (0, 0%Z) (initial_state ∅)
    = (Ok [],
       State 1 2 [EvOsd (0, 0%Z); EvOcr (0, 270%Z); EvOcr (0, 90%Z)] ∅).
Proof.
  split.
  - destruct (recognition_failure_gives_no_record Cases.ocr_breaks
                (0, 0%Z) (0, 270%Z) (State 0 1 [] ∅)
                (State 1 1 [EvOsd (0, 0%Z)] ∅)) as (Hfirst & _).
    + vm_compute. reflexivity.
    + apply Hfirst. reflexivity.
  - destruct (recognition_failure_gives_no_record Cases.ocr_breaks
                (0, 0%Z) (0, 270%Z) (initial_state ∅)
                (State 1 0 [EvOsd (0, 0%Z)] ∅)) as (_ & Hsecond).
    + vm_compute. reflexivity.
    + apply (Hsecond (str "~~")); [reflexivity | vm_compute; reflexivity
                                   | reflexivity].
Defined.
